(** * RosActionNode: the behaviour-tree adapter of a ROS 2 action client

    A shallow embedding of [include/behaviortree_ros2/bt_action_node.hpp]:
    the node object is a record, a member function is a computation in a
    state-and-exception monad over that record (an exception leaves the
    members as they were when it was thrown, as in C++), and everything the
    transport or the user code decides during one call is an explicit input
    of that call. The calls that leave the node are recorded in a trace;
    the log messages are left out. *)

From Stdlib Require Import Ascii String ZArith List Bool Lia.
From Stdlib Require Import Floats.SpecFloat.
Import ListNotations.
Local Open Scope string_scope.
Local Open Scope Z_scope.
Local Open Scope list_scope.

(** ** Types of the collaborators *)

(** [BT::NodeStatus] of behaviortree_cpp, in the version that provides
    [NodeConfig] and [emitWakeUpSignal], both used by the header. *)
Inductive NodeStatus : Set := IDLE | RUNNING | SUCCESS | FAILURE | SKIPPED.

Inductive ActionNodeErrorCode : Set :=
| SERVER_UNREACHABLE
| SEND_GOAL_TIMEOUT
| GOAL_REJECTED_BY_SERVER
| ACTION_ABORTED
| ACTION_CANCELLED
| INVALID_GOAL.

(** [rclcpp_action::ResultCode]. *)
Inductive ResultCode : Set := UNKNOWN | SUCCEEDED | CANCELED | ABORTED.

Definition NodeStatus_eq_dec (a b : NodeStatus) : {a = b} + {a <> b}.
Proof. decide equality. Defined.

Definition ResultCode_eq_dec (a b : ResultCode) : {a = b} + {a <> b}.
Proof. decide equality. Defined.

Definition ActionNodeErrorCode_eq_dec (a b : ActionNodeErrorCode) : {a = b} + {a <> b}.
Proof. decide equality. Defined.

Definition status_eqb (a b : NodeStatus) : bool :=
  if NodeStatus_eq_dec a b then true else false.

Definition is_null {A : Type} (pointer : option A) : bool :=
  match pointer with
  | Some _ => false
  | None => true
  end.

(** The exceptions the header throws, and the two failures of the C++
    runtime it can run into: a call through a null [action_client_], and a
    wait on a [shared_future] without shared state. *)
Inductive Exception : Set :=
| RuntimeError (what : string)      (* BT::RuntimeError *)
| logic_error (what : string)       (* std::logic_error *)
| runtime_error (what : string)     (* std::runtime_error *)
| null_action_client
| future_no_state.

Inductive Outcome (A : Type) : Type :=
| Normal (a : A)
| Thrown (e : Exception).
Arguments Normal {A} a.
Arguments Thrown {A} e.

(** An [rclcpp_action::ClientGoalHandle], by identity. *)
Definition GoalHandle : Set := nat.

(** [action_client_]: the client handed to the constructor, or one made by
    [createClient] for a server name. *)
Inductive ActionClient : Set :=
| external_client
| client_of (server_name : string).

(** ** The arithmetic of line 342

    The timeout is [rclcpp::Duration::from_seconds(double(ms) / 1000)].
    A C++ [double] is an IEEE 754 binary64 number: the standard library's
    [spec_float] with a mantissa of 53 bits, rounded to the nearest, ties
    to even. *)

Definition double : Set := spec_float.

(** [double(z)] for a 64-bit integer [z]. *)
Definition double_of_int (z : Z) : double := binary_normalize 53 1024 z 0 false.

Definition double_div : double -> double -> double := SFdiv 53 1024.
Definition double_mul : double -> double -> double := SFmul 53 1024.

(** [static_cast<int64_t>(d)]: the fraction is dropped. The cast of a value
    that does not fit is undefined in C++; what x86-64 produces then, the
    least 64-bit integer, is taken. *)
Definition int64_of_double (d : double) : Z :=
  match d with
  | S754_zero _ => 0
  | S754_finite s m e =>
      let z := cond_Zopp s (Z.shiftl (Zpos m) e) in
      if (- 2 ^ 63 <=? z) && (z <? 2 ^ 63) then z else - 2 ^ 63
  | _ => - 2 ^ 63
  end.

(** [rclcpp::Duration::from_seconds] of rclcpp, in nanoseconds:
    [static_cast<int64_t>(RCL_S_TO_NS(seconds))], where [RCL_S_TO_NS(s)] is
    [s * (1000LL * 1000LL * 1000LL)], a product of doubles. *)
Definition from_seconds (seconds : double) : Z :=
  int64_of_double (double_mul seconds (double_of_int (1000 * 1000 * 1000))).

Arguments double_of_int : simpl never.
Arguments double_div : simpl never.
Arguments double_mul : simpl never.
Arguments from_seconds : simpl never.

Section Action.

(** The template parameter [ActionT]. *)
Variables Goal Feedback Result : Type.

(** [WrappedResult]; [result_ = {}] is [no_result]. *)
Record WrappedResult : Type := {
  code : ResultCode;
  result : option Result
}.

Definition no_result : WrappedResult := {| code := UNKNOWN; result := None |}.

(** [future_goal_handle_]: [{}] has no shared state. *)
Inductive GoalFuture : Type :=
| no_state
| future_of (g : Goal).

(** The calls leaving the node: to the transport and to the user's virtual
    methods. The trace lists them latest first. *)
Inductive Call : Type :=
| create_client (server_name : string)
| wait_for_action_server (timeout_ms : Z) (found : bool)
| setGoal_called (accepted : bool)
| onFailure_called (error : ActionNodeErrorCode)
| onResultReceived_called (r : WrappedResult)
| onFeeback_called (fb : Feedback)
| emitWakeUpSignal
| async_send_goal (client : ActionClient) (g : Goal)
| async_cancel_goal (client : ActionClient) (h : option GoalHandle)
| cancel_wait (acknowledged : bool).

(** The members of [RosActionNode], with the status kept by the base class
    and the trace of calls. *)
Record RosActionNode : Type := {
  status : NodeStatus;
  prev_server_name_ : string;
  server_name_may_change_ : bool;
  server_timeout_ : Z;
  action_client_ : option ActionClient;
  future_goal_handle_ : GoalFuture;
  goal_handle_ : option GoalHandle;
  time_goal_sent_ : Z;
  on_feedback_state_change_ : NodeStatus;
  goal_received_ : bool;
  result_ : WrappedResult;
  trace : list Call
}.

Definition set_status v (n : RosActionNode) : RosActionNode :=
  {| status := v; prev_server_name_ := prev_server_name_ n;
     server_name_may_change_ := server_name_may_change_ n;
     server_timeout_ := server_timeout_ n; action_client_ := action_client_ n;
     future_goal_handle_ := future_goal_handle_ n; goal_handle_ := goal_handle_ n;
     time_goal_sent_ := time_goal_sent_ n;
     on_feedback_state_change_ := on_feedback_state_change_ n;
     goal_received_ := goal_received_ n; result_ := result_ n; trace := trace n |}.

Definition set_prev_server_name_ v (n : RosActionNode) : RosActionNode :=
  {| status := status n; prev_server_name_ := v;
     server_name_may_change_ := server_name_may_change_ n;
     server_timeout_ := server_timeout_ n; action_client_ := action_client_ n;
     future_goal_handle_ := future_goal_handle_ n; goal_handle_ := goal_handle_ n;
     time_goal_sent_ := time_goal_sent_ n;
     on_feedback_state_change_ := on_feedback_state_change_ n;
     goal_received_ := goal_received_ n; result_ := result_ n; trace := trace n |}.

Definition set_action_client_ v (n : RosActionNode) : RosActionNode :=
  {| status := status n; prev_server_name_ := prev_server_name_ n;
     server_name_may_change_ := server_name_may_change_ n;
     server_timeout_ := server_timeout_ n; action_client_ := v;
     future_goal_handle_ := future_goal_handle_ n; goal_handle_ := goal_handle_ n;
     time_goal_sent_ := time_goal_sent_ n;
     on_feedback_state_change_ := on_feedback_state_change_ n;
     goal_received_ := goal_received_ n; result_ := result_ n; trace := trace n |}.

Definition set_future_goal_handle_ v (n : RosActionNode) : RosActionNode :=
  {| status := status n; prev_server_name_ := prev_server_name_ n;
     server_name_may_change_ := server_name_may_change_ n;
     server_timeout_ := server_timeout_ n; action_client_ := action_client_ n;
     future_goal_handle_ := v; goal_handle_ := goal_handle_ n;
     time_goal_sent_ := time_goal_sent_ n;
     on_feedback_state_change_ := on_feedback_state_change_ n;
     goal_received_ := goal_received_ n; result_ := result_ n; trace := trace n |}.

Definition set_goal_handle_ v (n : RosActionNode) : RosActionNode :=
  {| status := status n; prev_server_name_ := prev_server_name_ n;
     server_name_may_change_ := server_name_may_change_ n;
     server_timeout_ := server_timeout_ n; action_client_ := action_client_ n;
     future_goal_handle_ := future_goal_handle_ n; goal_handle_ := v;
     time_goal_sent_ := time_goal_sent_ n;
     on_feedback_state_change_ := on_feedback_state_change_ n;
     goal_received_ := goal_received_ n; result_ := result_ n; trace := trace n |}.

Definition set_time_goal_sent_ v (n : RosActionNode) : RosActionNode :=
  {| status := status n; prev_server_name_ := prev_server_name_ n;
     server_name_may_change_ := server_name_may_change_ n;
     server_timeout_ := server_timeout_ n; action_client_ := action_client_ n;
     future_goal_handle_ := future_goal_handle_ n; goal_handle_ := goal_handle_ n;
     time_goal_sent_ := v;
     on_feedback_state_change_ := on_feedback_state_change_ n;
     goal_received_ := goal_received_ n; result_ := result_ n; trace := trace n |}.

Definition set_on_feedback_state_change_ v (n : RosActionNode) : RosActionNode :=
  {| status := status n; prev_server_name_ := prev_server_name_ n;
     server_name_may_change_ := server_name_may_change_ n;
     server_timeout_ := server_timeout_ n; action_client_ := action_client_ n;
     future_goal_handle_ := future_goal_handle_ n; goal_handle_ := goal_handle_ n;
     time_goal_sent_ := time_goal_sent_ n;
     on_feedback_state_change_ := v;
     goal_received_ := goal_received_ n; result_ := result_ n; trace := trace n |}.

Definition set_goal_received_ v (n : RosActionNode) : RosActionNode :=
  {| status := status n; prev_server_name_ := prev_server_name_ n;
     server_name_may_change_ := server_name_may_change_ n;
     server_timeout_ := server_timeout_ n; action_client_ := action_client_ n;
     future_goal_handle_ := future_goal_handle_ n; goal_handle_ := goal_handle_ n;
     time_goal_sent_ := time_goal_sent_ n;
     on_feedback_state_change_ := on_feedback_state_change_ n;
     goal_received_ := v; result_ := result_ n; trace := trace n |}.

Definition set_result_ v (n : RosActionNode) : RosActionNode :=
  {| status := status n; prev_server_name_ := prev_server_name_ n;
     server_name_may_change_ := server_name_may_change_ n;
     server_timeout_ := server_timeout_ n; action_client_ := action_client_ n;
     future_goal_handle_ := future_goal_handle_ n; goal_handle_ := goal_handle_ n;
     time_goal_sent_ := time_goal_sent_ n;
     on_feedback_state_change_ := on_feedback_state_change_ n;
     goal_received_ := goal_received_ n; result_ := v; trace := trace n |}.

Definition add_call (c : Call) (n : RosActionNode) : RosActionNode :=
  {| status := status n; prev_server_name_ := prev_server_name_ n;
     server_name_may_change_ := server_name_may_change_ n;
     server_timeout_ := server_timeout_ n; action_client_ := action_client_ n;
     future_goal_handle_ := future_goal_handle_ n; goal_handle_ := goal_handle_ n;
     time_goal_sent_ := time_goal_sent_ n;
     on_feedback_state_change_ := on_feedback_state_change_ n;
     goal_received_ := goal_received_ n; result_ := result_ n;
     trace := c :: trace n |}.

Arguments set_status _ _ /.
Arguments set_prev_server_name_ _ _ /.
Arguments set_action_client_ _ _ /.
Arguments set_future_goal_handle_ _ _ /.
Arguments set_goal_handle_ _ _ /.
Arguments set_time_goal_sent_ _ _ /.
Arguments set_on_feedback_state_change_ _ _ /.
Arguments set_goal_received_ _ _ /.
Arguments set_result_ _ _ /.
Arguments add_call _ _ /.

(** ** The monad of member functions *)

Definition M (A : Type) : Type := RosActionNode -> Outcome A * RosActionNode.

Definition ret {A} (a : A) : M A := fun n => (Normal a, n).

Definition bind {A B} (m : M A) (k : A -> M B) : M B :=
  fun n => match m n with
           | (Normal a, n') => k a n'
           | (Thrown e, n') => (Thrown e, n')
           end.

Definition throw {A} (e : Exception) : M A := fun n => (Thrown e, n).
Definition this : M RosActionNode := fun n => (Normal n, n).
Definition assign (f : RosActionNode -> RosActionNode) : M unit :=
  fun n => (Normal tt, f n).
Definition call (c : Call) : M unit := assign (add_call c).
Definition lift {A} (o : Outcome A) : M A := fun n => (o, n).

Notation "x <- m ; k" := (bind m (fun x => k))
  (at level 61, m at next level, right associativity).
Notation "m ;; k" := (bind m (fun _ => k))
  (at level 61, right associativity).

(** ** What the outside decides during one call *)

(** A callback the executor runs while the node spins: one of the three
    registered in [goal_options]. *)
Inductive Notification : Type :=
| goal_response (h : option GoalHandle)
| feedback (fb : Feedback)
| wrapped_result (r : WrappedResult).

(** The bounded wait of [cancelGoal]: the callbacks run while it spins, and
    whether the cancel future completed in time. *)
Record CancelWait : Type := {
  cancel_deliveries : list Notification;
  acknowledged : bool
}.

(** One call of [tick]: the value of port [server_name] (empty when
    [getInput] fails), the answer of [wait_for_action_server], what
    [setGoal] produces, the reading of [node_->now()] in nanoseconds, the
    callbacks run by [spin_some] and by the zero-delay
    [spin_until_future_complete], the state of the goal future there
    ([None]: not complete; [Some None]: complete with a null handle, the
    goal was rejected; [Some (Some h)]: accepted), and the wait of
    [cancelGoal]. The difference of two readings of the clock is their
    difference in [Z]: both are counts of nanoseconds of one clock. *)
Record Poll : Type := {
  input_server_name : string;
  server_found : bool;
  user_goal : option Goal;
  now : Z;
  spin_some_deliveries : list Notification;
  future_deliveries : list Notification;
  future_complete : option (option GoalHandle);
  cancel : CancelWait
}.

(** The virtual methods a derived class supplies. [setGoal] reads the ports
    of the poll, so its outcome is in [Poll]. *)
Variable onResultReceived : WrappedResult -> NodeStatus.
Variable onFeeback : Feedback -> NodeStatus.
Variable onFailure : ActionNodeErrorCode -> NodeStatus.

(** ** The callbacks of [goal_options] (lines 295-325) *)

Definition feedback_callback (fb : Feedback) : M unit :=
  call (onFeeback_called fb) ;;
  assign (set_on_feedback_state_change_ (onFeeback fb)) ;;
  n <- this ;
  if status_eqb (on_feedback_state_change_ n) IDLE
  then throw (logic_error "onFeeback must not retunr IDLE")
  else call emitWakeUpSignal.

Definition result_callback (r : WrappedResult) : M unit :=
  assign (set_result_ r) ;;
  call emitWakeUpSignal.

(** Its [goal_handle_] is a local of the lambda: the member is untouched. *)
Definition goal_response_callback (h : option GoalHandle) : M unit :=
  ret tt.

Definition notify (x : Notification) : M unit :=
  match x with
  | goal_response h => goal_response_callback h
  | feedback fb => feedback_callback fb
  | wrapped_result r => result_callback r
  end.

(** The executor runs the ready callbacks in order; an exception of one
    leaves the spin. *)
Fixpoint spin (xs : list Notification) : M unit :=
  match xs with
  | [] => ret tt
  | x :: xs' => notify x ;; spin xs'
  end.

(** ** createClient (lines 227-246) *)

Definition createClient (found : bool) (server_name : string) : M bool :=
  if string_dec server_name ""
  then throw (RuntimeError "server_name is empty")
  else
    call (create_client server_name) ;;
    assign (set_action_client_ (Some (client_of server_name))) ;;
    assign (set_prev_server_name_ server_name) ;;
    n <- this ;
    call (wait_for_action_server (server_timeout_ n) found) ;;
    ret found.

(** ** cancelGoal (lines 403-414) *)

Definition cancelGoal (w : CancelWait) : M unit :=
  n <- this ;
  match action_client_ n with
  | None => throw null_action_client
  | Some c =>
      call (async_cancel_goal c (goal_handle_ n)) ;;
      spin (cancel_deliveries w) ;;
      call (cancel_wait (acknowledged w))
  end.

(** ** halt (lines 394-401) *)

Definition halt (w : CancelWait) : M unit :=
  n <- this ;
  if status_eqb (status n) RUNNING then cancelGoal w else ret tt.

(** ** tick (lines 249-392) *)

Definition CheckStatus (s : NodeStatus) : Outcome NodeStatus :=
  if negb (status_eqb s SUCCESS) && negb (status_eqb s FAILURE)
  then Thrown (logic_error "RosActionNode: the callback must return either SUCCESS of FAILURE")
  else Normal s.

Definition call_onFailure (e : ActionNodeErrorCode) : M NodeStatus :=
  call (onFailure_called e) ;; ret (onFailure e).

Definition call_onResultReceived (r : WrappedResult) : M NodeStatus :=
  call (onResultReceived_called r) ;; ret (onResultReceived r).

Definition call_setGoal (p : Poll) : M (option Goal) :=
  call (setGoal_called (negb (is_null (user_goal p)))) ;;
  ret (user_goal p).

(** Lines 255-263. The value [createClient] returns is dropped. *)
Definition bind_client (p : Poll) : M unit :=
  n <- this ;
  if is_null (action_client_ n)
     || (status_eqb (status n) IDLE && server_name_may_change_ n)
  then
    let server_name := input_server_name p in
    if string_dec (prev_server_name_ n) server_name
    then ret tt
    else createClient (server_found p) server_name ;; ret tt
  else ret tt.

(** Lines 276-332, the body of [if (status() == IDLE)]. *)
Definition start_goal (p : Poll) : M NodeStatus :=
  assign (set_status RUNNING) ;;
  assign (set_goal_received_ false) ;;
  assign (set_future_goal_handle_ no_state) ;;
  assign (set_on_feedback_state_change_ RUNNING) ;;
  assign (set_result_ no_result) ;;
  g <- call_setGoal p ;
  match g with
  | None =>
      s <- call_onFailure INVALID_GOAL ;
      lift (CheckStatus s)
  | Some goal =>
      n <- this ;
      match action_client_ n with
      | None => throw null_action_client
      | Some c =>
          call (async_send_goal c goal) ;;
          assign (set_future_goal_handle_ (future_of goal)) ;;
          assign (set_time_goal_sent_ (now p)) ;;
          ret RUNNING
      end
  end.

(** Lines 339-367, the FIRST case. [Some s] is [return s]; [None] falls
    through to the SECOND case. *)
Definition await_acceptance (p : Poll) : M (option NodeStatus) :=
  n <- this ;
  if goal_received_ n then ret None
  else
    let timeout :=
      from_seconds (double_div (double_of_int (server_timeout_ n))
                               (double_of_int 1000)) in
    match future_goal_handle_ n with
    | no_state => throw future_no_state
    | future_of _ =>
        spin (future_deliveries p) ;;
        match future_complete p with
        | None =>
            n <- this ;
            if now p - time_goal_sent_ n >? timeout
            then
              s <- call_onFailure SEND_GOAL_TIMEOUT ;
              s' <- lift (CheckStatus s) ;
              ret (Some s')
            else ret (Some RUNNING)
        | Some h =>
            assign (set_goal_received_ true) ;;
            assign (set_goal_handle_ h) ;;
            assign (set_future_goal_handle_ no_state) ;;
            match h with
            | None => throw (runtime_error "Goal was rejected by the action server")
            | Some _ => ret None
            end
        end
    end.

(** Lines 369-391, the SECOND and THIRD cases. *)
Definition conclude (p : Poll) : M NodeStatus :=
  n <- this ;
  if negb (status_eqb (on_feedback_state_change_ n) RUNNING)
  then
    cancelGoal (cancel p) ;;
    n' <- this ;
    ret (on_feedback_state_change_ n')
  else
    if ResultCode_eq_dec (code (result_ n)) UNKNOWN
    then ret RUNNING
    else if ResultCode_eq_dec (code (result_ n)) ABORTED
    then s <- call_onFailure ACTION_ABORTED ; lift (CheckStatus s)
    else if ResultCode_eq_dec (code (result_ n)) CANCELED
    then s <- call_onFailure ACTION_CANCELLED ; lift (CheckStatus s)
    else s <- call_onResultReceived (result_ n) ; lift (CheckStatus s).

(** Lines 334-390, the body of [if (status() == RUNNING)]. *)
Definition poll_goal (p : Poll) : M NodeStatus :=
  spin (spin_some_deliveries p) ;;
  early <- await_acceptance p ;
  match early with
  | Some s => ret s
  | None => conclude p
  end.

Definition tick (p : Poll) : M NodeStatus :=
  bind_client p ;;
  n <- this ;
  if status_eqb (status n) IDLE then start_goal p
  else if status_eqb (status n) RUNNING then poll_goal p
  else ret RUNNING.

(** ** The constructor (lines 158-225) *)

Record ActionNodeParams : Type := {
  default_server_name : string;
  server_timeout : Z
}.

(** What the constructor reads of the [NodeConfig]: whether
    [getInput("server_name")] succeeds, and the entry of [input_ports]. *)
Record NodeConfig : Type := {
  server_name_declared : bool;
  server_name_port : option string
}.

(** The members without an initialiser hold whatever the memory held. *)
Record Indeterminate : Type := {
  some_status : NodeStatus;
  some_flag : bool;
  some_result : WrappedResult
}.

Definition members (params : ActionNodeParams) (u : Indeterminate) : RosActionNode :=
  {| status := IDLE;
     prev_server_name_ := "";
     server_name_may_change_ := false;
     server_timeout_ := server_timeout params;
     action_client_ := None;
     future_goal_handle_ := no_state;
     goal_handle_ := None;
     time_goal_sent_ := 0;
     on_feedback_state_change_ := some_status u;
     goal_received_ := some_flag u;
     result_ := some_result u;
     trace := [] |}.

Definition set_server_name_may_change_ v (n : RosActionNode) : RosActionNode :=
  {| status := status n; prev_server_name_ := prev_server_name_ n;
     server_name_may_change_ := v;
     server_timeout_ := server_timeout_ n; action_client_ := action_client_ n;
     future_goal_handle_ := future_goal_handle_ n; goal_handle_ := goal_handle_ n;
     time_goal_sent_ := time_goal_sent_ n;
     on_feedback_state_change_ := on_feedback_state_change_ n;
     goal_received_ := goal_received_ n; result_ := result_ n; trace := trace n |}.

(** [isBlackboardPointer] is behaviortree_cpp's. *)
Variable isBlackboardPointer : string -> bool.

Definition both_empty : Exception :=
  logic_error "Both [server_name] in the InputPort and the ActionNodeParams are empty.".

Definition construct (conf : NodeConfig) (params : ActionNodeParams)
    (external_action_client : bool) (found : bool) : M unit :=
  if external_action_client
  then assign (set_action_client_ (Some external_client))
  else
    if negb (server_name_declared conf)
    then throw (logic_error "Can't find port [server_name]. Did you forget to use RosActionNode::providedBasicPorts() in your derived class?")
    else
      match server_name_port conf with
      | Some bb_server_name =>
          if (if string_dec bb_server_name "" then true else false)
             || (if string_dec bb_server_name "__default__placeholder__" then true else false)
          then
            if string_dec (default_server_name params) ""
            then throw both_empty
            else createClient found (default_server_name params) ;; ret tt
          else if negb (isBlackboardPointer bb_server_name)
          then createClient found bb_server_name ;; ret tt
          else assign (set_server_name_may_change_ true)
      | None =>
          if string_dec (default_server_name params) ""
          then throw both_empty
          else createClient found (default_server_name params) ;; ret tt
      end.

(** ** The host's side of one activation

    The tree polls the node while it answers RUNNING and resets it to IDLE
    once it answers anything else; when the tree gives the node up before
    that, it calls [halt] and resets it. An exception ends the run of the
    tree. *)

Inductive Ending : Set :=
| Completed (s : NodeStatus)
| Halted
| Aborted (e : Exception).

Fixpoint activation (polls : list Poll) (w : CancelWait) (n : RosActionNode)
    : Ending * RosActionNode :=
  match polls with
  | [] =>
      match halt w n with
      | (Normal _, n') => (Halted, set_status IDLE n')
      | (Thrown e, n') => (Aborted e, n')
      end
  | p :: polls' =>
      match tick p n with
      | (Normal s, n') =>
          if status_eqb s RUNNING
          then activation polls' w (set_status RUNNING n')
          else (Completed s, set_status IDLE n')
      | (Thrown e, n') => (Aborted e, n')
      end
  end.

(** ** Counting the calls of a trace *)

Definition is_dispatch (c : Call) : bool :=
  match c with
  | onFailure_called _ | onResultReceived_called _ => true
  | _ => false
  end.

Definition is_cancellation (c : Call) : bool :=
  match c with
  | async_cancel_goal _ _ => true
  | _ => false
  end.

Definition is_submission (c : Call) : bool :=
  match c with
  | async_send_goal _ _ => true
  | _ => false
  end.

Definition is_binding (c : Call) : bool :=
  match c with
  | create_client _ => true
  | _ => false
  end.

Definition is_report (e : ActionNodeErrorCode) (c : Call) : bool :=
  match c with
  | onFailure_called e' => if ActionNodeErrorCode_eq_dec e e' then true else false
  | _ => false
  end.

Definition count (f : Call -> bool) (n : RosActionNode) : nat :=
  length (filter f (trace n)).

Definition dispatches : RosActionNode -> nat := count is_dispatch.
Definition cancellations : RosActionNode -> nat := count is_cancellation.
Definition submissions : RosActionNode -> nat := count is_submission.
Definition reports (e : ActionNodeErrorCode) : RosActionNode -> nat := count (is_report e).
Definition bindings : RosActionNode -> nat := count is_binding.

(** The calls a delivered callback makes: none of the above. *)
Definition of_bridge (c : Call) : bool :=
  match c with
  | onFeeback_called _ | emitWakeUpSignal => true
  | _ => false
  end.

(** ** Properties of the deliveries of a spin *)

Definition is_feedback (x : Notification) : bool :=
  match x with
  | feedback _ => true
  | _ => false
  end.

(** No feedback callback among the deliveries. *)
Definition no_feedback (xs : list Notification) : bool :=
  forallb (fun x => negb (is_feedback x)) xs.

(** No feedback callback of the deliveries returns IDLE. *)
Definition feedback_not_IDLE (xs : list Notification) : bool :=
  forallb (fun x => match x with
                    | feedback fb => negb (status_eqb (onFeeback fb) IDLE)
                    | _ => true
                    end) xs.

(** Every feedback callback of the deliveries returns RUNNING. *)
Definition feedback_RUNNING (xs : list Notification) : bool :=
  forallb (fun x => match x with
                    | feedback fb => status_eqb (onFeeback fb) RUNNING
                    | _ => true
                    end) xs.

(** The result the result callbacks leave in [result_]. *)
Definition latest_result (xs : list Notification) (r0 : WrappedResult) : WrappedResult :=
  fold_left (fun r x => match x with
                        | wrapped_result r' => r'
                        | _ => r
                        end) xs r0.

(** The poll [p] with another value in port [server_name] and another
    answer of the reachability probe. *)
Definition with_server (name : string) (found : bool) (p : Poll) : Poll :=
  {| input_server_name := name;
     server_found := found;
     user_goal := user_goal p;
     now := now p;
     spin_some_deliveries := spin_some_deliveries p;
     future_deliveries := future_deliveries p;
     future_complete := future_complete p;
     cancel := cancel p |}.

(** Lines 255-263: whether [tick] calls [createClient]. *)
Definition rebinds (p : Poll) (n : RosActionNode) : bool :=
  (is_null (action_client_ n)
   || (status_eqb (status n) IDLE && server_name_may_change_ n))
  && (if string_dec (prev_server_name_ n) (input_server_name p) then false else true).

(** ** Relations between the node before and after a call *)

(** The members no delivered callback assigns. *)
Definition same_goal (n n' : RosActionNode) : Prop :=
  status n' = status n /\
  prev_server_name_ n' = prev_server_name_ n /\
  server_name_may_change_ n' = server_name_may_change_ n /\
  server_timeout_ n' = server_timeout_ n /\
  action_client_ n' = action_client_ n /\
  future_goal_handle_ n' = future_goal_handle_ n /\
  goal_handle_ n' = goal_handle_ n /\
  time_goal_sent_ n' = time_goal_sent_ n /\
  goal_received_ n' = goal_received_ n.

(** [n'] extends the trace of [n] by calls of delivered callbacks only. *)
Definition bridge_only (n n' : RosActionNode) : Prop :=
  exists l, trace n' = l ++ trace n /\ forallb of_bridge l = true.

(** The bookkeeping of one [tick]: a dispatch ends the poll with something
    other than RUNNING; a poll that ends so without a dispatch has issued a
    cancellation. *)
Definition accounted (n : RosActionNode) (o : Outcome NodeStatus)
    (n' : RosActionNode) : Prop :=
  (cancellations n <= cancellations n')%nat /\
  match o with
  | Normal s =>
      if status_eqb s RUNNING
      then dispatches n' = dispatches n
      else dispatches n' = S (dispatches n) \/
           (dispatches n' = dispatches n /\
            (cancellations n < cancellations n')%nat)
  | Thrown _ => (dispatches n <= dispatches n' <= S (dispatches n))%nat
  end.

(** The state once the goal future completed with handle [h]
    (lines 359-361). *)
Definition accepted (h : option GoalHandle) (n : RosActionNode) : RosActionNode :=
  set_future_goal_handle_ no_state (set_goal_handle_ h (set_goal_received_ true n)).

(** No poll of the list finds the goal future complete. *)
Definition unaccepted (polls : list Poll) : bool :=
  forallb (fun q => is_null (future_complete q)) polls.

(** The failure kinds that no path of [tick] passes to [onFailure]. *)
Definition unused (e : ActionNodeErrorCode) : Prop :=
  e = SERVER_UNREACHABLE \/ e = GOAL_REJECTED_BY_SERVER.

(** ** The ports of the node (lines 77-93)

    [BT::PortsList] is an [unordered_map] from port names to [PortInfo];
    it is kept here as the list of its pairs, read by [find_port]. The
    [insert] of [unordered_map] leaves a key that is present as it is. *)

Inductive PortDirection : Set := INPUT | OUTPUT | INOUT.

Record PortInfo : Set := {
  port_direction : PortDirection;
  port_default : option string;
  port_description : string
}.

Definition PortsList : Set := list (string * PortInfo).

Fixpoint find_port (name : string) (ports : PortsList) : option PortInfo :=
  match ports with
  | [] => None
  | (k, info) :: ports' =>
      if string_dec k name then Some info else find_port name ports'
  end.

Definition insert_port (kv : string * PortInfo) (ports : PortsList) : PortsList :=
  if is_null (find_port (fst kv) ports) then kv :: ports else ports.

(** [insert(first, last)]: the pairs of the range, one after the other. *)
Definition insert_ports (range : PortsList) (ports : PortsList) : PortsList :=
  fold_left (fun acc kv => insert_port kv acc) range ports.

(** [BT::InputPort<std::string>(name, default_value, description)]. *)
Definition InputPort (name default_value description : string)
    : string * PortInfo :=
  (name, {| port_direction := INPUT;
            port_default := Some default_value;
            port_description := description |}).

Definition providedBasicPorts (addition : PortsList) : PortsList :=
  let basic :=
    [InputPort "server_name" "__default__placeholder__" "Action server name"] in
  insert_ports addition basic.

Definition providedPorts : PortsList := providedBasicPorts [].

(** ** Nodes that differ in the members without initialiser only *)

Definition agree (n1 n2 : RosActionNode) : Prop :=
  status n1 = status n2 /\
  prev_server_name_ n1 = prev_server_name_ n2 /\
  server_name_may_change_ n1 = server_name_may_change_ n2 /\
  server_timeout_ n1 = server_timeout_ n2 /\
  action_client_ n1 = action_client_ n2 /\
  future_goal_handle_ n1 = future_goal_handle_ n2 /\
  goal_handle_ n1 = goal_handle_ n2 /\
  time_goal_sent_ n1 = time_goal_sent_ n2 /\
  trace n1 = trace n2.

(** A client made by [createClient] goes with its name in
    [prev_server_name_], and that name is not empty. *)
Definition bound (n : RosActionNode) : Prop :=
  forall name, action_client_ n = Some (client_of name) ->
               prev_server_name_ n = name /\ name <> "".

(** The configuration is kept and no goal is sent. *)
Definition quiet (n n' : RosActionNode) : Prop :=
  server_name_may_change_ n' = server_name_may_change_ n /\
  server_timeout_ n' = server_timeout_ n /\
  submissions n' = submissions n.

(** Once the acceptance was seen, the node holds the handle of the goal. *)
Definition handle_known (n : RosActionNode) : Prop :=
  goal_received_ n = true -> goal_handle_ n <> None.

(** The calls of [onFailure]. *)
Definition is_failure_call (c : Call) : bool :=
  match c with
  | onFailure_called _ => true
  | _ => false
  end.

Definition failures : RosActionNode -> nat := count is_failure_call.

(** The three statuses a poll may answer. *)
Definition answer (s : NodeStatus) : Prop :=
  s = RUNNING \/ s = SUCCESS \/ s = FAILURE.

(** The node after polls that all answer RUNNING, as the tree leaves it
    after each of them; [None] when one of them answers something else or
    throws. *)
Fixpoint pending (polls : list Poll) (n : RosActionNode)
    : option RosActionNode :=
  match polls with
  | [] => Some n
  | p :: polls' =>
      match tick p n with
      | (Normal RUNNING, n') => pending polls' (set_status RUNNING n')
      | _ => None
      end
  end.

(** * Properties *)

Ltac run :=
  unfold bind, ret, throw, this, assign, call, lift in *; cbn in *.

(** The two cases of the comparison of line 346. *)
Ltac case_timeout :=
  match goal with
  | |- context [?elapsed >? from_seconds ?seconds] =>
      destruct (elapsed >? from_seconds seconds)
  end.

(** ** What a spin can and cannot change *)

Lemma same_goal_refl n : same_goal n n.
Proof. repeat split. Qed.

Lemma same_goal_trans n1 n2 n3 :
  same_goal n1 n2 -> same_goal n2 n3 -> same_goal n1 n3.
Proof. unfold same_goal; intuition congruence. Qed.

Lemma bridge_only_refl n : bridge_only n n.
Proof. exists []; split; reflexivity. Qed.

Lemma bridge_only_trans n1 n2 n3 :
  bridge_only n1 n2 -> bridge_only n2 n3 -> bridge_only n1 n3.
Proof.
  intros [l1 [E1 F1]] [l2 [E2 F2]]. exists (l2 ++ l1). split.
  - rewrite E2, E1. apply app_assoc.
  - rewrite forallb_app, F1, F2. reflexivity.
Qed.

Lemma count_app f l (n n' : RosActionNode) :
  trace n' = l ++ trace n -> count f n' = (length (filter f l) + count f n)%nat.
Proof. unfold count. intros ->. rewrite filter_app, length_app. reflexivity. Qed.

Lemma bridge_only_count f n n' :
  (forall c, of_bridge c = true -> f c = false) ->
  bridge_only n n' -> count f n' = count f n.
Proof.
  intros Hf [l [E F]]. rewrite (count_app f l n n' E).
  replace (filter f l) with (@nil Call); [reflexivity|].
  clear E. induction l as [|c l IH]; [reflexivity|].
  cbn in F. apply andb_true_iff in F as [Fc Fl].
  cbn. rewrite (Hf c Fc). auto.
Qed.

Lemma bridge_only_counts n n' :
  bridge_only n n' ->
  dispatches n' = dispatches n /\ cancellations n' = cancellations n /\
  submissions n' = submissions n /\ forall e, reports e n' = reports e n.
Proof.
  intro B. repeat split; intros; apply bridge_only_count; trivial;
    intros [] H; try reflexivity; discriminate H.
Qed.

Lemma notify_frame x n o n' :
  notify x n = (o, n') -> same_goal n n' /\ bridge_only n n'.
Proof.
  destruct x as [h|fb|r]; unfold notify, goal_response_callback,
    feedback_callback, result_callback; run.
  - intros [= <- <-]. split; [apply same_goal_refl|apply bridge_only_refl].
  - destruct (status_eqb (onFeeback fb) IDLE); intros [= <- <-];
      (split; [repeat split|]).
    + exists [onFeeback_called fb]. split; reflexivity.
    + exists [emitWakeUpSignal; onFeeback_called fb]. split; reflexivity.
  - intros [= <- <-]. split; [repeat split|].
    exists [emitWakeUpSignal]. split; reflexivity.
Qed.

Lemma spin_frame xs : forall n o n',
  spin xs n = (o, n') -> same_goal n n' /\ bridge_only n n'.
Proof.
  induction xs as [|x xs IH]; intros n o n'; cbn [spin].
  - run. intros [= <- <-]. split; [apply same_goal_refl|apply bridge_only_refl].
  - unfold bind. destruct (notify x n) as [[[]|e] n1] eqn:E;
      apply notify_frame in E as [S1 B1].
    + intro H. apply IH in H as [S2 B2].
      split; [eapply same_goal_trans|eapply bridge_only_trans]; eassumption.
    + intros [= <- <-]. split; assumption.
Qed.

Lemma spin_app xs ys n :
  spin (xs ++ ys) n =
  match spin xs n with
  | (Normal _, n1) => spin ys n1
  | (Thrown e, n1) => (Thrown e, n1)
  end.
Proof.
  revert n. induction xs as [|x xs IH]; intro n; cbn [spin app].
  - reflexivity.
  - unfold bind. destruct (notify x n) as [[[]|e] n1]; [apply IH|reflexivity].
Qed.

(** A spin whose feedback callbacks do not return IDLE ends normally, with
    the latest delivered result in [result_]. *)
Lemma spin_normal xs : forall n,
  feedback_not_IDLE xs = true ->
  exists n', spin xs n = (Normal tt, n') /\
             result_ n' = latest_result xs (result_ n).
Proof.
  induction xs as [|x xs IH]; intros n F; cbn [spin].
  - exists n. split; reflexivity.
  - cbn in F. apply andb_true_iff in F as [Fx Fxs].
    unfold bind. destruct x as [h|fb|r]; unfold notify, goal_response_callback,
      feedback_callback, result_callback; run.
    + apply IH; assumption.
    + apply negb_true_iff in Fx. rewrite Fx.
      edestruct IH as [n' [E R]]; [exact Fxs|]. exists n'. split; [exact E|exact R].
    + edestruct IH as [n' [E R]]; [exact Fxs|]. exists n'. split; [exact E|exact R].
Qed.

(** Without a feedback callback the feedback slot keeps its value. *)
Lemma spin_no_feedback xs : forall n,
  no_feedback xs = true ->
  exists n', spin xs n = (Normal tt, n') /\
             on_feedback_state_change_ n' = on_feedback_state_change_ n.
Proof.
  induction xs as [|x xs IH]; intros n F; cbn [spin].
  - exists n. split; reflexivity.
  - cbn in F. apply andb_true_iff in F as [Fx Fxs].
    unfold bind. destruct x as [h|fb|r]; try discriminate Fx;
      unfold notify, goal_response_callback, result_callback; run.
    + apply IH; assumption.
    + edestruct IH as [n' [E R]]; [exact Fxs|]. exists n'. split; [exact E|exact R].
Qed.

(** While every feedback callback returns RUNNING, the slot stays RUNNING. *)
Lemma spin_RUNNING xs : forall n,
  feedback_RUNNING xs = true ->
  on_feedback_state_change_ n = RUNNING ->
  exists n', spin xs n = (Normal tt, n') /\
             on_feedback_state_change_ n' = RUNNING /\
             result_ n' = latest_result xs (result_ n).
Proof.
  induction xs as [|x xs IH]; intros n F R0; cbn [spin].
  - exists n. repeat split; assumption.
  - cbn in F. apply andb_true_iff in F as [Fx Fxs].
    unfold bind. destruct x as [h|fb|r]; unfold notify, goal_response_callback,
      feedback_callback, result_callback; run.
    + apply IH; assumption.
    + unfold status_eqb in Fx.
      destruct (NodeStatus_eq_dec (onFeeback fb) RUNNING) as [e|]; [|discriminate].
      rewrite e. cbn.
      edestruct IH as [n' [E R]]; [exact Fxs| |exists n'; split; [exact E|exact R]].
      reflexivity.
    + edestruct IH as [n' [E R]]; [exact Fxs| |exists n'; split; [exact E|exact R]].
      exact R0.
Qed.

(** ** How one call moves the counters *)

Ltac counters :=
  unfold dispatches, cancellations, submissions, reports, bindings, count in *;
  cbn in *.

Lemma createClient_counts found name n o n' :
  createClient found name n = (o, n') ->
  dispatches n' = dispatches n /\ cancellations n' = cancellations n /\
  submissions n' = submissions n /\ (forall e, reports e n' = reports e n).
Proof.
  unfold createClient. destruct (string_dec name ""); run;
    intros [= <- <-]; repeat split.
Qed.

Lemma bind_client_counts p n o n' :
  bind_client p n = (o, n') ->
  dispatches n' = dispatches n /\ cancellations n' = cancellations n /\
  submissions n' = submissions n /\ (forall e, reports e n' = reports e n).
Proof.
  unfold bind_client, bind at 1, this.
  destruct (is_null (action_client_ n) || _).
  - destruct (string_dec (prev_server_name_ n) (input_server_name p)).
    + intros [= <- <-]. repeat split.
    + unfold bind.
      destruct (createClient _ _ n) as [[b|e] n1] eqn:E;
        apply createClient_counts in E; intros [= <- <-]; exact E.
  - intros [= <- <-]. repeat split.
Qed.

Lemma bind_client_status p n o n' :
  bind_client p n = (o, n') -> status n' = status n.
Proof.
  unfold bind_client, createClient, bind at 1, this.
  destruct (is_null (action_client_ n) || _);
    [destruct (string_dec (prev_server_name_ n) (input_server_name p));
     [|destruct (string_dec (input_server_name p) "")]|];
    run; intros [= <- <-]; reflexivity.
Qed.

(** The counters after [cancelGoal]: one more cancellation once the request
    is out, no dispatch. *)
Lemma cancelGoal_counts w n o n' :
  cancelGoal w n = (o, n') ->
  dispatches n' = dispatches n /\ submissions n' = submissions n /\
  (forall e, reports e n' = reports e n) /\
  match action_client_ n with
  | Some _ => cancellations n' = S (cancellations n)
  | None => n' = n /\ o = Thrown null_action_client
  end.
Proof.
  unfold cancelGoal, bind at 1, this.
  destruct (action_client_ n) as [c|].
  - unfold bind at 1, call, assign.
    unfold bind.
    destruct (spin (cancel_deliveries w) _) as [[[]|e] n1] eqn:E;
      apply spin_frame in E as [_ B];
      apply bridge_only_counts in B as (D & C & Sb & R);
      intros [= <- <-]; counters; repeat split; intros; auto.
  - unfold throw. intros [= <- <-]. repeat split.
Qed.

Lemma halt_counts w n o n' :
  halt w n = (o, n') ->
  dispatches n' = dispatches n /\ (cancellations n <= cancellations n')%nat.
Proof.
  unfold halt, bind, this.
  destruct (status_eqb (status n) RUNNING).
  - intro H. apply cancelGoal_counts in H as (D & _ & _ & C). split; [exact D|].
    destruct (action_client_ n); [lia|]. destruct C as [-> _]. lia.
  - run. intros [= <- <-]. split; [reflexivity|lia].
Qed.

Lemma CheckStatus_cases s :
  (CheckStatus s = Normal s /\ status_eqb s RUNNING = false) \/
  (exists e, CheckStatus s = Thrown e).
Proof. destruct s; cbn; eauto. Qed.

Lemma accounted_shift n0 n o n' :
  dispatches n = dispatches n0 -> cancellations n = cancellations n0 ->
  accounted n o n' -> accounted n0 o n'.
Proof. unfold accounted. intros -> ->. trivial. Qed.

Lemma checked_accounted n s n' :
  dispatches n' = S (dispatches n) -> cancellations n' = cancellations n ->
  accounted n (CheckStatus s) n'.
Proof.
  intros D C. unfold accounted.
  destruct (CheckStatus_cases s) as [[E R]|[x E]]; rewrite E, ?R; split; lia.
Qed.

Lemma start_goal_accounted p n o n' :
  start_goal p n = (o, n') -> accounted n o n'.
Proof.
  unfold start_goal, call_setGoal, call_onFailure. run.
  destruct (user_goal p) as [g|]; cbn.
  - destruct (action_client_ n); intros [= <- <-]; unfold accounted; counters;
      split; lia.
  - intros [= <- <-]. apply checked_accounted; reflexivity.
Qed.

Lemma conclude_accounted p n o n' :
  conclude p n = (o, n') -> accounted n o n'.
Proof.
  unfold conclude, bind at 1, this.
  destruct (negb (status_eqb (on_feedback_state_change_ n) RUNNING)).
  - unfold bind at 1.
    destruct (cancelGoal (cancel p) n) as [[[]|e] n1] eqn:E;
      apply cancelGoal_counts in E as (D & _ & _ & C); run; intros [= <- <-];
      unfold accounted.
    + destruct (action_client_ n); [|destruct C as [_ C]; discriminate C].
      split; [lia|]. destruct (status_eqb _ RUNNING); [exact D|].
      right. split; [exact D|lia].
    + destruct (action_client_ n); [|destruct C as [-> _]]; split; lia.
  - unfold call_onFailure, call_onResultReceived.
    destruct (ResultCode_eq_dec (code (result_ n)) UNKNOWN).
    { run. intros [= <- <-]. unfold accounted. cbn. split; [lia|reflexivity]. }
    destruct (ResultCode_eq_dec (code (result_ n)) ABORTED);
      [|destruct (ResultCode_eq_dec (code (result_ n)) CANCELED)];
      run; intros [= <- <-]; apply checked_accounted; reflexivity.
Qed.

Lemma await_acceptance_accounted p n o n' :
  await_acceptance p n = (o, n') ->
  match o with
  | Normal None => dispatches n' = dispatches n /\ cancellations n' = cancellations n
  | Normal (Some s) => accounted n (Normal s) n'
  | Thrown e => accounted n (Thrown e) n'
  end.
Proof.
  unfold await_acceptance, bind at 1, this.
  destruct (goal_received_ n).
  { run. intros [= <- <-]. split; reflexivity. }
  destruct (future_goal_handle_ n) as [|g].
  { run. intros [= <- <-]. unfold accounted. split; lia. }
  unfold bind at 1.
  destruct (spin (future_deliveries p) n) as [[[]|e] n1] eqn:E;
    apply spin_frame in E as [_ B];
    apply bridge_only_counts in B as (D & C & _ & _).
  2:{ intros [= <- <-]. unfold accounted. split; lia. }
  destruct (future_complete p) as [[h|]|].
  - run. intros [= <- <-]. counters. split; assumption.
  - run. intros [= <- <-]. unfold accounted. counters. split; lia.
  - unfold bind at 1, this.
    case_timeout.
    + unfold call_onFailure. run.
      pose proof (checked_accounted n (onFailure SEND_GOAL_TIMEOUT)
        (add_call (onFailure_called SEND_GOAL_TIMEOUT) n1)) as A.
      destruct (CheckStatus (onFailure SEND_GOAL_TIMEOUT)) as [s|x];
        intros [= <- <-]; apply A; counters; congruence.
    + run. intros [= <- <-]. unfold accounted. cbn. split; [lia|exact D].
Qed.

Lemma poll_goal_accounted p n o n' :
  poll_goal p n = (o, n') -> accounted n o n'.
Proof.
  unfold poll_goal, bind at 1.
  destruct (spin (spin_some_deliveries p) n) as [[[]|e] n1] eqn:E;
    apply spin_frame in E as [_ B];
    apply bridge_only_counts in B as (D & C & _ & _).
  2:{ intros [= <- <-]. unfold accounted. split; lia. }
  unfold bind at 1.
  destruct (await_acceptance p n1) as [[[s|]|e] n2] eqn:E;
    apply await_acceptance_accounted in E.
  - run. intros [= <- <-]. eapply accounted_shift; eassumption.
  - intro H. apply conclude_accounted in H. destruct E as [D2 C2].
    eapply accounted_shift; [| |exact H]; congruence.
  - intros [= <- <-]. eapply accounted_shift; eassumption.
Qed.

Lemma tick_accounted p n o n' :
  tick p n = (o, n') -> accounted n o n'.
Proof.
  unfold tick, bind at 1.
  destruct (bind_client p n) as [[[]|e] n1] eqn:E;
    apply bind_client_counts in E as (D & C & _ & _).
  2:{ intros [= <- <-]. unfold accounted. split; lia. }
  unfold bind, this. intro H.
  eapply accounted_shift; [exact D|exact C|].
  destruct (status_eqb (status n1) IDLE); [eapply start_goal_accounted; exact H|].
  destruct (status_eqb (status n1) RUNNING); [eapply poll_goal_accounted; exact H|].
  revert H. run. intros [= <- <-]. unfold accounted. cbn. split; [lia|reflexivity].
Qed.

(** The bookkeeping of an activation, from any state. *)
Lemma activation_accounted w polls : forall n e n',
  activation polls w n = (e, n') ->
  (cancellations n <= cancellations n')%nat /\
  (dispatches n <= dispatches n' <= S (dispatches n))%nat /\
  (forall s, e = Completed s ->
     dispatches n' = S (dispatches n) \/
     (dispatches n' = dispatches n /\ (cancellations n < cancellations n')%nat)) /\
  (e = Halted -> dispatches n' = dispatches n).
Proof.
  induction polls as [|p polls IH]; intros n e n'; cbn [activation].
  - destruct (halt w n) as [[[]|x] n1] eqn:E; apply halt_counts in E as [D C];
      intros [= <- <-]; counters; repeat split; try lia; discriminate.
  - destruct (tick p n) as [[s|x] n1] eqn:E; apply tick_accounted in E as [C A];
      cbn in A.
    + destruct (status_eqb s RUNNING) eqn:R.
      * intro H. apply IH in H as (C' & D' & K & Hh). counters.
        split; [lia|]. split; [lia|]. split.
        -- intros s' ->. specialize (K s' eq_refl). lia.
        -- intro Hh'. specialize (Hh Hh'). lia.
      * intros [= <- <-]. counters.
        split; [lia|]. split; [lia|]. split.
        -- intros s' [= <-]. exact A.
        -- discriminate.
    + intros [= <- <-]. split; [lia|]. split; [lia|]. split; [|discriminate].
      intros s' [=].
Qed.

(** ** The paths of [tick] *)

(** With a client and a status other than IDLE, [tick] does not read port
    [server_name]. *)
Lemma tick_RUNNING p n c :
  status n = RUNNING -> action_client_ n = Some c -> tick p n = poll_goal p n.
Proof.
  intros St Cl. unfold tick, bind_client. run. rewrite St, Cl. cbn.
  rewrite St. reflexivity.
Qed.

Lemma bind_client_rebinds_false p n :
  rebinds p n = false -> bind_client p n = (Normal tt, n).
Proof.
  unfold rebinds, bind_client. run.
  destruct (is_null (action_client_ n) || _); [|reflexivity].
  destruct (string_dec (prev_server_name_ n) (input_server_name p));
    [reflexivity|discriminate].
Qed.

Lemma bind_client_rebinds_true p n :
  rebinds p n = true -> input_server_name p <> "" ->
  bind_client p n =
  (Normal tt,
   add_call (wait_for_action_server (server_timeout_ n) (server_found p))
     (set_prev_server_name_ (input_server_name p)
        (set_action_client_ (Some (client_of (input_server_name p)))
           (add_call (create_client (input_server_name p)) n)))).
Proof.
  unfold rebinds, bind_client, createClient. run. intros R Ne.
  destruct (is_null (action_client_ n) || _); [|discriminate].
  destruct (string_dec (prev_server_name_ n) (input_server_name p));
    [discriminate|].
  destruct (string_dec (input_server_name p) ""); [contradiction|reflexivity].
Qed.

Lemma cancelGoal_frame w n o n' :
  cancelGoal w n = (o, n') -> same_goal n n'.
Proof.
  unfold cancelGoal, bind at 1, this.
  destruct (action_client_ n) as [c|].
  - unfold bind at 1, call, assign. unfold bind.
    destruct (spin (cancel_deliveries w) _) as [[[]|e] n1] eqn:E;
      apply spin_frame in E as [F _]; intros [= <- <-]; exact F.
  - unfold throw. intros [= <- <-]. apply same_goal_refl.
Qed.

Lemma conclude_frame p n o n' :
  conclude p n = (o, n') -> same_goal n n'.
Proof.
  unfold conclude, bind at 1, this.
  destruct (negb (status_eqb (on_feedback_state_change_ n) RUNNING)).
  - unfold bind at 1.
    destruct (cancelGoal (cancel p) n) as [[[]|e] n1] eqn:E;
      apply cancelGoal_frame in E; run; intros [= <- <-]; exact E.
  - unfold call_onFailure, call_onResultReceived.
    destruct (ResultCode_eq_dec (code (result_ n)) UNKNOWN);
      [|destruct (ResultCode_eq_dec (code (result_ n)) ABORTED);
        [|destruct (ResultCode_eq_dec (code (result_ n)) CANCELED)]];
      run; intros [= <- <-]; repeat split.
Qed.

(** The SECOND case: once the feedback slot differs from RUNNING, the
    cancellation is requested and no callback is dispatched, however the
    wait for the acknowledgement goes. *)
Lemma conclude_cancels p n c :
  action_client_ n = Some c ->
  on_feedback_state_change_ n <> RUNNING ->
  exists o n' l,
    conclude p n = (o, n') /\
    trace n' = l ++ async_cancel_goal c (goal_handle_ n) :: trace n /\
    cancellations n' = S (cancellations n) /\
    dispatches n' = dispatches n.
Proof.
  intros Cl Ns.
  destruct (conclude p n) as [o n'] eqn:E. exists o, n'.
  revert E. unfold conclude, bind at 1, this.
  replace (negb (status_eqb (on_feedback_state_change_ n) RUNNING)) with true
    by (unfold status_eqb;
        destruct (NodeStatus_eq_dec (on_feedback_state_change_ n) RUNNING);
        [contradiction|reflexivity]).
  unfold bind at 1.
  destruct (cancelGoal (cancel p) n) as [o1 n1] eqn:E.
  pose proof (cancelGoal_counts _ _ _ _ E) as (D & _ & _ & C). rewrite Cl in C.
  assert (T : exists l, trace n1 = l ++ async_cancel_goal c (goal_handle_ n) :: trace n).
  { revert E. unfold cancelGoal, bind at 1, this. rewrite Cl.
    unfold bind at 1, call, assign. unfold bind.
    destruct (spin (cancel_deliveries (cancel p)) _) as [[[]|e] n2] eqn:E2;
      apply spin_frame in E2 as [_ [l [T _]]]; intros [= <- <-]; cbn in *.
    - exists (cancel_wait (acknowledged (cancel p)) :: l). rewrite T. reflexivity.
    - exists l. exact T. }
  destruct T as [l T]. intro H. exists l. revert H.
  destruct o1 as [[]|e]; run; intros [= <- <-]; repeat split; assumption.
Qed.

(** The abort a feedback callback asked for: the SECOND case. *)
Lemma conclude_abort p n c s :
  action_client_ n = Some c ->
  on_feedback_state_change_ n = s -> s <> RUNNING ->
  no_feedback (cancel_deliveries (cancel p)) = true ->
  exists n' l,
    conclude p n = (Normal s, n') /\
    trace n' = l ++ async_cancel_goal c (goal_handle_ n) :: trace n /\
    cancellations n' = S (cancellations n) /\
    dispatches n' = dispatches n.
Proof.
  intros Cl Sl Ns Nf.
  unfold conclude, bind at 1, this. rewrite Sl.
  replace (negb (status_eqb s RUNNING)) with true
    by (unfold status_eqb; destruct (NodeStatus_eq_dec s RUNNING);
        [contradiction|reflexivity]).
  unfold bind at 1.
  destruct (cancelGoal (cancel p) n) as [o n1] eqn:E.
  pose proof (cancelGoal_counts _ _ _ _ E) as (D & _ & _ & C). rewrite Cl in C.
  revert E. unfold cancelGoal, bind at 1, this. rewrite Cl.
  unfold bind at 1, call, assign. unfold bind.
  destruct (spin_no_feedback (cancel_deliveries (cancel p))
              (add_call (async_cancel_goal c (goal_handle_ n)) n) Nf)
    as [n2 [E2 S2]].
  rewrite E2. pose proof (spin_frame _ _ _ _ E2) as [_ [l [T _]]].
  intros [= <- <-]. run.
  exists (add_call (cancel_wait (acknowledged (cancel p))) n2),
         (cancel_wait (acknowledged (cancel p)) :: l).
  cbn. rewrite S2, Sl, T. counters. rewrite T in C, D. repeat split; assumption.
Qed.

(** A spin whose last feedback callback returns [s]. *)
Lemma spin_last_feedback xs fb ys n :
  feedback_not_IDLE xs = true -> no_feedback ys = true ->
  onFeeback fb <> IDLE ->
  exists n', spin (xs ++ feedback fb :: ys) n = (Normal tt, n') /\
             on_feedback_state_change_ n' = onFeeback fb.
Proof.
  intros Fx Fy Ni. rewrite spin_app.
  destruct (spin_normal xs n Fx) as [n1 [E1 _]]. rewrite E1.
  cbn [spin]. unfold bind at 1. unfold notify, feedback_callback. run.
  replace (status_eqb (onFeeback fb) IDLE) with false
    by (unfold status_eqb; destruct (NodeStatus_eq_dec (onFeeback fb) IDLE);
        [contradiction|reflexivity]).
  run.
  match goal with |- context [spin ys ?m] =>
    destruct (spin_no_feedback ys m Fy) as [n2 [E2 S2]] end.
  exists n2. split; [exact E2|exact S2].
Qed.

Lemma await_acceptance_received p n :
  goal_received_ n = true -> await_acceptance p n = (Normal None, n).
Proof. intro G. unfold await_acceptance. run. rewrite G. reflexivity. Qed.

(** With the goal accepted, a poll is the spin followed by the SECOND and
    THIRD cases. *)
Lemma tick_active p n c n1 :
  status n = RUNNING -> action_client_ n = Some c -> goal_received_ n = true ->
  spin (spin_some_deliveries p) n = (Normal tt, n1) ->
  tick p n = conclude p n1.
Proof.
  intros St Cl Gr E. rewrite (tick_RUNNING p n c St Cl).
  unfold poll_goal, bind at 1. rewrite E.
  apply spin_frame in E as [(_ & _ & _ & _ & _ & _ & _ & _ & Gr1) _].
  unfold bind at 1. rewrite await_acceptance_received by congruence.
  reflexivity.
Qed.

(** Before the goal is accepted, a poll is the two spins followed by the
    look at the goal future. *)
Lemma tick_awaiting p n c g n1 n2 :
  status n = RUNNING -> action_client_ n = Some c ->
  goal_received_ n = false -> future_goal_handle_ n = future_of g ->
  spin (spin_some_deliveries p) n = (Normal tt, n1) ->
  spin (future_deliveries p) n1 = (Normal tt, n2) ->
  tick p n =
  match future_complete p with
  | None =>
      if now p - time_goal_sent_ n >?
         from_seconds (double_div (double_of_int (server_timeout_ n))
                                  (double_of_int 1000))
      then (CheckStatus (onFailure SEND_GOAL_TIMEOUT),
            add_call (onFailure_called SEND_GOAL_TIMEOUT) n2)
      else (Normal RUNNING, n2)
  | Some None =>
      (Thrown (runtime_error "Goal was rejected by the action server"),
       accepted None n2)
  | Some (Some h) => conclude p (accepted (Some h) n2)
  end.
Proof.
  intros St Cl Gr Fu E1 E2. rewrite (tick_RUNNING p n c St Cl).
  unfold poll_goal, bind at 1. rewrite E1.
  apply spin_frame in E1 as [(_ & _ & _ & T1 & _ & Fu1 & _ & Ts1 & Gr1) _].
  pose proof (spin_frame _ _ _ _ E2) as [(_ & _ & _ & _ & _ & _ & _ & Ts2 & _) _].
  unfold bind at 1, await_acceptance, bind at 1, this.
  rewrite Gr1, Gr, Fu1, Fu. unfold bind at 1. rewrite E2.
  destruct (future_complete p) as [[h|]|].
  - run. reflexivity.
  - run. reflexivity.
  - unfold bind at 1, this. rewrite Ts2, Ts1, T1.
    case_timeout.
    + unfold call_onFailure. run.
      destruct (CheckStatus (onFailure SEND_GOAL_TIMEOUT)); reflexivity.
    + reflexivity.
Qed.

(** A poll other than the first leaves the binding alone. *)
Lemma cancelGoal_bindings w n o n' :
  cancelGoal w n = (o, n') -> bindings n' = bindings n.
Proof.
  unfold cancelGoal, bind at 1, this.
  destruct (action_client_ n) as [c|].
  - unfold bind at 1, call, assign. unfold bind.
    destruct (spin (cancel_deliveries w) _) as [[[]|e] n1] eqn:E;
      apply spin_frame in E as [_ B];
      apply (bridge_only_count is_binding) in B;
      try (intros [] H; try reflexivity; discriminate H);
      intros [= <- <-]; counters; exact B.
  - unfold throw. intros [= <- <-]. reflexivity.
Qed.

Lemma bridge_only_bindings n n' :
  bridge_only n n' -> bindings n' = bindings n.
Proof.
  intro B. apply (bridge_only_count is_binding) in B; [exact B|].
  intros [] H; try reflexivity; discriminate H.
Qed.

Lemma await_acceptance_binding p n o n' :
  await_acceptance p n = (o, n') ->
  status n' = status n /\ action_client_ n' = action_client_ n /\
  prev_server_name_ n' = prev_server_name_ n /\ bindings n' = bindings n.
Proof.
  unfold await_acceptance, bind at 1, this.
  destruct (goal_received_ n); [run; intros [= <- <-]; auto|].
  destruct (future_goal_handle_ n); [run; intros [= <- <-]; auto|].
  unfold bind at 1.
  destruct (spin (future_deliveries p) n) as [[[]|e] n3] eqn:E3;
    apply spin_frame in E3 as [(St3 & Pr3 & _ & _ & Cl3 & _) B3];
    apply bridge_only_bindings in B3.
  2:{ intros [= <- <-]. repeat split; congruence. }
  unfold call_onFailure.
  destruct (future_complete p) as [[h|]|]; run.
  - intros [= <- <-]. counters. repeat split; congruence.
  - intros [= <- <-]. counters. repeat split; congruence.
  - case_timeout;
      [destruct (CheckStatus (onFailure SEND_GOAL_TIMEOUT))|];
      intros [= <- <-]; counters; repeat split; congruence.
Qed.

Lemma conclude_bindings p n o n' :
  conclude p n = (o, n') -> bindings n' = bindings n.
Proof.
  unfold conclude, bind at 1, this.
  destruct (negb (status_eqb (on_feedback_state_change_ n) RUNNING)).
  - unfold bind at 1.
    destruct (cancelGoal (cancel p) n) as [[[]|e] n3] eqn:E3;
      apply cancelGoal_bindings in E3; run; intros [= <- <-]; congruence.
  - unfold call_onFailure, call_onResultReceived.
    destruct (ResultCode_eq_dec (code (result_ n)) UNKNOWN);
      [|destruct (ResultCode_eq_dec (code (result_ n)) ABORTED);
        [|destruct (ResultCode_eq_dec (code (result_ n)) CANCELED)]];
      run; intros [= <- <-]; counters; congruence.
Qed.

Lemma poll_goal_binding p n o n' :
  poll_goal p n = (o, n') ->
  status n' = status n /\ action_client_ n' = action_client_ n /\
  prev_server_name_ n' = prev_server_name_ n /\ bindings n' = bindings n.
Proof.
  unfold poll_goal, bind at 1.
  destruct (spin (spin_some_deliveries p) n) as [[[]|e] n1] eqn:E1;
    apply spin_frame in E1 as [(St1 & Pr1 & _ & _ & Cl1 & _) B1];
    apply bridge_only_bindings in B1.
  2:{ intros [= <- <-]. auto. }
  unfold bind at 1.
  destruct (await_acceptance p n1) as [[[s|]|e] n2] eqn:E2;
    apply await_acceptance_binding in E2 as (St2 & Cl2 & Pr2 & B2).
  - run. intros [= <- <-]. repeat split; congruence.
  - intro H. pose proof (conclude_frame _ _ _ _ H) as (St & Pr & _ & _ & Cl & _).
    apply conclude_bindings in H. repeat split; congruence.
  - intros [= <- <-]. repeat split; congruence.
Qed.

Lemma poll_goal_with_server name found p n :
  poll_goal (with_server name found p) n = poll_goal p n.
Proof. reflexivity. Qed.

(** The first poll: what [start_goal] leaves alone, and what holds when it
    answers RUNNING. *)
Lemma start_goal_frame p n o n' :
  start_goal p n = (o, n') ->
  action_client_ n' = action_client_ n /\
  prev_server_name_ n' = prev_server_name_ n /\
  goal_handle_ n' = goal_handle_ n /\
  status n' = RUNNING /\ goal_received_ n' = false /\
  exists l, trace n' = l ++ trace n.
Proof.
  unfold start_goal, call_setGoal, call_onFailure. run.
  destruct (user_goal p) as [g|]; cbn.
  - destruct (action_client_ n) eqn:Cl; intros [= <- <-]; cbn;
      repeat split; trivial.
    + eexists [_; _]. reflexivity.
    + eexists [_]. reflexivity.
  - intros [= <- <-]. cbn. repeat split. eexists [_; _]. reflexivity.
Qed.

Lemma start_goal_RUNNING p n s n' :
  start_goal p n = (Normal s, n') -> status_eqb s RUNNING = true ->
  (exists c, action_client_ n' = Some c) /\
  (exists g, future_goal_handle_ n' = future_of g) /\
  cancellations n' = cancellations n.
Proof.
  unfold start_goal, call_setGoal, call_onFailure. run.
  destruct (user_goal p) as [g|]; cbn.
  - destruct (action_client_ n) eqn:Cl; intros [= <- <-] _; cbn;
      repeat split; eauto.
  - destruct (CheckStatus_cases (onFailure INVALID_GOAL)) as [[E R]|[x E]];
      rewrite E; intros [= <- <-]; congruence.
Qed.

Lemma bind_client_frame p n o n' :
  bind_client p n = (o, n') ->
  status n' = status n /\ goal_handle_ n' = goal_handle_ n /\
  exists l, trace n' = l ++ trace n.
Proof.
  unfold bind_client, createClient, bind at 1, this.
  destruct (is_null (action_client_ n) || _);
    [destruct (string_dec (prev_server_name_ n) (input_server_name p));
     [|destruct (string_dec (input_server_name p) "")]|];
    run; intros [= <- <-]; cbn; repeat split;
    solve [exists []; reflexivity | eexists [_; _]; reflexivity].
Qed.

Lemma tick_IDLE p n :
  status n = IDLE ->
  tick p n = match bind_client p n with
             | (Normal _, n1) => start_goal p n1
             | (Thrown e, n1) => (Thrown e, n1)
             end.
Proof.
  intro St. unfold tick, bind at 1.
  destruct (bind_client p n) as [[[]|e] n1] eqn:E; [|reflexivity].
  apply bind_client_status in E. unfold bind, this. rewrite E, St. reflexivity.
Qed.

Lemma tick_IDLE_RUNNING p n s n' :
  status n = IDLE -> tick p n = (Normal s, n') -> status_eqb s RUNNING = true ->
  status n' = RUNNING /\ goal_received_ n' = false /\
  goal_handle_ n' = goal_handle_ n /\
  (exists c, action_client_ n' = Some c) /\
  (exists g, future_goal_handle_ n' = future_of g) /\
  cancellations n' = cancellations n.
Proof.
  intros St E R. rewrite (tick_IDLE p n St) in E.
  destruct (bind_client p n) as [[[]|e] n1] eqn:E1; [|discriminate E].
  pose proof (bind_client_frame _ _ _ _ E1) as (_ & Gh1 & _).
  apply bind_client_counts in E1 as (_ & C1 & _ & _).
  pose proof (start_goal_frame _ _ _ _ E) as (_ & _ & Gh & St' & Gr & _).
  destruct (start_goal_RUNNING _ _ _ _ E R) as (Cl & Fu & C).
  repeat split; try assumption; congruence.
Qed.

(** A poll that finds the goal future incomplete and answers RUNNING has
    only run delivered callbacks. *)
Lemma tick_unaccepted_RUNNING p n c s n' :
  status n = RUNNING -> action_client_ n = Some c -> goal_received_ n = false ->
  future_complete p = None ->
  tick p n = (Normal s, n') -> status_eqb s RUNNING = true ->
  same_goal n n' /\ bridge_only n n'.
Proof.
  intros St Cl Gr Fc E R. rewrite (tick_RUNNING p n c St Cl) in E.
  revert E. unfold poll_goal, bind at 1.
  destruct (spin (spin_some_deliveries p) n) as [[[]|e] n1] eqn:E1; [|discriminate].
  apply spin_frame in E1 as [F1 B1].
  pose proof F1 as (_ & _ & _ & _ & _ & _ & _ & _ & Gr1).
  unfold bind at 1, await_acceptance, bind at 1, this. rewrite Gr1, Gr, Fc.
  destruct (future_goal_handle_ n1); [discriminate|].
  unfold bind at 1.
  destruct (spin (future_deliveries p) n1) as [[[]|e] n2] eqn:E2; [|discriminate].
  apply spin_frame in E2 as [F2 B2].
  unfold bind at 1, this, call_onFailure.
  case_timeout; run.
  - destruct (CheckStatus_cases (onFailure SEND_GOAL_TIMEOUT)) as [[K R']|[x K]];
      rewrite K; intros [= <- <-]; congruence.
  - intros [= <- <-]. split;
      [eapply same_goal_trans|eapply bridge_only_trans]; eassumption.
Qed.

Lemma halt_RUNNING w n c o n' :
  status n = RUNNING -> action_client_ n = Some c -> halt w n = (o, n') ->
  cancellations n' = S (cancellations n) /\
  exists l, trace n' = l ++ async_cancel_goal c (goal_handle_ n) :: trace n.
Proof.
  intros St Cl. unfold halt, bind, this. rewrite St.
  change (status_eqb RUNNING RUNNING) with true. cbv iota.
  intro E. pose proof (cancelGoal_counts _ _ _ _ E) as (_ & _ & _ & C).
  rewrite Cl in C. split; [exact C|].
  revert E. unfold cancelGoal, bind at 1, this. rewrite Cl.
  unfold bind at 1, call, assign. unfold bind.
  destruct (spin (cancel_deliveries w) _) as [[[]|e] n1] eqn:E;
    apply spin_frame in E as [_ [l [T _]]]; intros [= <- <-]; cbn in *.
  - exists (cancel_wait (acknowledged w) :: l). rewrite T. reflexivity.
  - exists l. exact T.
Qed.

Lemma awaiting_halt w c polls : forall n n',
  status n = RUNNING -> action_client_ n = Some c -> goal_received_ n = false ->
  unaccepted polls = true ->
  activation polls w n = (Halted, n') ->
  In (async_cancel_goal c (goal_handle_ n)) (trace n') /\
  cancellations n' = S (cancellations n).
Proof.
  induction polls as [|p polls IH]; intros n n' St Cl Gr U; cbn [activation].
  - destruct (halt w n) as [[[]|e] n1] eqn:E; [|discriminate].
    apply (halt_RUNNING w n c) in E as [C [l T]]; trivial.
    intros [= <-]. split; [|exact C].
    cbn. rewrite T. apply in_or_app. right. left. reflexivity.
  - cbn in U. apply andb_true_iff in U as [Up U].
    destruct (tick p n) as [[s|e] n1] eqn:E; [|discriminate].
    destruct (status_eqb s RUNNING) eqn:R; [|discriminate].
    destruct (future_complete p) eqn:Fc; [discriminate Up|].
    destruct (tick_unaccepted_RUNNING p n c s n1 St Cl Gr Fc E R) as [F B].
    destruct F as (_ & _ & _ & _ & Cl1 & _ & Gh1 & _ & Gr1).
    apply bridge_only_counts in B as (_ & C1 & _ & _).
    intro H. apply IH in H; cbn; trivial; try congruence.
    cbn in H. counters. rewrite <- Gh1, <- C1. exact H.
Qed.

(** ** The failure kinds that are declared and never reported *)

Ltac unused_kind U :=
  destruct U as [-> | ->]; counters; congruence.

Lemma start_goal_reports e p n o n' :
  unused e -> start_goal p n = (o, n') -> reports e n' = reports e n.
Proof.
  intro U. unfold start_goal, call_setGoal, call_onFailure. run.
  destruct (user_goal p) as [g|]; cbn;
    [destruct (action_client_ n)|]; intros [= <- <-]; unused_kind U.
Qed.

Lemma await_acceptance_reports e p n o n' :
  unused e -> await_acceptance p n = (o, n') -> reports e n' = reports e n.
Proof.
  intro U. unfold await_acceptance, bind at 1, this.
  destruct (goal_received_ n); [run; intros [= <- <-]; reflexivity|].
  destruct (future_goal_handle_ n); [run; intros [= <- <-]; reflexivity|].
  unfold bind at 1.
  destruct (spin (future_deliveries p) n) as [[[]|x] n3] eqn:E3;
    apply spin_frame in E3 as [_ B3];
    apply bridge_only_counts in B3 as (_ & _ & _ & R3); specialize (R3 e).
  2:{ intros [= <- <-]. exact R3. }
  unfold call_onFailure.
  destruct (future_complete p) as [[h|]|]; run.
  - intros [= <- <-]. counters. exact R3.
  - intros [= <- <-]. counters. exact R3.
  - case_timeout;
      [destruct (CheckStatus (onFailure SEND_GOAL_TIMEOUT))|];
      intros [= <- <-]; unused_kind U.
Qed.

Lemma conclude_reports e p n o n' :
  unused e -> conclude p n = (o, n') -> reports e n' = reports e n.
Proof.
  intro U. unfold conclude, bind at 1, this.
  destruct (negb (status_eqb (on_feedback_state_change_ n) RUNNING)).
  - unfold bind at 1.
    destruct (cancelGoal (cancel p) n) as [[[]|x] n3] eqn:E3;
      apply cancelGoal_counts in E3 as (_ & _ & R & _); specialize (R e);
      run; intros [= <- <-]; exact R.
  - unfold call_onFailure, call_onResultReceived.
    destruct (ResultCode_eq_dec (code (result_ n)) UNKNOWN);
      [|destruct (ResultCode_eq_dec (code (result_ n)) ABORTED);
        [|destruct (ResultCode_eq_dec (code (result_ n)) CANCELED)]];
      run; intros [= <- <-]; unused_kind U.
Qed.

Lemma poll_goal_reports e p n o n' :
  unused e -> poll_goal p n = (o, n') -> reports e n' = reports e n.
Proof.
  intro U. unfold poll_goal, bind at 1.
  destruct (spin (spin_some_deliveries p) n) as [[[]|x] n2] eqn:E2;
    apply spin_frame in E2 as [_ B2];
    apply bridge_only_counts in B2 as (_ & _ & _ & R2); specialize (R2 e).
  2:{ intros [= <- <-]. congruence. }
  unfold bind at 1.
  destruct (await_acceptance p n2) as [[[s|]|x] n3] eqn:E3;
    apply (await_acceptance_reports e) in E3; trivial.
  - run. intros [= <- <-]. congruence.
  - intro H. apply (conclude_reports e) in H; congruence.
  - intros [= <- <-]. congruence.
Qed.

(** No poll calls [onFailure] with SERVER_UNREACHABLE or with
    GOAL_REJECTED_BY_SERVER. *)
Lemma tick_never_reports e p n o n' :
  unused e -> tick p n = (o, n') -> reports e n' = reports e n.
Proof.
  intro U. unfold tick, bind at 1.
  destruct (bind_client p n) as [[[]|x] n1] eqn:E1;
    apply bind_client_counts in E1 as (_ & _ & _ & R1); specialize (R1 e).
  2:{ intros [= <- <-]. exact R1. }
  unfold bind, this.
  destruct (status_eqb (status n1) IDLE).
  { intro H. apply (start_goal_reports e) in H; congruence. }
  destruct (status_eqb (status n1) RUNNING).
  2:{ run. intros [= <- <-]. exact R1. }
  intro H. apply (poll_goal_reports e) in H; congruence.
Qed.

(** ** C1: an unreachable server *)

(** C1. When the value of [server_name] changed in IDLE and the probe of
    the new client fails, [tick] neither stops nor calls
    [onFailure(SERVER_UNREACHABLE)]: it asks [setGoal] for a goal, sends it
    through the new client and answers RUNNING. *)
Theorem unreachable_server_goal_still_sent p n g :
  status n = IDLE ->
  server_name_may_change_ n = true ->
  input_server_name p <> prev_server_name_ n ->
  input_server_name p <> "" ->
  server_found p = false ->
  user_goal p = Some g ->
  exists n',
    tick p n = (Normal RUNNING, n') /\
    trace n' =
      async_send_goal (client_of (input_server_name p)) g
      :: setGoal_called true
      :: wait_for_action_server (server_timeout_ n) false
      :: create_client (input_server_name p)
      :: trace n /\
    submissions n' = S (submissions n) /\
    dispatches n' = dispatches n /\
    reports SERVER_UNREACHABLE n' = reports SERVER_UNREACHABLE n.
Proof.
  intros St May Neq Nonempty Found Goal_.
  unfold tick, bind_client, createClient. run.
  rewrite St, May, Found. cbn. rewrite orb_true_r.
  destruct (string_dec (prev_server_name_ n) (input_server_name p)) as [e|_];
    [symmetry in e; contradiction|].
  destruct (string_dec (input_server_name p) "") as [e|_]; [contradiction|].
  cbn. rewrite St. cbn.
  unfold start_goal, call_setGoal. run. rewrite Goal_. cbn.
  eexists. split; [reflexivity|]. counters. repeat split.
Qed.

(** ** C2: the callbacks of an activation *)

(** C2 (amended). In an activation started from IDLE, [onResultReceived]
    and [onFailure] are invoked at most once together, never both. An
    activation that ends with a status has invoked exactly one of them, or
    none and then a cancellation was requested (the abort asked by a
    feedback callback); an activation ended by [halt] has invoked none. *)
Theorem activation_dispatches_at_most_once polls w n e n' :
  status n = IDLE ->
  activation polls w n = (e, n') ->
  (dispatches n' <= S (dispatches n))%nat /\
  (forall s, e = Completed s ->
     dispatches n' = S (dispatches n) \/
     (dispatches n' = dispatches n /\ (cancellations n < cancellations n')%nat)) /\
  (e = Halted -> dispatches n' = dispatches n).
Proof.
  intros _ H. apply activation_accounted in H as (_ & D & K & Hh).
  repeat split; [lia|exact K|exact Hh].
Qed.

(** ** C3: a feedback callback that asks to stop *)


(** ** C4: the acceptance timeout *)

(** *** The rounding of a [double]

    What the operations of [SpecFloat] give on mantissas of at least 53
    bits, in the range of the normal numbers: the mantissa is cut to 53
    bits and rounded up by at most one unit. *)

Lemma digits2_pos_bounds p :
  2 ^ (Zpos (digits2_pos p) - 1) <= Zpos p < 2 ^ Zpos (digits2_pos p).
Proof.
  induction p as [p IH|p IH|]; cbn [digits2_pos].
  - rewrite Pos2Z.inj_succ.
    replace (Z.succ (Zpos (digits2_pos p)) - 1)
      with (Z.succ (Zpos (digits2_pos p) - 1)) by lia.
    rewrite !Z.pow_succ_r by lia. lia.
  - rewrite Pos2Z.inj_succ.
    replace (Z.succ (Zpos (digits2_pos p)) - 1)
      with (Z.succ (Zpos (digits2_pos p) - 1)) by lia.
    rewrite !Z.pow_succ_r by lia. lia.
  - cbn. lia.
Qed.

Lemma digits2_pos_unique p d :
  2 ^ (d - 1) <= Zpos p < 2 ^ d -> Zpos (digits2_pos p) = d.
Proof.
  intros [L U]. pose proof (digits2_pos_bounds p) as [L' U'].
  assert (0 < d).
  { destruct (Z_lt_le_dec 0 d); [assumption|].
    assert (2 ^ d <= 2 ^ 0) by (apply Z.pow_le_mono_r; lia). cbn in *. lia. }
  assert (Zpos (digits2_pos p) - 1 < d).
  { apply (Z.pow_lt_mono_r_iff 2); lia. }
  assert (d - 1 < Zpos (digits2_pos p)).
  { apply (Z.pow_lt_mono_r_iff 2); lia. }
  lia.
Qed.

Lemma iter_pos_iter {A} (f : A -> A) p : forall x, iter_pos f p x = Pos.iter f x p.
Proof.
  induction p as [p IH|p IH|]; intro x; cbn [iter_pos Pos.iter].
  - rewrite !IH. rewrite <- !Pos.iter_swap. reflexivity.
  - rewrite !IH. reflexivity.
  - reflexivity.
Qed.

Lemma shr_1_m mrs : 0 <= shr_m mrs -> shr_m (shr_1 mrs) = shr_m mrs / 2.
Proof.
  destruct mrs as [m r s]. cbn [shr_m shr_1]. intro H.
  destruct m as [|[p|p|]|p]; cbn [shr_m]; try lia.
  - reflexivity.
  - apply (Z.div_unique _ _ _ 1); lia.
  - apply (Z.div_unique _ _ _ 0); lia.
  - reflexivity.
Qed.

Lemma shr_m_iter k mrs :
  0 <= shr_m mrs ->
  shr_m (iter_pos shr_1 k mrs) = shr_m mrs / 2 ^ Zpos k.
Proof.
  intro H. rewrite iter_pos_iter.
  induction k as [|k IH] using Pos.peano_ind.
  - cbn [Pos.iter]. rewrite shr_1_m by assumption. reflexivity.
  - rewrite Pos.iter_succ. rewrite shr_1_m.
    + rewrite IH. rewrite Pos2Z.inj_succ, Z.pow_succ_r by lia.
      rewrite Z.div_div by lia. f_equal. lia.
    + rewrite IH. apply Z.div_pos; lia.
Qed.

Lemma shr_record_of_loc_m m l : shr_m (shr_record_of_loc m l) = m.
Proof. destruct l as [|[]]; reflexivity. Qed.

Lemma Zdigits2_unique m d :
  2 ^ (d - 1) <= m < 2 ^ d -> 0 < m -> Zdigits2 m = d.
Proof.
  intros B P. destruct m as [|p|p]; try lia. cbn [Zdigits2].
  apply digits2_pos_unique. exact B.
Qed.

Lemma shr_fexp_shape m e l :
  0 < m -> 53 <= Zdigits2 m -> -1074 <= e + (Zdigits2 m - 53) ->
  snd (shr_fexp 53 1024 m e l) = e + (Zdigits2 m - 53) /\
  shr_m (fst (shr_fexp 53 1024 m e l)) = m / 2 ^ (Zdigits2 m - 53) /\
  (Zdigits2 m = 53 -> fst (shr_fexp 53 1024 m e l) = shr_record_of_loc m l).
Proof.
  intros P D N. unfold shr_fexp, fexp, emin.
  rewrite Z.max_l by lia.
  replace (Zdigits2 m + e - 53 - e) with (Zdigits2 m - 53) by lia.
  unfold shr. destruct (Zdigits2 m - 53) as [|k|k] eqn:K; try lia; cbn [fst snd].
  - rewrite shr_record_of_loc_m, Z.pow_0_r, Z.div_1_r.
    repeat split; try lia.
  - rewrite shr_m_iter by (rewrite shr_record_of_loc_m; lia).
    rewrite shr_record_of_loc_m. repeat split. lia.
Qed.

Lemma round_nearest_even_cases m l :
  round_nearest_even m l = m \/ round_nearest_even m l = m + 1.
Proof.
  destruct l as [|[]]; cbn; auto. destruct (Z.even m); auto.
Qed.

Lemma binary_round_aux_shape p e l :
  53 <= Zpos (digits2_pos p) ->
  -1074 <= e + (Zpos (digits2_pos p) - 53) ->
  e + (Zpos (digits2_pos p) - 53) < 971 ->
  exists m' e',
    binary_round_aux 53 1024 false (Zpos p) e l = S754_finite false m' e' /\
    2 ^ 52 <= Zpos m' < 2 ^ 53 /\
    (l = loc_Exact -> Zpos (digits2_pos p) = 53 -> m' = p /\ e' = e) /\
    ((e' = e + (Zpos (digits2_pos p) - 53) /\
      Zpos p / 2 ^ (Zpos (digits2_pos p) - 53) <= Zpos m'
        <= Zpos p / 2 ^ (Zpos (digits2_pos p) - 53) + 1) \/
     (e' = e + (Zpos (digits2_pos p) - 53) + 1 /\ Zpos m' = 2 ^ 52 /\
      Zpos p / 2 ^ (Zpos (digits2_pos p) - 53) = 2 ^ 53 - 1)).
Proof.
  intros D N O. set (d := Zpos (digits2_pos p)) in *.
  pose proof (digits2_pos_bounds p) as [Lp Up]. fold d in Lp, Up.
  destruct (shr_fexp_shape (Zpos p) e l) as (E1 & M1 & X1); try (cbn [Zdigits2]; lia).
  cbn [Zdigits2] in E1, M1, X1. fold d in E1, M1, X1.
  unfold binary_round_aux.
  destruct (shr_fexp 53 1024 (Zpos p) e l) as [mrs1 e1]. cbn [fst snd] in E1, M1, X1.
  set (m1 := Zpos p / 2 ^ (d - 53)) in *.
  assert (B1 : 2 ^ 52 <= m1 < 2 ^ 53).
  { assert (0 < 2 ^ (d - 53)) by (apply Z.pow_pos_nonneg; lia).
    assert (2 ^ (d - 1) = 2 ^ 52 * 2 ^ (d - 53))
      by (rewrite <- Z.pow_add_r by lia; f_equal; lia).
    assert (2 ^ d = 2 ^ 53 * 2 ^ (d - 53))
      by (rewrite <- Z.pow_add_r by lia; f_equal; lia).
    unfold m1. split.
    - apply Z.div_le_lower_bound; lia.
    - apply Z.div_lt_upper_bound; lia. }
  set (m2 := round_nearest_even (shr_m mrs1) (loc_of_shr_record mrs1)).
  assert (C2 : m2 = m1 \/ m2 = m1 + 1)
    by (unfold m2; rewrite <- M1; apply round_nearest_even_cases).
  assert (X2 : l = loc_Exact -> d = 53 -> m2 = Zpos p).
  { intros -> Dd. unfold m2. rewrite (X1 Dd). reflexivity. }
  destruct (Z_lt_le_dec m2 (2 ^ 53)) as [Lt|Ge].
  - assert (D2 : Zdigits2 m2 = 53) by (apply Zdigits2_unique; cbn in *; lia).
    destruct (shr_fexp_shape m2 e1 loc_Exact) as (E2 & M2 & Y2); try lia.
    destruct (shr_fexp 53 1024 m2 e1 loc_Exact) as [mrs2 e2].
    cbn [fst snd] in E2, M2, Y2. rewrite D2 in E2, M2.
    rewrite Z.sub_diag, Z.pow_0_r, Z.div_1_r in M2. rewrite M2.
    destruct m2 as [|q|q] eqn:Q; try (cbn in *; lia).
    replace (e2 <=? 1024 - 53) with true by (symmetry; apply Z.leb_le; lia).
    exists q, e2. split; [reflexivity|]. split; [cbn in *; lia|].
    split.
    + intros Hl Hd. specialize (X2 Hl Hd). split; [congruence|lia].
    + left. split; [lia|]. lia.
  - assert (Q : m2 = 2 ^ 53) by lia.
    assert (D2 : Zdigits2 m2 = 54) by (rewrite Q; reflexivity).
    destruct (shr_fexp_shape m2 e1 loc_Exact) as (E2 & M2 & Y2); try lia.
    destruct (shr_fexp 53 1024 m2 e1 loc_Exact) as [mrs2 e2].
    cbn [fst snd] in E2, M2, Y2. rewrite D2 in E2, M2. rewrite Q in M2.
    change (2 ^ 53 / 2 ^ (54 - 53)) with (Zpos (2 ^ 52)%positive) in M2. rewrite M2.
    replace (e2 <=? 1024 - 53) with true by (symmetry; apply Z.leb_le; lia).
    exists (2 ^ 52)%positive, e2. split; [reflexivity|]. split; [cbn; lia|].
    split.
    + intros Hl Hd. specialize (X2 Hl Hd). rewrite Hd in Up. lia.
    + right. split; [lia|]. split; [reflexivity|lia].
Qed.

Lemma iter_xO p k : Zpos (Pos.iter xO p k) = Zpos p * 2 ^ Zpos k.
Proof.
  induction k as [|k IH] using Pos.peano_ind.
  - cbn [Pos.iter]. rewrite Pos2Z.inj_xO. change (2 ^ 1) with 2. lia.
  - rewrite Pos.iter_succ, Pos2Z.inj_xO, IH, Pos2Z.inj_succ, Z.pow_succ_r by lia. lia.
Qed.

Lemma double_of_int_shape ms :
  0 < ms < 2 ^ 53 ->
  exists a d,
    double_of_int ms = S754_finite false a (d - 53) /\
    2 ^ 52 <= Zpos a < 2 ^ 53 /\
    0 < d <= 53 /\
    2 ^ (d - 1) <= ms < 2 ^ d /\
    Zpos a = ms * 2 ^ (53 - d).
Proof.
  intros [P U]. destruct ms as [|p|p]; try lia.
  pose proof (digits2_pos_bounds p) as [Lp Up].
  set (d := Zpos (digits2_pos p)) in *.
  assert (D : d <= 53).
  { destruct (Z_le_gt_dec d 53); [assumption|].
    assert (2 ^ 53 <= 2 ^ (d - 1)) by (apply Z.pow_le_mono_r; lia). lia. }
  assert (A : exists a, shl_align p 0 (d - 53) = (a, d - 53) /\
                        Zpos a = Zpos p * 2 ^ (53 - d)).
  { unfold shl_align. destruct (d - 53 - 0) as [|k|k] eqn:K; try lia.
    - exists p. replace (53 - d) with 0 by lia. split; [f_equal; lia|lia].
    - exists (Pos.iter xO p k). split; [reflexivity|].
      rewrite iter_xO. f_equal. f_equal. lia. }
  destruct A as [a [A Va]].
  assert (Ba : 2 ^ 52 <= Zpos a < 2 ^ 53).
  { assert (0 < 2 ^ (53 - d)) by (apply Z.pow_pos_nonneg; lia).
    assert (2 ^ 52 = 2 ^ (d - 1) * 2 ^ (53 - d))
      by (rewrite <- Z.pow_add_r by lia; f_equal; lia).
    assert (2 ^ 53 = 2 ^ d * 2 ^ (53 - d))
      by (rewrite <- Z.pow_add_r by lia; f_equal; lia).
    rewrite Va. nia. }
  assert (Da : Zpos (digits2_pos a) = 53) by (apply digits2_pos_unique; exact Ba).
  unfold double_of_int, binary_normalize, binary_round.
  replace (fexp 53 1024 (Zpos (digits2_pos p) + 0)) with (d - 53)
    by (unfold fexp, emin; fold d; lia).
  rewrite A.
  destruct (binary_round_aux_shape a (d - 53) loc_Exact) as (m' & e' & E & _ & X & _);
    try lia.
  destruct (X eq_refl Da) as [-> ->].
  exists a, d. repeat split; try assumption; lia.
Qed.

Lemma double_1000 : double_of_int 1000 = S754_finite false 8796093022208000 (-43).
Proof. reflexivity. Qed.

Lemma double_giga :
  double_of_int (1000 * 1000 * 1000) = S754_finite false 8388608000000000 (-23).
Proof. reflexivity. Qed.

Lemma double_div_1000 a ea :
  2 ^ 52 <= Zpos a < 2 ^ 53 -> -1000 <= ea ->
  exists l,
    double_div (S754_finite false a ea) (double_of_int 1000) =
    binary_round_aux 53 1024 false (Zpos a * 2 ^ 53 / 8796093022208000) (ea - 10) l.
Proof.
  intros Ba N. rewrite double_1000. unfold double_div, SFdiv, SFdiv_core_binary.
  cbn [Zdigits2 xorb].
  rewrite (digits2_pos_unique a 53 Ba).
  change (Zpos (digits2_pos 8796093022208000)) with 53.
  replace (Z.min (fexp 53 1024 (53 + ea - (53 + -43))) (ea - -43)) with (ea - 10)
    by (unfold fexp, emin; lia).
  replace (ea - -43 - (ea - 10)) with 53 by lia.
  rewrite Z.shiftl_mul_pow2 by lia.
  unfold Z.div.
  destruct (Z.div_eucl (Zpos a * 2 ^ 53) 8796093022208000) as [q r].
  eexists. reflexivity.
Qed.

(** Linear arithmetic with the quotients by constants. *)
Ltac dlia := Z.to_euclidean_division_equations; lia.

Lemma shiftl_scaled m j n :
  0 <= j -> 0 <= n -> Z.shiftl m (j - n) = m * 2 ^ j / 2 ^ n.
Proof.
  intros J N. destruct (Z_le_gt_dec n j) as [Le|Gt].
  - rewrite Z.shiftl_mul_pow2 by lia.
    replace (2 ^ j) with (2 ^ (j - n) * 2 ^ n)
      by (rewrite <- Z.pow_add_r by lia; f_equal; lia).
    rewrite Z.mul_assoc, Z.div_mul; [reflexivity|].
    apply Z.pow_nonzero; lia.
  - replace (j - n) with (- (n - j)) by lia.
    rewrite Z.shiftl_opp_r, Z.shiftr_div_pow2 by lia.
    replace (2 ^ n) with (2 ^ (n - j) * 2 ^ j)
      by (rewrite <- Z.pow_add_r by lia; f_equal; lia).
    rewrite Z.div_mul_cancel_r; [reflexivity| |]; apply Z.pow_nonzero; lia.
Qed.

(** The timeout computed from [ms] milliseconds is that time in
    nanoseconds, or one nanosecond less. *)
Lemma from_seconds_ms_bounds ms :
  0 <= ms < 2 ^ 31 ->
  ms * 1000000 - 1
  <= from_seconds (double_div (double_of_int ms) (double_of_int 1000))
  <= ms * 1000000.
Proof.
  intros [L U]. destruct (Z.eq_dec ms 0) as [->|NZ]; [vm_compute; split; discriminate|].
  destruct (double_of_int_shape ms) as (a & d & Ea & Ba & Dd & Bm & Va); [lia|].
  assert (D31 : d <= 31).
  { destruct (Z_le_gt_dec d 31); [assumption|].
    assert (2 ^ 31 <= 2 ^ (d - 1)) by (apply Z.pow_le_mono_r; lia). lia. }
  rewrite Ea.
  destruct (double_div_1000 a (d - 53) Ba) as [l Ex]; [lia|]. rewrite Ex. clear Ex Ea.
  set (scale := 2 ^ (34 - d)). set (w := ms * scale).
  assert (S8 : 8 <= scale).
  { change 8 with (2 ^ 3). apply Z.pow_le_mono_r; lia. }
  assert (Va' : Zpos a = 524288 * w).
  { rewrite Va. unfold w, scale. replace (53 - d) with (19 + (34 - d)) by lia.
    rewrite Z.pow_add_r by lia. change (2 ^ 19) with 524288. ring. }
  clear Va.
  remember (Zpos a * 2 ^ 53 / 8796093022208000) as q eqn:Q.
  assert (Bq : 2 ^ 52 < q < 2 ^ 54) by (subst q; dlia).
  destruct q as [|pq|pq]; try lia.
  assert (Dq : Zpos (digits2_pos pq) = 53 \/ Zpos (digits2_pos pq) = 54).
  { destruct (Z_lt_le_dec (Zpos pq) (2 ^ 53)); [left|right];
      apply digits2_pos_unique; cbn; cbn in *; lia. }
  destruct (binary_round_aux_shape pq (d - 53 - 10) l) as (mx & ex & Ex & Bx & _ & Cx);
    try lia.
  rewrite Ex. clear Ex.
  unfold from_seconds. rewrite double_giga. unfold double_mul, SFmul. cbn [xorb].
  set (P := (mx * 8388608000000000)%positive).
  assert (VP : Zpos P = Zpos mx * 8388608000000000) by reflexivity.
  assert (BP : 2 ^ 104 <= Zpos P < 2 ^ 106) by lia.
  assert (DP : Zpos (digits2_pos P) = 105 \/ Zpos (digits2_pos P) = 106).
  { destruct (Z_lt_le_dec (Zpos P) (2 ^ 105)); [left|right];
      apply digits2_pos_unique; cbn; cbn in *; lia. }
  destruct (binary_round_aux_shape P (ex + -23) loc_Exact) as (my & ey & Ey & By & _ & Cy);
    try lia.
  rewrite Ey. clear Ey.
  unfold int64_of_double. cbn [cond_Zopp].
  assert (K : exists j, 0 <= j /\ ey = j - (34 - d) /\
                        w * 1000000 - 8 <= Zpos my * 2 ^ j < w * 1000000 + 8).
  { clearbody P. clear Bm. 
    destruct Dq as [Dq|Dq]; rewrite Dq in Cx;
    destruct DP as [DP|DP]; rewrite DP in Cy;
    change (2 ^ (53 - 53)) with 1 in Cx; change (2 ^ (54 - 53)) with 2 in Cx;
    change (2 ^ (105 - 53)) with 4503599627370496 in Cy;
    change (2 ^ (106 - 53)) with 9007199254740992 in Cy;
    destruct Cx as [[Xe Xm]|(Xe & Xm & Xc)]; destruct Cy as [[Ye Ym]|(Ye & Ym & Yc)];
    (exists (ey + (34 - d)); split; [lia|]; split; [lia|]);
    match goal with |- context [2 ^ ?j] =>
      first [ replace j with 0 by lia | replace j with 1 by lia
            | replace j with 2 by lia | replace j with 3 by lia
            | replace j with 4 by lia ] end;
    dlia. }
  destruct K as (j & J & -> & Y).
  rewrite shiftl_scaled by lia. fold scale.
  assert (Z1 : ms * 1000000 - 1 <= Zpos my * 2 ^ j / scale).
  { apply Z.div_le_lower_bound; [lia|]. unfold w in Y. nia. }
  assert (Z2 : Zpos my * 2 ^ j / scale < ms * 1000000 + 1).
  { apply Z.div_lt_upper_bound; [lia|]. unfold w in Y. nia. }
  replace ((- 2 ^ 63 <=? Zpos my * 2 ^ j / scale) && (Zpos my * 2 ^ j / scale <? 2 ^ 63))
    with true; [lia|].
  symmetry. apply andb_true_iff. split; [apply Z.leb_le|apply Z.ltb_lt]; lia.
Qed.

(** C4 (amended). While the goal future is not complete, the poll
    compares the time since the goal was sent with the timeout it computes
    from [server_timeout_] through seconds in a [double]: strictly greater, it
    answers what [onFailure(SEND_GOAL_TIMEOUT)] returns, through
    [CheckStatus]; otherwise it answers RUNNING and calls no failure
    callback. For a [server_timeout_] of 0 to 2^31 - 1 milliseconds the
    computed timeout is that time or one nanosecond less: a time beyond
    [server_timeout_] gives the failure, a time short of it RUNNING, and
    the time [server_timeout_] exactly gives RUNNING when the conversion is
    exact, the failure when it lost a nanosecond. *)
Theorem acceptance_timeout p n c g :
  status n = RUNNING ->
  action_client_ n = Some c ->
  goal_received_ n = false ->
  future_goal_handle_ n = future_of g ->
  feedback_not_IDLE (spin_some_deliveries p) = true ->
  feedback_not_IDLE (future_deliveries p) = true ->
  future_complete p = None ->
  let elapsed := now p - time_goal_sent_ n in
  let timeout :=
    from_seconds (double_div (double_of_int (server_timeout_ n))
                             (double_of_int 1000)) in
  let server_timeout := server_timeout_ n * 1000000 in
  exists n1,
    bridge_only n n1 /\
    let reported :=
      tick p n = (CheckStatus (onFailure SEND_GOAL_TIMEOUT),
                  add_call (onFailure_called SEND_GOAL_TIMEOUT) n1) in
    let waiting := tick p n = (Normal RUNNING, n1) in
    (elapsed > timeout -> reported) /\
    (elapsed <= timeout -> waiting) /\
    (0 <= server_timeout_ n < 2 ^ 31 ->
     server_timeout - 1 <= timeout <= server_timeout /\
     (elapsed > server_timeout -> reported) /\
     (elapsed < server_timeout -> waiting) /\
     (elapsed = server_timeout ->
      if timeout =? server_timeout then waiting else reported)).
Proof.
  intros St Cl Gr Fu F1 F2 Fc elapsed timeout server_timeout.
  destruct (spin_normal (spin_some_deliveries p) n F1) as [n1 [E1 _]].
  destruct (spin_normal (future_deliveries p) n1 F2) as [n2 [E2 _]].
  pose proof (tick_awaiting p n c g n1 n2 St Cl Gr Fu E1 E2) as T.
  rewrite Fc in T. fold elapsed timeout in T.
  apply spin_frame in E1 as [_ B1]. apply spin_frame in E2 as [_ B2].
  exists n2. split; [eapply bridge_only_trans; eassumption|].
  cbv zeta.
  assert (Late : elapsed > timeout ->
                 tick p n = (CheckStatus (onFailure SEND_GOAL_TIMEOUT),
                             add_call (onFailure_called SEND_GOAL_TIMEOUT) n2)).
  { intro H. rewrite T.
    replace (elapsed >? timeout) with true by (symmetry; apply Z.gtb_lt; lia).
    reflexivity. }
  assert (Early : elapsed <= timeout -> tick p n = (Normal RUNNING, n2)).
  { intro H. rewrite T.
    replace (elapsed >? timeout) with false
      by (symmetry; rewrite Z.gtb_ltb; apply Z.ltb_ge; lia).
    reflexivity. }
  split; [exact Late|]. split; [exact Early|].
  intro Range.
  pose proof (from_seconds_ms_bounds (server_timeout_ n) Range) as B.
  fold timeout server_timeout in B.
  split; [exact B|].
  split; [intro H; apply Late; lia|].
  split; [intro H; apply Early; lia|].
  intro H. destruct (timeout =? server_timeout) eqn:X.
  - apply Z.eqb_eq in X. apply Early. lia.
  - apply Z.eqb_neq in X. apply Late. lia.
Qed.

(** ** C5: a goal the user declines *)

(** C5. When [setGoal] returns false on the first poll of an activation,
    that poll answers what [onFailure(INVALID_GOAL)] returns, through
    [CheckStatus], and sends no goal; the activation ends with that poll,
    so none is sent later either. (If the port holds a new, empty name,
    [createClient] throws before [setGoal] is asked.) *)
Theorem declined_goal_fails_at_once p n :
  status n = IDLE ->
  user_goal p = None ->
  (rebinds p n = true -> input_server_name p <> "") ->
  exists n',
    tick p n = (CheckStatus (onFailure INVALID_GOAL), n') /\
    (exists l, trace n' =
       onFailure_called INVALID_GOAL :: setGoal_called false :: l ++ trace n) /\
    submissions n' = submissions n /\
    forall polls w,
      fst (activation (p :: polls) w n) =
        match CheckStatus (onFailure INVALID_GOAL) with
        | Normal s => Completed s
        | Thrown e => Aborted e
        end /\
      submissions (snd (activation (p :: polls) w n)) = submissions n.
Proof.
  intros St Ug Ne.
  assert (B : exists n1 l, bind_client p n = (Normal tt, n1) /\
                trace n1 = l ++ trace n /\ submissions n1 = submissions n).
  { destruct (rebinds p n) eqn:R.
    - rewrite (bind_client_rebinds_true p n R (Ne eq_refl)).
      eexists. eexists [_; _]. cbn. repeat split.
    - rewrite (bind_client_rebinds_false p n R). exists n, []. repeat split. }
  destruct B as [n1 [l (E1 & T1 & S1)]].
  assert (E : tick p n =
    (CheckStatus (onFailure INVALID_GOAL),
     add_call (onFailure_called INVALID_GOAL)
       (add_call (setGoal_called false)
          (set_result_ no_result
             (set_on_feedback_state_change_ RUNNING
                (set_future_goal_handle_ no_state
                   (set_goal_received_ false (set_status RUNNING n1)))))))).
  { rewrite (tick_IDLE p n St), E1.
    unfold start_goal, call_setGoal, call_onFailure. run. rewrite Ug. cbn.
    reflexivity. }
  eexists. split; [exact E|]. cbn.
  split; [exists l; rewrite T1; reflexivity|].
  split; [counters; exact S1|].
  intros polls w. cbn [activation]. rewrite E.
  destruct (CheckStatus_cases (onFailure INVALID_GOAL)) as [[K R]|[x K]];
    rewrite K, ?R; cbn; split; trivial; counters; exact S1.
Qed.

(** ** C6: the result of the goal *)

(** C6. While the goal is active and no feedback callback asked to stop,
    [tick] looks at the latest result: with code ABORTED it answers what
    [onFailure(ACTION_ABORTED)] returns, with CANCELED what
    [onFailure(ACTION_CANCELLED)] returns, with SUCCEEDED what
    [onResultReceived] returns for that result, each through
    [CheckStatus]; with no result (code UNKNOWN) it answers RUNNING and
    calls neither. *)
Theorem result_dispatched_by_code p n c :
  status n = RUNNING ->
  action_client_ n = Some c ->
  goal_received_ n = true ->
  on_feedback_state_change_ n = RUNNING ->
  feedback_RUNNING (spin_some_deliveries p) = true ->
  let r := latest_result (spin_some_deliveries p) (result_ n) in
  exists n' l,
    forallb of_bridge l = true /\
    match code r with
    | UNKNOWN =>
        tick p n = (Normal RUNNING, n') /\ trace n' = l ++ trace n
    | ABORTED =>
        tick p n = (CheckStatus (onFailure ACTION_ABORTED), n') /\
        trace n' = onFailure_called ACTION_ABORTED :: l ++ trace n
    | CANCELED =>
        tick p n = (CheckStatus (onFailure ACTION_CANCELLED), n') /\
        trace n' = onFailure_called ACTION_CANCELLED :: l ++ trace n
    | SUCCEEDED =>
        tick p n = (CheckStatus (onResultReceived r), n') /\
        trace n' = onResultReceived_called r :: l ++ trace n
    end.
Proof.
  intros St Cl Gr Sl Fr r.
  destruct (spin_RUNNING (spin_some_deliveries p) n Fr Sl) as [n1 [E1 [S1 R1]]].
  rewrite (tick_active p n c n1 St Cl Gr E1).
  apply spin_frame in E1 as [_ [l [T B]]]. fold r in R1.
  assert (K : conclude p n1 =
    (if ResultCode_eq_dec (code r) UNKNOWN then ret RUNNING
     else if ResultCode_eq_dec (code r) ABORTED
     then s <- call_onFailure ACTION_ABORTED ; lift (CheckStatus s)
     else if ResultCode_eq_dec (code r) CANCELED
     then s <- call_onFailure ACTION_CANCELLED ; lift (CheckStatus s)
     else s <- call_onResultReceived r ; lift (CheckStatus s)) n1).
  { unfold conclude, bind at 1, this. rewrite S1, R1. reflexivity. }
  rewrite K. clear K. unfold call_onFailure, call_onResultReceived.
  destruct (code r); cbn; run.
  - exists n1, l. repeat split; assumption.
  - exists (add_call (onResultReceived_called r) n1), l. cbn.
    rewrite T. repeat split; assumption.
  - exists (add_call (onFailure_called ACTION_CANCELLED) n1), l. cbn.
    rewrite T. repeat split; assumption.
  - exists (add_call (onFailure_called ACTION_ABORTED) n1), l. cbn.
    rewrite T. repeat split; assumption.
Qed.

(** ** C7: what the callbacks may return *)

(** C7. The status a feedback callback returned is not passed through
    [CheckStatus]: when it is SKIPPED, which [CheckStatus] refuses, [tick]
    requests the cancellation and answers SKIPPED. *)
Theorem SKIPPED_feedback_is_answered p n c fb :
  status n = RUNNING ->
  action_client_ n = Some c ->
  goal_received_ n = true ->
  spin_some_deliveries p = [feedback fb] ->
  onFeeback fb = SKIPPED ->
  no_feedback (cancel_deliveries (cancel p)) = true ->
  (exists n', tick p n = (Normal SKIPPED, n') /\
              cancellations n' = S (cancellations n)) /\
  (exists e, CheckStatus SKIPPED = Thrown e).
Proof.
  intros St Cl Gr Xs Fb Nc. split; [|cbn; eauto].
  assert (Ni : onFeeback fb <> IDLE) by (rewrite Fb; discriminate).
  destruct (spin_last_feedback [] fb [] n eq_refl eq_refl Ni) as [n1 [E1 S1]].
  cbn [app] in E1. rewrite <- Xs in E1.
  rewrite (tick_active p n c n1 St Cl Gr E1).
  apply spin_frame in E1 as [F B].
  destruct F as (_ & _ & _ & _ & Cl1 & _).
  apply bridge_only_counts in B as (_ & C1 & _ & _).
  destruct (conclude_abort p n1 c SKIPPED) as [n' [l (E & _ & C & _)]];
    try congruence.
  exists n'. rewrite E. split; congruence.
Qed.

(** ** C8: a goal the server rejects *)

(** C8. When the goal future completes with a null handle, [tick] throws
    [std::runtime_error] and calls no [onFailure], in particular not with
    GOAL_REJECTED_BY_SERVER; when it completes with a handle, the node
    records it with [goal_received_] set and goes on to the cases of an
    active goal. *)
Theorem rejected_goal_is_fatal p n c g :
  status n = RUNNING ->
  action_client_ n = Some c ->
  goal_received_ n = false ->
  future_goal_handle_ n = future_of g ->
  feedback_not_IDLE (spin_some_deliveries p) = true ->
  feedback_not_IDLE (future_deliveries p) = true ->
  (future_complete p = Some None ->
   exists n',
     tick p n =
       (Thrown (runtime_error "Goal was rejected by the action server"), n') /\
     dispatches n' = dispatches n /\
     reports GOAL_REJECTED_BY_SERVER n' = reports GOAL_REJECTED_BY_SERVER n) /\
  (forall h, future_complete p = Some (Some h) ->
   exists n1 o n',
     goal_received_ n1 = true /\ goal_handle_ n1 = Some h /\
     tick p n = conclude p n1 /\
     conclude p n1 = (o, n') /\
     status n' = RUNNING /\ goal_received_ n' = true /\
     goal_handle_ n' = Some h).
Proof.
  intros St Cl Gr Fu F1 F2.
  destruct (spin_normal (spin_some_deliveries p) n F1) as [n1 [E1 _]].
  destruct (spin_normal (future_deliveries p) n1 F2) as [n2 [E2 _]].
  pose proof (tick_awaiting p n c g n1 n2 St Cl Gr Fu E1 E2) as T.
  apply spin_frame in E1 as [S1 B1]. apply spin_frame in E2 as [S2 B2].
  pose proof (same_goal_trans _ _ _ S1 S2) as (St2 & _).
  pose proof (bridge_only_counts _ _ (bridge_only_trans _ _ _ B1 B2))
    as (D & _ & _ & R).
  split.
  - intro Fc. rewrite Fc in T. exists (accepted None n2).
    split; [exact T|]. unfold accepted. counters.
    split; [exact D|apply R].
  - intros h Fc. rewrite Fc in T.
    destruct (conclude p (accepted (Some h) n2)) as [o n'] eqn:E.
    exists (accepted (Some h) n2), o, n'.
    pose proof (conclude_frame _ _ _ _ E) as (St' & _ & _ & _ & _ & _ & Gh' & _ & Gr').
    cbn in St', Gh', Gr'.
    repeat split; try assumption; try reflexivity; congruence.
Qed.

(** ** C9: rebinding *)

(** C9. In IDLE, with a port that may change, a value of [server_name]
    other than the bound one makes [tick] create a client for it and probe
    the server. While RUNNING with a client, [tick] does not read the
    port: its outcome is the same for every value of [server_name], and the
    client, the bound name and the number of clients created stay as they
    were. A first poll that answers RUNNING leaves a client, so this covers
    every activation in flight. *)
Theorem rebinding_only_in_IDLE p n :
  (status n = IDLE -> server_name_may_change_ n = true ->
   input_server_name p <> prev_server_name_ n ->
   input_server_name p <> "" ->
   exists o n' l,
     tick p n = (o, n') /\
     action_client_ n' = Some (client_of (input_server_name p)) /\
     prev_server_name_ n' = input_server_name p /\
     trace n' =
       l ++ wait_for_action_server (server_timeout_ n) (server_found p)
         :: create_client (input_server_name p) :: trace n) /\
  (forall c, status n = RUNNING -> action_client_ n = Some c ->
   forall name found,
     tick (with_server name found p) n = tick p n /\
     action_client_ (snd (tick p n)) = Some c /\
     prev_server_name_ (snd (tick p n)) = prev_server_name_ n /\
     bindings (snd (tick p n)) = bindings n) /\
  (status n = IDLE -> forall n', tick p n = (Normal RUNNING, n') ->
   status n' = RUNNING /\ action_client_ n' <> None).
Proof.
  split; [|split].
  - intros St May Ne Nonempty.
    assert (R : rebinds p n = true).
    { unfold rebinds. rewrite St, May. cbn. rewrite orb_true_r.
      destruct (string_dec (prev_server_name_ n) (input_server_name p));
        [congruence|reflexivity]. }
    rewrite (tick_IDLE p n St), (bind_client_rebinds_true p n R Nonempty).
    match goal with |- context [start_goal p ?m] =>
      destruct (start_goal p m) as [o n'] eqn:E end.
    apply start_goal_frame in E as (Cl & Pr & _ & _ & _ & [l T]).
    exists o, n', l. cbn in *. repeat split; assumption.
  - intros c St Cl name found.
    rewrite (tick_RUNNING (with_server name found p) n c St Cl),
            (tick_RUNNING p n c St Cl), poll_goal_with_server.
    split; [reflexivity|].
    destruct (poll_goal p n) as [o n'] eqn:E.
    apply poll_goal_binding in E as (_ & Cl' & Pr' & B'). cbn.
    repeat split; congruence.
  - intros St n' E.
    destruct (tick_IDLE_RUNNING p n RUNNING n' St E eq_refl)
      as (St' & _ & _ & [c Cl] & _).
    split; [exact St'|congruence].
Qed.

(** ** C10: halting before the goal is accepted *)

(** C10 (amended). When the tree halts the node before any poll of the
    activation found the goal future complete, [cancelGoal] passes to
    [async_cancel_goal] the handle [goal_handle_] held when the activation
    started: neither the first poll nor the polls that wait for the
    acceptance assign it, and [halt] does not look at it. That handle is
    null when no earlier goal was accepted and the handle of the earlier
    goal otherwise. *)
Theorem halt_before_acceptance_passes_earlier_handle p polls w n n' :
  status n = IDLE ->
  unaccepted polls = true ->
  activation (p :: polls) w n = (Halted, n') ->
  exists c,
    In (async_cancel_goal c (goal_handle_ n)) (trace n') /\
    cancellations n' = S (cancellations n).
Proof.
  intros St U. cbn [activation].
  destruct (tick p n) as [[s|e] n1] eqn:E; [|discriminate].
  destruct (status_eqb s RUNNING) eqn:R; [|discriminate].
  destruct (tick_IDLE_RUNNING p n s n1 St E R)
    as (St1 & Gr1 & Gh1 & [c Cl1] & _ & C1).
  intro H. exists c.
  apply (awaiting_halt w c) in H; cbn; trivial.
  cbn in H. counters. rewrite <- Gh1, <- C1. exact H.
Qed.

(** * Further properties of the header *)

(** ** The ports *)

Lemma find_insert_ports name range : forall ports,
  find_port name (insert_ports range ports) =
  match find_port name ports with
  | Some info => Some info
  | None => find_port name range
  end.
Proof.
  unfold insert_ports.
  induction range as [|[k info] range IH]; intro ports; cbn [fold_left find_port].
  - destruct (find_port name ports); reflexivity.
  - rewrite IH. unfold insert_port. cbn [fst].
    destruct (find_port k ports) as [old|] eqn:K; cbn [is_null].
    + destruct (find_port name ports) eqn:N; [reflexivity|].
      destruct (string_dec k name) as [->|]; [congruence|reflexivity].
    + cbn [find_port].
      destruct (string_dec k name) as [->|]; [rewrite K|]; reflexivity.
Qed.

(** X1. Whatever ports a derived class adds, [providedBasicPorts] has the
    input port [server_name] with the placeholder as default: a port of
    that name among the additions does not replace it. Every other name is
    looked up in the additions. *)
Theorem providedBasicPorts_keeps_server_name addition :
  find_port "server_name" (providedBasicPorts addition) =
    Some {| port_direction := INPUT;
            port_default := Some "__default__placeholder__";
            port_description := "Action server name" |} /\
  forall name, name <> "server_name" ->
    find_port name (providedBasicPorts addition) = find_port name addition.
Proof.
  unfold providedBasicPorts. split.
  - rewrite find_insert_ports. reflexivity.
  - intros name Ne. rewrite find_insert_ports. unfold InputPort.
    cbn [find_port].
    destruct (string_dec "server_name" name) as [e|_]; [congruence|reflexivity].
Qed.

(** ** The constructor *)

(** X2. The constructor either throws [std::logic_error] before it touched
    a member, or returns with the node IDLE and exactly one of: a client,
    or [server_name_may_change_] set. A client it made is bound to a name
    that is not empty, so the check of [createClient] never fires here. *)
Theorem construct_outcome conf params external found u o n' :
  construct conf params external found (members params u) = (o, n') ->
  (o = Normal tt /\ status n' = IDLE /\
   (server_name_may_change_ n' = true <-> action_client_ n' = None) /\
   bound n') \/
  (exists what, o = Thrown (logic_error what) /\ n' = members params u).
Proof.
  unfold construct, createClient, both_empty, bound.
  destruct external.
  { run. intros [= <- <-]. left. cbn. repeat split; try discriminate. }
  destruct (server_name_declared conf); cbn [negb];
    [|run; intros [= <- <-]; right; eauto].
  destruct (server_name_port conf) as [bb|].
  - destruct (string_dec bb "") as [Eb|Nb]; cbn [orb].
    + destruct (string_dec (default_server_name params) "") as [Ed|Nd];
        run; [intros [= <- <-]; right; eauto|].
      destruct (string_dec (default_server_name params) ""); [contradiction|].
      intros [= <- <-]. left. cbn. repeat split; try discriminate;
        intros; congruence.
    + destruct (string_dec bb "__default__placeholder__").
      * destruct (string_dec (default_server_name params) "") as [Ed|Nd];
          run; [intros [= <- <-]; right; eauto|].
        destruct (string_dec (default_server_name params) ""); [contradiction|].
        intros [= <- <-]. left. cbn. repeat split; try discriminate;
          intros; congruence.
      * destruct (isBlackboardPointer bb); run.
        -- intros [= <- <-]. left. cbn. repeat split; discriminate.
        -- destruct (string_dec bb ""); [contradiction|].
           intros [= <- <-]. left. cbn. repeat split; try discriminate;
             intros; congruence.
  - destruct (string_dec (default_server_name params) "") as [Ed|Nd];
      run; [intros [= <- <-]; right; eauto|].
    destruct (string_dec (default_server_name params) ""); [contradiction|].
    intros [= <- <-]. left. cbn. repeat split; try discriminate;
      intros; congruence.
Qed.

(** ** What [tick] and [halt] leave alone *)

Lemma bridge_only_quiet n n' :
  same_goal n n' -> bridge_only n n' -> quiet n n'.
Proof.
  intros (_ & _ & M & T & _) B. apply bridge_only_counts in B as (_ & _ & Sb & _).
  repeat split; assumption.
Qed.

Lemma quiet_trans n1 n2 n3 : quiet n1 n2 -> quiet n2 n3 -> quiet n1 n3.
Proof. unfold quiet. intuition congruence. Qed.

Lemma await_acceptance_quiet p n o n' :
  await_acceptance p n = (o, n') -> quiet n n'.
Proof.
  unfold await_acceptance, bind at 1, this.
  destruct (goal_received_ n); [run; intros [= <- <-]; repeat split|].
  destruct (future_goal_handle_ n); [run; intros [= <- <-]; repeat split|].
  unfold bind at 1.
  destruct (spin (future_deliveries p) n) as [[[]|e] n3] eqn:E3;
    apply spin_frame in E3 as [F3 B3];
    pose proof (bridge_only_quiet _ _ F3 B3) as (M & T & Sb).
  2:{ intros [= <- <-]. repeat split; assumption. }
  unfold call_onFailure.
  destruct (future_complete p) as [[h|]|]; run.
  - intros [= <- <-]. unfold quiet. counters. repeat split; assumption.
  - intros [= <- <-]. unfold quiet. counters. repeat split; assumption.
  - case_timeout;
      [destruct (CheckStatus (onFailure SEND_GOAL_TIMEOUT))|];
      intros [= <- <-]; unfold quiet; counters; repeat split; assumption.
Qed.

Lemma conclude_quiet p n o n' :
  conclude p n = (o, n') -> quiet n n'.
Proof.
  intro E. pose proof (conclude_frame _ _ _ _ E) as (_ & _ & M & T & _).
  repeat split; try assumption.
  revert E. unfold conclude, bind at 1, this.
  destruct (negb (status_eqb (on_feedback_state_change_ n) RUNNING)).
  - unfold bind at 1.
    destruct (cancelGoal (cancel p) n) as [[[]|e] n3] eqn:E3;
      apply cancelGoal_counts in E3 as (_ & Sb & _); run; intros [= <- <-];
      exact Sb.
  - unfold call_onFailure, call_onResultReceived.
    destruct (ResultCode_eq_dec (code (result_ n)) UNKNOWN);
      [|destruct (ResultCode_eq_dec (code (result_ n)) ABORTED);
        [|destruct (ResultCode_eq_dec (code (result_ n)) CANCELED)]];
      run; intros [= <- <-]; reflexivity.
Qed.

Lemma poll_goal_quiet p n o n' :
  poll_goal p n = (o, n') -> quiet n n'.
Proof.
  unfold poll_goal, bind at 1.
  destruct (spin (spin_some_deliveries p) n) as [[[]|e] n1] eqn:E1;
    apply spin_frame in E1 as [F1 B1];
    pose proof (bridge_only_quiet _ _ F1 B1) as Q1.
  2:{ intros [= <- <-]. exact Q1. }
  unfold bind at 1.
  destruct (await_acceptance p n1) as [[[s|]|e] n2] eqn:E2;
    apply await_acceptance_quiet in E2.
  - run. intros [= <- <-]. eapply quiet_trans; eassumption.
  - intro H. apply conclude_quiet in H.
    eapply quiet_trans; [eassumption|]. eapply quiet_trans; eassumption.
  - intros [= <- <-]. eapply quiet_trans; eassumption.
Qed.

(** The first poll sends at most one goal, and only when it answers
    RUNNING. *)
Lemma start_goal_config p n o n' :
  start_goal p n = (o, n') ->
  server_name_may_change_ n' = server_name_may_change_ n /\
  server_timeout_ n' = server_timeout_ n /\
  bindings n' = bindings n /\
  (submissions n' = submissions n \/
   (submissions n' = S (submissions n) /\ o = Normal RUNNING)).
Proof.
  unfold start_goal, call_setGoal, call_onFailure. run.
  destruct (user_goal p) as [g|]; cbn;
    [destruct (action_client_ n)|]; intros [= <- <-]; counters;
    repeat split; auto.
Qed.

Lemma bind_client_config p n o n' :
  bind_client p n = (o, n') ->
  server_name_may_change_ n' = server_name_may_change_ n /\
  server_timeout_ n' = server_timeout_ n.
Proof.
  unfold bind_client, createClient, bind at 1, this.
  destruct (is_null (action_client_ n) || _);
    [destruct (string_dec (prev_server_name_ n) (input_server_name p));
     [|destruct (string_dec (input_server_name p) "")]|];
    run; intros [= <- <-]; split; reflexivity.
Qed.

Lemma tick_not_IDLE p n :
  status_eqb (status n) IDLE = false ->
  tick p n = match bind_client p n with
             | (Normal _, n1) =>
                 if status_eqb (status n) RUNNING then poll_goal p n1
                 else (Normal RUNNING, n1)
             | (Thrown e, n1) => (Thrown e, n1)
             end.
Proof.
  intro St. unfold tick, bind at 1.
  destruct (bind_client p n) as [[[]|e] n1] eqn:E; [|reflexivity].
  apply bind_client_status in E. unfold bind, this. rewrite E, St.
  destruct (status_eqb (status n) RUNNING); reflexivity.
Qed.

Lemma status_eqb_refl s : status_eqb s s = true.
Proof. destruct s; reflexivity. Qed.

Lemma status_eqb_true a b : status_eqb a b = true -> a = b.
Proof. unfold status_eqb. destruct (NodeStatus_eq_dec a b); [trivial|discriminate]. Qed.

Lemma status_eqb_false a b : a <> b -> status_eqb a b = false.
Proof. unfold status_eqb. destruct (NodeStatus_eq_dec a b); [contradiction|trivial]. Qed.

(** [tick] keeps the configuration, and sends a goal only from IDLE. *)
Lemma tick_config p n o n' :
  tick p n = (o, n') ->
  server_name_may_change_ n' = server_name_may_change_ n /\
  server_timeout_ n' = server_timeout_ n /\
  (submissions n' = submissions n \/
   (status n = IDLE /\ submissions n' = S (submissions n) /\ o = Normal RUNNING)).
Proof.
  destruct (status_eqb (status n) IDLE) eqn:St.
  - apply status_eqb_true in St. rewrite (tick_IDLE p n St).
    destruct (bind_client p n) as [[[]|e] n1] eqn:E1;
      pose proof (bind_client_config _ _ _ _ E1) as (M1 & T1);
      apply bind_client_counts in E1 as (_ & _ & S1 & _).
    + intro H. apply start_goal_config in H as (M & T & _ & Sb).
      repeat split; try congruence.
      destruct Sb as [Sb|[Sb O]]; [left|right; repeat split]; congruence.
    + intros [= <- <-]. repeat split; auto.
  - rewrite (tick_not_IDLE p n St).
    destruct (bind_client p n) as [[[]|e] n1] eqn:E1;
      pose proof (bind_client_config _ _ _ _ E1) as (M1 & T1);
      apply bind_client_counts in E1 as (_ & _ & S1 & _).
    + destruct (status_eqb (status n) RUNNING).
      * intro H. apply poll_goal_quiet in H as (M & T & Sb).
        repeat split; try congruence. left. congruence.
      * intros [= <- <-]. repeat split; auto.
    + intros [= <- <-]. repeat split; auto.
Qed.

(** ** The members without initialiser *)

Lemma agree_refl n : agree n n.
Proof. repeat split. Qed.

Lemma bind_client_agree p n1 n2 :
  agree n1 n2 ->
  exists o m1 m2,
    bind_client p n1 = (o, m1) /\ bind_client p n2 = (o, m2) /\ agree m1 m2.
Proof.
  intros (St & Pr & M & T & Cl & Fu & Gh & Ts & Tr).
  unfold bind_client, createClient. run. rewrite St, Pr, M, Cl.
  destruct (is_null (action_client_ n2) || _);
    [destruct (string_dec (prev_server_name_ n2) (input_server_name p));
     [|destruct (string_dec (input_server_name p) "")]|];
    cbn; do 3 eexists; (split; [reflexivity|split; [reflexivity|]]);
    unfold agree; cbn; repeat split; congruence.
Qed.

Lemma start_goal_agree p m1 m2 :
  agree m1 m2 -> start_goal p m1 = start_goal p m2.
Proof.
  intros (St & Pr & M & T & Cl & Fu & Gh & Ts & Tr).
  unfold start_goal, call_setGoal, call_onFailure. run.
  rewrite Pr, M, T, Cl, Gh, Ts, Tr. reflexivity.
Qed.

(** From IDLE, either [createClient] throws in both nodes, or they are
    the same node after the poll. *)
Lemma tick_IDLE_agree p n1 n2 :
  status n1 = IDLE -> agree n1 n2 ->
  (exists e m1 m2, tick p n1 = (Thrown e, m1) /\ tick p n2 = (Thrown e, m2) /\
                   agree m1 m2) \/
  tick p n1 = tick p n2.
Proof.
  intros St A. pose proof A as (St2 & _).
  rewrite (tick_IDLE p n1 St), (tick_IDLE p n2) by congruence.
  destruct (bind_client_agree p n1 n2 A) as [o [m1 [m2 (E1 & E2 & Am)]]].
  rewrite E1, E2. destruct o as [[]|e].
  - right. apply start_goal_agree. exact Am.
  - left. exists e, m1, m2. split; [reflexivity|split; [reflexivity|exact Am]].
Qed.

Lemma activation_agree w polls n1 n2 :
  status n1 = IDLE -> agree n1 n2 ->
  fst (activation polls w n1) = fst (activation polls w n2) /\
  agree (snd (activation polls w n1)) (snd (activation polls w n2)).
Proof.
  intros St A. pose proof A as (St2 & Pr & M & T & Cl & Fu & Gh & Ts & Tr).
  destruct polls as [|p polls]; cbn [activation].
  - unfold halt, bind, this. rewrite <- St2, St. cbn.
    split; [reflexivity|]. repeat split; assumption.
  - destruct (tick_IDLE_agree p n1 n2 St A) as [[e [m1 [m2 (E1 & E2 & Am)]]]|E].
    + rewrite E1, E2. cbn. split; [reflexivity|exact Am].
    + rewrite E. split; [reflexivity|apply agree_refl].
Qed.

Lemma construct_agree conf params external found n1 n2 :
  agree n1 n2 ->
  fst (construct conf params external found n1) =
    fst (construct conf params external found n2) /\
  agree (snd (construct conf params external found n1))
        (snd (construct conf params external found n2)) /\
  status (snd (construct conf params external found n1)) = status n1.
Proof.
  intros (St & Pr & M & T & Cl & Fu & Gh & Ts & Tr).
  unfold construct, createClient, both_empty.
  destruct external; [run; repeat split; assumption|].
  destruct (negb (server_name_declared conf)); [run; repeat split; assumption|].
  destruct (server_name_port conf) as [bb|].
  - destruct ((if string_dec bb "" then true else false)
              || (if string_dec bb "__default__placeholder__" then true else false)).
    + destruct (string_dec (default_server_name params) ""); run;
        [repeat split; assumption|].
      destruct (string_dec (default_server_name params) ""); [contradiction|].
      cbn. rewrite T, Tr. repeat split; assumption.
    + destruct (negb (isBlackboardPointer bb)); run.
      * destruct (string_dec bb ""); cbn; rewrite ?T, ?Tr;
          repeat split; assumption.
      * repeat split; assumption.
  - destruct (string_dec (default_server_name params) ""); run;
      [repeat split; assumption|].
    destruct (string_dec (default_server_name params) ""); [contradiction|].
    cbn. rewrite T, Tr. repeat split; assumption.
Qed.

(** X3. The members the constructor leaves without a value
    ([on_feedback_state_change_], [goal_received_], [result_]) are never
    read before they are assigned: for any two contents of that memory the
    constructor ends alike, the first activation ends alike, and the nodes
    it leaves differ at most in those members. *)
Theorem indeterminate_members_never_read
    conf params external found u1 u2 polls w :
  let built u := construct conf params external found (members params u) in
  fst (built u1) = fst (built u2) /\
  fst (activation polls w (snd (built u1))) =
    fst (activation polls w (snd (built u2))) /\
  agree (snd (activation polls w (snd (built u1))))
        (snd (activation polls w (snd (built u2)))).
Proof.
  intro built.
  assert (A : agree (members params u1) (members params u2)) by (repeat split).
  destruct (construct_agree conf params external found _ _ A) as (O & Ab & St).
  split; [exact O|]. apply activation_agree; [exact St|exact Ab].
Qed.

(** ** Binding to a server *)

(** X4. When [tick] has to bind and port [server_name] is empty (or could
    not be read), it throws [BT::RuntimeError] and leaves the node as it
    was: no member is assigned, no call is made, the status is unchanged. *)
Theorem tick_empty_server_name p n :
  rebinds p n = true ->
  input_server_name p = "" ->
  tick p n = (Thrown (RuntimeError "server_name is empty"), n).
Proof.
  unfold rebinds, tick, bind_client, createClient. run. intros R E.
  destruct (is_null (action_client_ n) || _); [|discriminate].
  destruct (string_dec (prev_server_name_ n) (input_server_name p));
    [discriminate|].
  destruct (string_dec (input_server_name p) ""); [reflexivity|contradiction].
Qed.

Lemma start_goal_with_server name found p n :
  start_goal (with_server name found p) n = start_goal p n.
Proof. reflexivity. Qed.

(** X5. A node whose name cannot change ([server_name_may_change_] false:
    a client given to the constructor, a static port value or the default
    name) and that has a client never binds again: no poll reads the port
    or creates a client, in IDLE or not, and the two facts still hold
    after the poll. *)
Theorem fixed_binding_is_kept p n c o n' :
  server_name_may_change_ n = false ->
  action_client_ n = Some c ->
  tick p n = (o, n') ->
  action_client_ n' = Some c /\
  server_name_may_change_ n' = false /\
  prev_server_name_ n' = prev_server_name_ n /\
  bindings n' = bindings n /\
  forall name found, tick (with_server name found p) n = (o, n').
Proof.
  intros May Cl E.
  pose proof (tick_config _ _ _ _ E) as (M & _).
  assert (R : forall q, bind_client q n = (Normal tt, n)).
  { intro q. apply bind_client_rebinds_false. unfold rebinds.
    rewrite Cl, May. cbn. rewrite andb_false_r. reflexivity. }
  assert (T : forall q, tick q n =
                if status_eqb (status n) IDLE then start_goal q n
                else if status_eqb (status n) RUNNING then poll_goal q n
                else (Normal RUNNING, n)).
  { intro q. destruct (status_eqb (status n) IDLE) eqn:St.
    - rewrite (tick_IDLE q n (status_eqb_true _ _ St)), R. reflexivity.
    - rewrite (tick_not_IDLE q n St), R. reflexivity. }
  assert (W : forall name found, tick (with_server name found p) n = (o, n')).
  { intros name found. rewrite T, start_goal_with_server, poll_goal_with_server,
      <- T. exact E. }
  rewrite T in E. destruct (status_eqb (status n) IDLE).
  - pose proof (start_goal_frame _ _ _ _ E) as (Cl' & Pr' & _).
    apply start_goal_config in E as (_ & _ & B & _).
    repeat split; first [congruence | apply W].
  - destruct (status_eqb (status n) RUNNING).
    + apply poll_goal_binding in E as (_ & Cl' & Pr' & B).
      repeat split; first [congruence | apply W].
    + injection E as <- <-. repeat split; first [congruence | apply W].
Qed.

Lemma bind_client_bound p n o n' :
  bound n -> bind_client p n = (o, n') -> bound n'.
Proof.
  unfold bound, bind_client, createClient, bind at 1, this. intro B.
  destruct (is_null (action_client_ n) || _);
    [destruct (string_dec (prev_server_name_ n) (input_server_name p));
     [|destruct (string_dec (input_server_name p) "")]|];
    run; intros [= <- <-]; cbn; trivial.
  intros name [= <-]. split; [reflexivity|assumption].
Qed.

(** X6. The client and the name go together: if every client made by
    [createClient] is the one of [prev_server_name_], with a name that is
    not empty, the same holds after [tick], however it ends, and after
    [halt]. *)
Theorem binding_is_consistent n :
  bound n ->
  (forall p o n', tick p n = (o, n') -> bound n') /\
  (forall w o n', halt w n = (o, n') -> bound n').
Proof.
  intro B. split.
  - intros p o n'. unfold tick, bind at 1.
    destruct (bind_client p n) as [[[]|e] n1] eqn:E1;
      apply (bind_client_bound p n _ n1 B) in E1.
    2:{ intros [= <- <-]. exact E1. }
    unfold bind, this.
    destruct (status_eqb (status n1) IDLE).
    { intro E. apply start_goal_frame in E as (Cl & Pr & _).
      unfold bound in *. rewrite Cl, Pr. exact E1. }
    destruct (status_eqb (status n1) RUNNING).
    { intro E. apply poll_goal_binding in E as (_ & Cl & Pr & _).
      unfold bound in *. rewrite Cl, Pr. exact E1. }
    run. intros [= <- <-]. exact E1.
  - intros w o n'. unfold halt, bind, this.
    destruct (status_eqb (status n) RUNNING).
    + intro E. apply cancelGoal_frame in E as (_ & Pr & _ & _ & Cl & _).
      unfold bound in *. rewrite Cl, Pr. exact B.
    + run. intros [= <- <-]. exact B.
Qed.

(** ** Goals sent *)

Lemma activation_RUNNING_submissions w polls : forall n e n',
  status n = RUNNING ->
  activation polls w n = (e, n') -> submissions n' = submissions n.
Proof.
  induction polls as [|p polls IH]; intros n e n' St; cbn [activation].
  - destruct (halt w n) as [[[]|x] n1] eqn:E; revert E;
      unfold halt, bind, this; rewrite St; change (status_eqb RUNNING RUNNING) with true;
      cbv iota; intro E; apply cancelGoal_counts in E as (_ & Sb & _);
      intros [= <- <-]; exact Sb.
  - destruct (tick p n) as [[s|x] n1] eqn:E;
      apply tick_config in E as (_ & _ & [Sb|(StI & _)]); try congruence.
    destruct (status_eqb s RUNNING).
    + intro H. apply IH in H; [|reflexivity]. counters. congruence.
    + intros [= <- <-]. exact Sb.
Qed.

(** X7. An activation sends at most one goal, and only its first poll can
    send it: a poll of a node that is not IDLE never calls
    [async_send_goal], so a goal that timed out, was rejected or failed is
    not sent again within the activation. *)
Theorem one_goal_per_activation p polls w n e n' :
  status n = IDLE ->
  activation (p :: polls) w n = (e, n') ->
  (submissions n' <= S (submissions n))%nat /\
  submissions n' = submissions (snd (tick p n)).
Proof.
  intros St. cbn [activation].
  destruct (tick p n) as [[s|x] n1] eqn:E;
    apply tick_config in E as (_ & _ & Sb); cbn [snd].
  - destruct (status_eqb s RUNNING).
    + intro H. apply activation_RUNNING_submissions in H; [|reflexivity].
      counters. destruct Sb as [Sb|(_ & Sb & _)]; split; lia.
    + intros [= <- <-]. counters. destruct Sb as [Sb|(_ & Sb & _)]; split; lia.
  - intros [= <- <-]. destruct Sb as [Sb|(_ & Sb & _)]; split; lia.
Qed.

(** ** The acceptance timeout, once more *)

(** X8. The poll that reports the acceptance timeout does not cancel the
    goal it gives up: no [async_cancel_goal] is called, and the node keeps
    the pending future with [goal_received_] false and status RUNNING, so a
    further poll without a reset would report the timeout again. *)
Theorem timeout_does_not_cancel p n c g o n' :
  status n = RUNNING ->
  action_client_ n = Some c ->
  goal_received_ n = false ->
  future_goal_handle_ n = future_of g ->
  feedback_not_IDLE (spin_some_deliveries p) = true ->
  feedback_not_IDLE (future_deliveries p) = true ->
  future_complete p = None ->
  now p - time_goal_sent_ n >
    from_seconds (double_div (double_of_int (server_timeout_ n))
                             (double_of_int 1000)) ->
  tick p n = (o, n') ->
  o = CheckStatus (onFailure SEND_GOAL_TIMEOUT) /\
  cancellations n' = cancellations n /\
  submissions n' = submissions n /\
  future_goal_handle_ n' = future_of g /\
  goal_received_ n' = false /\
  status n' = RUNNING /\
  time_goal_sent_ n' = time_goal_sent_ n.
Proof.
  intros St Cl Gr Fu F1 F2 Fc Late.
  destruct (spin_normal (spin_some_deliveries p) n F1) as [n1 [E1 _]].
  destruct (spin_normal (future_deliveries p) n1 F2) as [n2 [E2 _]].
  rewrite (tick_awaiting p n c g n1 n2 St Cl Gr Fu E1 E2), Fc.
  rewrite (proj2 (Z.gtb_lt _ _)) by lia.
  apply spin_frame in E1 as [S1 B1]. apply spin_frame in E2 as [S2 B2].
  pose proof (same_goal_trans _ _ _ S1 S2)
    as (St2 & _ & _ & _ & _ & Fu2 & _ & Ts2 & Gr2).
  pose proof (bridge_only_counts _ _ (bridge_only_trans _ _ _ B1 B2))
    as (_ & C & Sb & _).
  intros [= <- <-]. counters. repeat split; congruence.
Qed.

(** ** Feedback callbacks *)

Lemma no_feedback_not_IDLE xs : no_feedback xs = true -> feedback_not_IDLE xs = true.
Proof.
  unfold no_feedback, feedback_not_IDLE.
  induction xs as [|[h|fb|r] xs IH]; cbn; intro H; try discriminate; auto.
Qed.

(** X9. A feedback callback that returns IDLE makes the poll throw
    [std::logic_error] from inside the spin: the callbacks after it are not
    run, nothing is dispatched or cancelled, and IDLE is already stored in
    [on_feedback_state_change_] when the exception leaves [tick]. *)
Theorem IDLE_feedback_throws p n c xs fb ys :
  status n = RUNNING ->
  action_client_ n = Some c ->
  spin_some_deliveries p = xs ++ feedback fb :: ys ->
  feedback_not_IDLE xs = true ->
  onFeeback fb = IDLE ->
  exists n' l,
    tick p n = (Thrown (logic_error "onFeeback must not retunr IDLE"), n') /\
    on_feedback_state_change_ n' = IDLE /\
    trace n' = onFeeback_called fb :: l ++ trace n /\
    forallb of_bridge l = true /\
    same_goal n n'.
Proof.
  intros St Cl Xs Fx Fb.
  rewrite (tick_RUNNING p n c St Cl). unfold poll_goal, bind at 1.
  rewrite Xs, spin_app.
  destruct (spin_normal xs n Fx) as [n1 [E1 _]]. rewrite E1.
  apply spin_frame in E1 as [S1 [l [T B]]].
  cbn [spin]. unfold bind at 1, notify, feedback_callback. run. rewrite Fb. cbn.
  eexists. exists l. split; [reflexivity|]. cbn. rewrite T.
  repeat split; trivial; apply S1.
Qed.

Lemma conclude_RUNNING p n o n' :
  on_feedback_state_change_ n = RUNNING ->
  conclude p n = (o, n') ->
  cancellations n' = cancellations n /\
  (code (result_ n) = UNKNOWN -> o = Normal RUNNING /\ n' = n) /\
  (code (result_ n) <> UNKNOWN -> dispatches n' = S (dispatches n)).
Proof.
  intro Sl. unfold conclude, bind at 1, this. rewrite Sl.
  change (negb (status_eqb RUNNING RUNNING)) with false. cbv iota.
  unfold call_onFailure, call_onResultReceived.
  destruct (ResultCode_eq_dec (code (result_ n)) UNKNOWN);
    [|destruct (ResultCode_eq_dec (code (result_ n)) ABORTED);
      [|destruct (ResultCode_eq_dec (code (result_ n)) CANCELED)]];
    run; intros [= <- <-]; counters; repeat split; trivial; contradiction.
Qed.

(** X10. Only the last feedback callback of a spin decides: when it
    returns RUNNING, a status other than RUNNING returned earlier in the
    same spin is forgotten; the poll requests no cancellation and goes on
    to the result, answering RUNNING when there is none. *)
Theorem last_feedback_decides p n c xs fb ys o n' :
  status n = RUNNING ->
  action_client_ n = Some c ->
  goal_received_ n = true ->
  spin_some_deliveries p = xs ++ feedback fb :: ys ->
  feedback_not_IDLE xs = true ->
  no_feedback ys = true ->
  onFeeback fb = RUNNING ->
  tick p n = (o, n') ->
  let r := latest_result (spin_some_deliveries p) (result_ n) in
  cancellations n' = cancellations n /\
  (code r = UNKNOWN -> o = Normal RUNNING /\ dispatches n' = dispatches n) /\
  (code r <> UNKNOWN -> dispatches n' = S (dispatches n)).
Proof.
  intros St Cl Gr Xs Fx Fy Fb E r.
  assert (Ni : onFeeback fb <> IDLE) by (rewrite Fb; discriminate).
  destruct (spin_last_feedback xs fb ys n Fx Fy Ni) as [n1 [E1 S1]].
  assert (Fa : feedback_not_IDLE (spin_some_deliveries p) = true).
  { rewrite Xs. unfold feedback_not_IDLE. rewrite forallb_app. cbn.
    fold (feedback_not_IDLE xs). fold (feedback_not_IDLE ys).
    rewrite Fx, (no_feedback_not_IDLE ys Fy), Fb. reflexivity. }
  destruct (spin_normal _ n Fa) as [n1' [E1' R1]].
  rewrite <- Xs in E1. rewrite E1 in E1'. injection E1' as <-.
  rewrite (tick_active p n c n1 St Cl Gr E1) in E.
  apply spin_frame in E1 as [_ B].
  apply bridge_only_counts in B as (D1 & C1 & _ & _).
  rewrite Fb in S1. fold r in R1.
  destruct (conclude_RUNNING p n1 o n' S1 E) as (C & U & K). rewrite R1 in U, K.
  split; [congruence|]. split.
  - intro Hu. destruct (U Hu) as [-> ->]. split; [reflexivity|exact D1].
  - intro Hk. rewrite (K Hk). congruence.
Qed.

(** X11. The status [tick] answers after a cancellation is the one read
    after [cancelGoal] has waited: a feedback callback that runs during
    that wait replaces the status that caused the cancellation, so the
    poll answers RUNNING if that callback returned RUNNING, with the
    cancellation already requested. *)
Theorem feedback_during_cancel_wait p n c xs fb ys xs' fb' ys' :
  status n = RUNNING ->
  action_client_ n = Some c ->
  goal_received_ n = true ->
  spin_some_deliveries p = xs ++ feedback fb :: ys ->
  feedback_not_IDLE xs = true ->
  no_feedback ys = true ->
  onFeeback fb <> RUNNING ->
  onFeeback fb <> IDLE ->
  cancel_deliveries (cancel p) = xs' ++ feedback fb' :: ys' ->
  feedback_not_IDLE xs' = true ->
  no_feedback ys' = true ->
  onFeeback fb' <> IDLE ->
  exists n',
    tick p n = (Normal (onFeeback fb'), n') /\
    cancellations n' = S (cancellations n) /\
    dispatches n' = dispatches n.
Proof.
  intros St Cl Gr Xs Fx Fy Nr Ni Xs' Fx' Fy' Ni'.
  destruct (spin_last_feedback xs fb ys n Fx Fy Ni) as [n1 [E1 S1]].
  rewrite <- Xs in E1. rewrite (tick_active p n c n1 St Cl Gr E1).
  apply spin_frame in E1 as [F B].
  destruct F as (_ & _ & _ & _ & Cl1 & _).
  apply bridge_only_counts in B as (D1 & C1 & _ & _).
  rewrite Cl in Cl1.
  destruct (conclude p n1) as [o n'] eqn:E.
  assert (K : cancellations n' = S (cancellations n1) /\ dispatches n' = dispatches n1).
  { destruct (conclude_cancels p n1 c Cl1) as [o2 [n2 [l (E2 & _ & C & D)]]];
      [congruence|]. rewrite E in E2. injection E2 as <- <-. split; assumption. }
  destruct K as [C D]. exists n'. split; [|split; congruence].
  revert E. unfold conclude, bind at 1, this.
  rewrite (status_eqb_false _ _ (eq_ind_r (fun s => s <> RUNNING) Nr S1)).
  cbn [negb]. unfold bind at 1, cancelGoal, bind at 1, this. rewrite Cl1.
  unfold bind at 1, call, assign. unfold bind at 1. rewrite Xs'.
  match goal with |- context [spin _ ?m] =>
    destruct (spin_last_feedback xs' fb' ys' m Fx' Fy' Ni') as [n2 [E2 S2]] end.
  rewrite E2. run. intros [= <- <-]. cbn. rewrite S2. reflexivity.
Qed.

(** ** The handle [tick] cancels with *)

Lemma bind_client_goal p n o n' :
  bind_client p n = (o, n') ->
  goal_received_ n' = goal_received_ n /\ goal_handle_ n' = goal_handle_ n.
Proof.
  unfold bind_client, createClient, bind at 1, this.
  destruct (is_null (action_client_ n) || _);
    [destruct (string_dec (prev_server_name_ n) (input_server_name p));
     [|destruct (string_dec (input_server_name p) "")]|];
    run; intros [= <- <-]; split; reflexivity.
Qed.

Lemma conclude_cancel_handle p n o n' :
  conclude p n = (o, n') ->
  cancellations n' <> cancellations n ->
  exists c, In (async_cancel_goal c (goal_handle_ n)) (trace n').
Proof.
  intros E Ne.
  destruct (status_eqb (on_feedback_state_change_ n) RUNNING) eqn:Sl.
  { apply status_eqb_true in Sl.
    destruct (conclude_RUNNING p n o n' Sl E) as (C & _). contradiction. }
  assert (Nr : on_feedback_state_change_ n <> RUNNING).
  { intro H. rewrite H in Sl. discriminate Sl. }
  destruct (action_client_ n) as [c|] eqn:Cl.
  - destruct (conclude_cancels p n c Cl Nr) as [o2 [n2 [l (E2 & T & _)]]].
    rewrite E in E2. injection E2 as <- <-. exists c.
    rewrite T. apply in_or_app. right. left. reflexivity.
  - exfalso. apply Ne. revert E. unfold conclude, bind at 1, this. rewrite Sl.
    cbn [negb]. unfold bind at 1, cancelGoal, bind at 1, this. rewrite Cl.
    run. intros [= <- <-]. reflexivity.
Qed.

(** What [await_acceptance] does to the handle and to the counters. *)
Lemma await_acceptance_handle p n o n' :
  await_acceptance p n = (o, n') ->
  cancellations n' = cancellations n /\
  (handle_known n ->
   match o with
   | Normal None => goal_received_ n' = true /\ goal_handle_ n' <> None
   | Normal (Some _) => goal_received_ n' = false
   | Thrown _ => True
   end).
Proof.
  unfold await_acceptance, bind at 1, this, handle_known.
  destruct (goal_received_ n) eqn:Gr.
  { run. intros [= <- <-]. split; [reflexivity|]. intro K. split; auto. }
  destruct (future_goal_handle_ n); [run; intros [= <- <-]; split; trivial|].
  unfold bind at 1.
  destruct (spin (future_deliveries p) n) as [[[]|e] n3] eqn:E3;
    apply spin_frame in E3 as [F3 B3];
    apply bridge_only_counts in B3 as (_ & C3 & _ & _);
    destruct F3 as (_ & _ & _ & _ & _ & _ & _ & _ & Gr3).
  2:{ intros [= <- <-]. split; trivial. }
  unfold call_onFailure.
  destruct (future_complete p) as [[h|]|]; run.
  - intros [= <- <-]. counters. split; [exact C3|]. intros _. split; [reflexivity|discriminate].
  - intros [= <- <-]. counters. split; [exact C3|trivial].
  - case_timeout;
      [destruct (CheckStatus (onFailure SEND_GOAL_TIMEOUT))|];
      intros [= <- <-]; counters; split; trivial; intros _; congruence.
Qed.

Lemma handle_known_same a b :
  goal_received_ a = goal_received_ b -> goal_handle_ a = goal_handle_ b ->
  handle_known b -> handle_known a.
Proof. unfold handle_known. intros -> ->. trivial. Qed.

(** X12. As long as no poll threw, a cancellation requested by [tick]
    itself carries the handle of the accepted goal, never a null one:
    the SECOND case is only reached after the acceptance, and the handle a
    normal poll leaves with [goal_received_] set is not null. *)
Theorem tick_cancels_with_the_handle p n o n' :
  status n = RUNNING ->
  handle_known n ->
  tick p n = (o, n') ->
  (forall s, o = Normal s -> handle_known n') /\
  (cancellations n' <> cancellations n ->
   exists c h, goal_handle_ n' = Some h /\
               In (async_cancel_goal c (Some h)) (trace n')).
Proof.
  intros St K.
  rewrite (tick_not_IDLE p n) by (rewrite St; reflexivity).
  rewrite St. change (status_eqb RUNNING RUNNING) with true. cbv iota.
  destruct (bind_client p n) as [[[]|e] n1] eqn:E1;
    pose proof (bind_client_goal _ _ _ _ E1) as (Gr1 & Gh1);
    apply bind_client_counts in E1 as (_ & C1 & _ & _).
  2:{ intros [= <- <-]. split; [discriminate|]. intro Ne. congruence. }
  assert (K1 : handle_known n1) by (eapply handle_known_same; eassumption).
  unfold poll_goal, bind at 1.
  destruct (spin (spin_some_deliveries p) n1) as [[[]|e] n2] eqn:E2;
    apply spin_frame in E2 as [F2 B2];
    apply bridge_only_counts in B2 as (_ & C2 & _ & _);
    destruct F2 as (_ & _ & _ & _ & _ & _ & Gh2 & _ & Gr2).
  2:{ intros [= <- <-]. split; [discriminate|]. intro Ne. congruence. }
  assert (K2 : handle_known n2) by (eapply handle_known_same; eassumption).
  unfold bind at 1.
  destruct (await_acceptance p n2) as [[[s|]|e] n3] eqn:E3;
    apply await_acceptance_handle in E3 as (C3 & H3); specialize (H3 K2).
  - run. intros [= <- <-]. split; [|intro Ne; congruence].
    intros s' _ G. congruence.
  - destruct H3 as [Gr3 Gh3]. intro E.
    pose proof (conclude_frame _ _ _ _ E) as (_ & _ & _ & _ & _ & _ & Gh & _ & Gr).
    split; [intros s' _ _; congruence|].
    intro Ne. destruct (conclude_cancel_handle p n3 o n' E) as [c In_];
      [congruence|].
    destruct (goal_handle_ n3) as [h|] eqn:H; [|contradiction].
    exists c, h. split; [congruence|exact In_].
  - intros [= <- <-]. split; [discriminate|]. intro Ne. congruence.
Qed.

(** ** halt *)


(** ** A node that was not reset *)

(** X14. Polled with a status other than IDLE and RUNNING, that is
    after an answer of SUCCESS or FAILURE that the tree did not reset, a
    node with a client answers RUNNING and does nothing: it does not start
    a new goal. *)
Theorem tick_without_reset p n c :
  status n <> IDLE ->
  status n <> RUNNING ->
  action_client_ n = Some c ->
  tick p n = (Normal RUNNING, n).
Proof.
  intros Ni Nr Cl.
  rewrite (tick_not_IDLE p n (status_eqb_false _ _ Ni)).
  rewrite bind_client_rebinds_false.
  - rewrite (status_eqb_false _ _ Nr). reflexivity.
  - unfold rebinds. rewrite Cl, (status_eqb_false _ _ Ni). reflexivity.
Qed.

(** ** What the callbacks return *)

Lemma CheckStatus_Normal x s :
  CheckStatus x = Normal s -> s = x /\ (s = SUCCESS \/ s = FAILURE).
Proof. destruct x; cbn; intros [= <-]; auto; discriminate. Qed.

Section Contract.

(** A set of statuses that holds RUNNING and all that [onFeeback] returns. *)
Variable P : NodeStatus -> Prop.
Hypothesis P_RUNNING : P RUNNING.
Hypothesis P_onFeeback : forall fb, P (onFeeback fb).

Lemma spin_contract xs : forall n o n',
  P (on_feedback_state_change_ n) -> spin xs n = (o, n') ->
  P (on_feedback_state_change_ n').
Proof.
  induction xs as [|x xs IH]; intros n o n' Pn; cbn [spin].
  - run. intros [= <- <-]. exact Pn.
  - unfold bind. destruct (notify x n) as [[[]|e] n1] eqn:E.
    + apply IH. revert E.
      destruct x as [h|fb|r]; unfold notify, goal_response_callback,
        feedback_callback, result_callback; run;
        [|destruct (status_eqb (onFeeback fb) IDLE)|];
        intros [= <-]; cbn; auto.
    + intros [= <- <-]. revert E.
      destruct x as [h|fb|r]; unfold notify, goal_response_callback,
        feedback_callback, result_callback; run;
        [|destruct (status_eqb (onFeeback fb) IDLE)|];
        intros [= <- <-]; cbn; auto.
Qed.

Lemma conclude_contract p n o n' :
  P (on_feedback_state_change_ n) -> conclude p n = (o, n') ->
  P (on_feedback_state_change_ n') /\
  (forall s, o = Normal s -> s = SUCCESS \/ s = FAILURE \/ P s) /\
  (cancellations n' <> cancellations n -> on_feedback_state_change_ n <> RUNNING).
Proof.
  intros Pn E.
  assert (C : cancellations n' <> cancellations n ->
              on_feedback_state_change_ n <> RUNNING).
  { intros Ne Sl. destruct (conclude_RUNNING p n o n' Sl E) as (C & _).
    contradiction. }
  revert E. unfold conclude, bind at 1, this.
  destruct (negb (status_eqb (on_feedback_state_change_ n) RUNNING)).
  - unfold bind at 1, cancelGoal, bind at 1, this.
    destruct (action_client_ n) as [c|];
      [|run; intros [= <- <-]; repeat split; trivial; discriminate].
    unfold bind at 1, call, assign. unfold bind at 1.
    destruct (spin (cancel_deliveries (cancel p)) _) as [[[]|e] n2] eqn:E2;
      apply spin_contract in E2; trivial; run; intros [= <- <-]; cbn;
      repeat split; trivial; try discriminate.
    intros s [= <-]. auto.
  - unfold call_onFailure, call_onResultReceived.
    destruct (ResultCode_eq_dec (code (result_ n)) UNKNOWN);
      [|destruct (ResultCode_eq_dec (code (result_ n)) ABORTED);
        [|destruct (ResultCode_eq_dec (code (result_ n)) CANCELED)]];
      run; intros [= <- <-]; cbn; repeat split; trivial;
      intros s Hs; try (apply CheckStatus_Normal in Hs as [_ [Hs|Hs]]; auto).
    injection Hs as <-. auto.
Qed.

Lemma await_acceptance_contract p n o n' :
  P (on_feedback_state_change_ n) -> await_acceptance p n = (o, n') ->
  P (on_feedback_state_change_ n') /\
  (forall s, o = Normal (Some s) -> s = SUCCESS \/ s = FAILURE \/ P s).
Proof.
  intro Pn. unfold await_acceptance, bind at 1, this.
  destruct (goal_received_ n);
    [run; intros [= <- <-]; split; trivial; discriminate|].
  destruct (future_goal_handle_ n);
    [run; intros [= <- <-]; split; trivial; discriminate|].
  unfold bind at 1.
  destruct (spin (future_deliveries p) n) as [[[]|e] n3] eqn:E3;
    apply spin_contract in E3; trivial.
  2:{ intros [= <- <-]. split; trivial; discriminate. }
  unfold call_onFailure.
  destruct (future_complete p) as [[h|]|]; run.
  - intros [= <- <-]. split; trivial; discriminate.
  - intros [= <- <-]. split; trivial; discriminate.
  - case_timeout.
    + destruct (CheckStatus (onFailure SEND_GOAL_TIMEOUT)) as [s0|x] eqn:K;
        intros [= <- <-]; cbn; split; trivial; try discriminate.
      intros s [= <-]. apply CheckStatus_Normal in K as [_ [K|K]]; auto.
    + intros [= <- <-]. split; trivial. intros s [= <-]. auto.
Qed.

Lemma poll_goal_contract p n o n' :
  P (on_feedback_state_change_ n) -> poll_goal p n = (o, n') ->
  P (on_feedback_state_change_ n') /\
  (forall s, o = Normal s -> s = SUCCESS \/ s = FAILURE \/ P s) /\
  (cancellations n' <> cancellations n -> exists s, P s /\ s <> RUNNING).
Proof.
  intro Pn. unfold poll_goal, bind at 1.
  destruct (spin (spin_some_deliveries p) n) as [[[]|e] n1] eqn:E1;
    pose proof (spin_contract _ _ _ _ Pn E1) as P1;
    apply spin_frame in E1 as [_ B1];
    apply bridge_only_counts in B1 as (_ & C1 & _ & _).
  2:{ intros [= <- <-]. repeat split; trivial; [discriminate|]. intro Ne. congruence. }
  unfold bind at 1.
  destruct (await_acceptance p n1) as [[[s|]|e] n2] eqn:E2;
    pose proof (await_acceptance_handle _ _ _ _ E2) as (C2 & _);
    apply await_acceptance_contract in E2 as (P2 & R2); trivial.
  - run. intros [= <- <-]. repeat split; trivial.
    + intros s' [= <-]. apply R2. reflexivity.
    + intro Ne. congruence.
  - intro E. apply conclude_contract in E as (P3 & R3 & C3); trivial.
    repeat split; trivial. intro Ne.
    exists (on_feedback_state_change_ n2). split; [exact P2|].
    apply C3. congruence.
  - intros [= <- <-]. repeat split; trivial; [discriminate|]. intro Ne. congruence.
Qed.

Lemma tick_contract p n o n' :
  status n = IDLE \/ P (on_feedback_state_change_ n) ->
  tick p n = (o, n') ->
  (status n' = IDLE \/ P (on_feedback_state_change_ n')) /\
  (forall s, o = Normal s -> s = SUCCESS \/ s = FAILURE \/ P s) /\
  (cancellations n' <> cancellations n -> exists s, P s /\ s <> RUNNING).
Proof.
  intros Pn.
  assert (B : forall o1 n1, bind_client p n = (o1, n1) ->
            status n1 = status n /\ cancellations n1 = cancellations n /\
            on_feedback_state_change_ n1 = on_feedback_state_change_ n).
  { intros o1 n1 E1. pose proof (bind_client_status _ _ _ _ E1) as St1.
    pose proof (bind_client_counts _ _ _ _ E1) as (_ & C1 & _).
    repeat split; trivial. revert E1.
    unfold bind_client, createClient, bind at 1, this.
    destruct (is_null (action_client_ n) || _);
      [destruct (string_dec (prev_server_name_ n) (input_server_name p));
       [|destruct (string_dec (input_server_name p) "")]|];
      run; intros [= <- <-]; reflexivity. }
  destruct (status_eqb (status n) IDLE) eqn:St.
  - apply status_eqb_true in St. rewrite (tick_IDLE p n St).
    destruct (bind_client p n) as [[[]|e] n1] eqn:E1;
      destruct (B _ _ eq_refl) as (St1 & C1 & S1).
    + unfold start_goal, call_setGoal, call_onFailure. run.
      destruct (user_goal p) as [g|]; cbn.
      * destruct (action_client_ n1); intros [= <- <-]; cbn;
          repeat split; auto; try discriminate; counters;
          try (intro Ne; congruence).
        intros s [= <-]. auto.
      * intros [= <- <-]. cbn. repeat split; auto.
        -- intros s Hs. apply CheckStatus_Normal in Hs as [_ [Hs|Hs]]; auto.
        -- counters. intro Ne. congruence.
    + intros [= <- <-]. split; [left; congruence|].
      split; [discriminate|]. intro Ne. congruence.
  - destruct Pn as [Pn|Pn]; [rewrite Pn in St; discriminate St|].
    rewrite (tick_not_IDLE p n St).
    destruct (bind_client p n) as [[[]|e] n1] eqn:E1;
      destruct (B _ _ eq_refl) as (St1 & C1 & S1).
    + destruct (status_eqb (status n) RUNNING).
      * intro E. apply poll_goal_contract in E as (P3 & R3 & C3);
          [|rewrite S1; exact Pn].
        repeat split; auto. intro Ne. apply C3. congruence.
      * intros [= <- <-]. split; [right; rewrite S1; exact Pn|].
        split; [intros s [= <-]; auto|]. intro Ne. congruence.
    + intros [= <- <-]. split; [right; rewrite S1; exact Pn|].
      split; [discriminate|]. intro Ne. congruence.
Qed.

End Contract.

(** X15. If the feedback callback keeps to RUNNING, SUCCESS and FAILURE,
    every poll that returns answers RUNNING, SUCCESS or FAILURE, never IDLE
    or SKIPPED, whatever [onResultReceived] and [onFailure] return; and the
    status kept from the feedback stays one of the three. *)
Theorem tick_answers_one_of_three p n o n' :
  (forall fb, answer (onFeeback fb)) ->
  status n = IDLE \/ answer (on_feedback_state_change_ n) ->
  tick p n = (o, n') ->
  (forall s, o = Normal s -> answer s) /\
  (status n' = IDLE \/ answer (on_feedback_state_change_ n')).
Proof.
  intros Hf Pn E.
  destruct (tick_contract answer (or_introl eq_refl) Hf p n o n' Pn E)
    as (Pn' & R & _).
  split; [|exact Pn'].
  intros s Hs. destruct (R s Hs) as [->|[->|A]];
    unfold answer; auto.
Qed.

(** X16. A node whose [onFeeback] always returns RUNNING, as the one the
    header supplies does, never has a poll request a cancellation: the
    goal is only cancelled through [halt]. *)
Theorem default_onFeeback_never_cancels p n o n' :
  (forall fb, onFeeback fb = RUNNING) ->
  status n = IDLE \/ on_feedback_state_change_ n = RUNNING ->
  tick p n = (o, n') ->
  cancellations n' = cancellations n /\
  (status n' = IDLE \/ on_feedback_state_change_ n' = RUNNING).
Proof.
  intros Hf Pn E.
  destruct (tick_contract (fun s => s = RUNNING) eq_refl Hf p n o n' Pn E)
    as (Pn' & _ & C).
  split; [|exact Pn'].
  destruct (Nat.eq_dec (cancellations n') (cancellations n)) as [e|Ne];
    [exact e|].
  destruct (C Ne) as [s [-> Ns]]. contradiction.
Qed.

Section DefaultOnFailure.

(** [onFailure] as the header supplies it. *)
Hypothesis onFailure_FAILURE : forall e, onFailure e = FAILURE.

Lemma bridge_only_failures n n' : bridge_only n n' -> failures n' = failures n.
Proof.
  intro B. apply (bridge_only_count is_failure_call) in B; [exact B|].
  intros [] H; try reflexivity; discriminate H.
Qed.

Ltac failure_counter := unfold failures, count in *; cbn in *.

Lemma bind_client_failures p n o n' :
  bind_client p n = (o, n') -> failures n' = failures n.
Proof.
  unfold bind_client, createClient, bind at 1, this.
  destruct (is_null (action_client_ n) || _);
    [destruct (string_dec (prev_server_name_ n) (input_server_name p));
     [|destruct (string_dec (input_server_name p) "")]|];
    run; intros [= <- <-]; reflexivity.
Qed.

Lemma start_goal_failures p n o n' :
  start_goal p n = (o, n') ->
  failures n' = failures n \/
  (failures n' = S (failures n) /\ o = Normal FAILURE).
Proof.
  unfold start_goal, call_setGoal, call_onFailure. run.
  destruct (user_goal p) as [g|]; cbn;
    [destruct (action_client_ n)|rewrite onFailure_FAILURE];
    intros [= <- <-]; failure_counter; auto.
Qed.

Lemma conclude_failures p n o n' :
  conclude p n = (o, n') ->
  failures n' = failures n \/
  (failures n' = S (failures n) /\ o = Normal FAILURE).
Proof.
  unfold conclude, bind at 1, this.
  destruct (negb (status_eqb (on_feedback_state_change_ n) RUNNING)).
  - unfold bind at 1, cancelGoal, bind at 1, this.
    destruct (action_client_ n) as [c|];
      [|run; intros [= <- <-]; auto].
    unfold bind at 1, call, assign. unfold bind at 1.
    destruct (spin (cancel_deliveries (cancel p)) _) as [[[]|e] n2] eqn:E2;
      apply spin_frame in E2 as [_ B2]; apply bridge_only_failures in B2;
      run; intros [= <- <-]; failure_counter; auto.
  - unfold call_onFailure, call_onResultReceived.
    destruct (ResultCode_eq_dec (code (result_ n)) UNKNOWN);
      [|destruct (ResultCode_eq_dec (code (result_ n)) ABORTED);
        [|destruct (ResultCode_eq_dec (code (result_ n)) CANCELED)]];
      run; rewrite ?onFailure_FAILURE; intros [= <- <-];
      failure_counter; auto.
Qed.

Lemma await_acceptance_failures p n o n' :
  await_acceptance p n = (o, n') ->
  failures n' = failures n \/
  (failures n' = S (failures n) /\ o = Normal (Some FAILURE)).
Proof.
  unfold await_acceptance, bind at 1, this.
  destruct (goal_received_ n); [run; intros [= <- <-]; auto|].
  destruct (future_goal_handle_ n); [run; intros [= <- <-]; auto|].
  unfold bind at 1.
  destruct (spin (future_deliveries p) n) as [[[]|e] n3] eqn:E3;
    apply spin_frame in E3 as [_ B3]; apply bridge_only_failures in B3.
  2:{ intros [= <- <-]. auto. }
  unfold call_onFailure.
  destruct (future_complete p) as [[h|]|]; run.
  - intros [= <- <-]. failure_counter. auto.
  - intros [= <- <-]. failure_counter. auto.
  - case_timeout.
    + rewrite onFailure_FAILURE. cbn. intros [= <- <-]. failure_counter.
      right. split; congruence.
    + intros [= <- <-]. auto.
Qed.

Lemma poll_goal_failures p n o n' :
  poll_goal p n = (o, n') ->
  failures n' = failures n \/
  (failures n' = S (failures n) /\ o = Normal FAILURE).
Proof.
  unfold poll_goal, bind at 1.
  destruct (spin (spin_some_deliveries p) n) as [[[]|x] n2] eqn:E2;
    apply spin_frame in E2 as [_ B2]; apply bridge_only_failures in B2.
  2:{ intros [= <- <-]. auto. }
  unfold bind at 1.
  destruct (await_acceptance p n2) as [[[s|]|x] n3] eqn:E3;
    apply await_acceptance_failures in E3 as [E3|[E3 O3]];
    try discriminate O3.
  - run. intros [= <- <-]. left. congruence.
  - run. intros [= <- <-]. injection O3 as ->. right. split; congruence.
  - intro E. apply conclude_failures in E as [E|[E O]];
      [left|right; split]; congruence.
  - intros [= <- <-]. left. congruence.
Qed.

(** X17. With the [onFailure] the header supplies, which returns FAILURE
    for every kind, a poll calls [onFailure] at most once, and when it does
    it answers FAILURE: no failure path throws, and none answers anything
    else. *)
Theorem default_onFailure_answers_FAILURE p n o n' :
  tick p n = (o, n') ->
  failures n' = failures n \/
  (failures n' = S (failures n) /\ o = Normal FAILURE).
Proof.
  unfold tick, bind at 1.
  destruct (bind_client p n) as [[[]|x] n1] eqn:E1;
    apply bind_client_failures in E1.
  2:{ intros [= <- <-]. auto. }
  unfold bind, this.
  destruct (status_eqb (status n1) IDLE).
  { intro E. apply start_goal_failures in E as [E|[E O]];
      [left|right; split]; congruence. }
  destruct (status_eqb (status n1) RUNNING).
  2:{ run. intros [= <- <-]. auto. }
  intro E. apply poll_goal_failures in E as [E|[E O]];
    [left|right; split]; congruence.
Qed.

End DefaultOnFailure.

(** ** From the first poll to the timeout *)

Lemma tick_IDLE_time p n n' :
  status n = IDLE -> tick p n = (Normal RUNNING, n') ->
  time_goal_sent_ n' = now p.
Proof.
  intros St. rewrite (tick_IDLE p n St).
  destruct (bind_client p n) as [[[]|e] n1]; [|discriminate].
  unfold start_goal, call_setGoal, call_onFailure. run.
  destruct (user_goal p) as [g|]; cbn.
  - destruct (action_client_ n1); intros [= <-]; reflexivity.
  - destruct (CheckStatus_cases (onFailure INVALID_GOAL)) as [[K R]|[x K]];
      rewrite K; intros [= E]. rewrite E in R. discriminate R.
Qed.

(** Polls that find the goal future incomplete and answer RUNNING leave
    the goal, its future and the time it was sent as they are. *)
Lemma pending_unaccepted polls : forall n c nk,
  status n = RUNNING -> action_client_ n = Some c -> goal_received_ n = false ->
  unaccepted polls = true ->
  pending polls n = Some nk ->
  same_goal n nk /\ bridge_only n nk.
Proof.
  induction polls as [|q polls IH]; intros n c nk St Cl Gr U; cbn [pending].
  - intros [= <-]. split; [apply same_goal_refl|apply bridge_only_refl].
  - cbn in U. apply andb_true_iff in U as [Uq U].
    destruct (future_complete q) eqn:Fc; [discriminate Uq|].
    destruct (tick q n) as [[s|e] n1] eqn:E; [|discriminate].
    destruct s; try discriminate.
    destruct (tick_unaccepted_RUNNING q n c RUNNING n1 St Cl Gr Fc E eq_refl)
      as [F B].
    pose proof F as (St1 & _ & _ & _ & Cl1 & _ & _ & _ & Gr1).
    intro H. apply (IH _ c) in H; cbn; trivial; try congruence.
    destruct H as [F' B']. split.
    + apply (same_goal_trans _ n1); [exact F|].
      revert F'. unfold same_goal. cbn. rewrite St1, St. tauto.
    + apply (bridge_only_trans _ n1); [exact B|exact B'].
Qed.

(** X18. The acceptance timeout runs from the clock reading of the poll
    that sent the goal. The polls that follow and find the goal future
    incomplete, however many, leave [time_goal_sent_] at that reading and
    [server_timeout_] as it was; so a poll that still finds the future
    incomplete answers what [onFailure(SEND_GOAL_TIMEOUT)] returns exactly
    when its own reading is more than the timeout after the reading of the
    sending poll, and RUNNING otherwise, whatever the reading of the poll
    before it. *)
Theorem timeout_runs_from_the_first_poll p1 polls p n n1 nk :
  status n = IDLE ->
  tick p1 n = (Normal RUNNING, n1) ->
  unaccepted polls = true ->
  pending polls (set_status RUNNING n1) = Some nk ->
  feedback_not_IDLE (spin_some_deliveries p) = true ->
  feedback_not_IDLE (future_deliveries p) = true ->
  future_complete p = None ->
  time_goal_sent_ nk = now p1 /\
  server_timeout_ nk = server_timeout_ n /\
  fst (tick p nk) =
    if now p - now p1 >?
       from_seconds (double_div (double_of_int (server_timeout_ n))
                                (double_of_int 1000))
    then CheckStatus (onFailure SEND_GOAL_TIMEOUT)
    else Normal RUNNING.
Proof.
  intros St E U Pk F1 F2 Fc.
  pose proof (tick_IDLE_time p1 n n1 St E) as Ts.
  pose proof (tick_config _ _ _ _ E) as (_ & T & _).
  destruct (tick_IDLE_RUNNING p1 n RUNNING n1 St E eq_refl)
    as (St1 & Gr1 & _ & [c Cl1] & [g Fu1] & _).
  destruct (pending_unaccepted polls (set_status RUNNING n1) c nk) as [F _];
    trivial.
  unfold same_goal in F. cbn in F.
  destruct F as (Stk & _ & _ & Tk & Clk & Fuk & _ & Tsk & Grk).
  split; [congruence|]. split; [congruence|].
  destruct (spin_normal (spin_some_deliveries p) nk F1) as [m1 [E1 _]].
  destruct (spin_normal (future_deliveries p) m1 F2) as [m2 [E2 _]].
  rewrite (tick_awaiting p nk c g m1 m2); trivial; try congruence.
  rewrite Fc, Tsk, Ts, Tk, T.
  case_timeout; reflexivity.
Qed.

End Action.









Arguments status {Goal Feedback Result} _.
Arguments trace {Goal Feedback Result} _.
Arguments goal_received_ {Goal Feedback Result} _.
Arguments goal_handle_ {Goal Feedback Result} _.
Arguments action_client_ {Goal Feedback Result} _.
Arguments prev_server_name_ {Goal Feedback Result} _.
Arguments on_feedback_state_change_ {Goal Feedback Result} _.
Arguments dispatches {Goal Feedback Result} _.
Arguments cancellations {Goal Feedback Result} _.
Arguments submissions {Goal Feedback Result} _.
Arguments bindings {Goal Feedback Result} _.
Arguments reports {Goal Feedback Result} _ _.
Arguments goal_response {Feedback Result} _.
Arguments feedback {Feedback Result} _.
Arguments wrapped_result {Feedback Result} _.
Arguments create_client {Goal Feedback Result} _.
Arguments wait_for_action_server {Goal Feedback Result} _ _.
Arguments setGoal_called {Goal Feedback Result} _.
Arguments onFailure_called {Goal Feedback Result} _.
Arguments onResultReceived_called {Goal Feedback Result} _.
Arguments onFeeback_called {Goal Feedback Result} _.
Arguments emitWakeUpSignal {Goal Feedback Result}.
Arguments async_send_goal {Goal Feedback Result} _ _.
Arguments async_cancel_goal {Goal Feedback Result} _ _.
Arguments cancel_wait {Goal Feedback Result} _.

(** * A node for the Fibonacci action, and some of its runs

    The goal is the order of the sequence, a feedback the part computed so
    far, the result the whole sequence. The node gives up when the part
    grows beyond three numbers, accepts any result that carries a
    sequence, and keeps the default [onFailure]. *)

Definition Sequence : Type := list nat.
Definition FibNode : Type := RosActionNode nat Sequence Sequence.
Definition FibPoll : Type := Poll nat Sequence Sequence.

Definition fib_onResultReceived (r : WrappedResult Sequence) : NodeStatus :=
  match result Sequence r with
  | Some _ => SUCCESS
  | None => FAILURE
  end.

Definition fib_onFeeback (part : Sequence) : NodeStatus :=
  if (3 <? length part)%nat then FAILURE else RUNNING.

(** The default [onFailure] of the header. *)
Definition default_onFailure (_ : ActionNodeErrorCode) : NodeStatus := FAILURE.

(** A derived class whose feedback callback returns SKIPPED. *)
Definition skipping_onFeeback (_ : Sequence) : NodeStatus := SKIPPED.

(** The test of a blackboard pointer for the sample node, as
    behaviortree_cpp's [isBlackboardPointer] makes it on a name that has no
    spaces around it and does not start with a dollar sign: at least three
    characters, the first an opening and the last a closing brace. *)
Definition in_braces (s : string) : bool :=
  (3 <=? String.length s)%nat
  && String.prefix "{" s
  && match String.get (String.length s - 1) s with
     | Some c => Ascii.eqb c "}"%char
     | None => false
     end.

Example in_braces_cases :
  in_braces "{server}" = true /\ in_braces "{server" = false /\
  in_braces "{}" = false /\ in_braces "__default__placeholder__" = false.
Proof. repeat split. Qed.

Definition fib_tick : FibPoll -> M nat Sequence Sequence NodeStatus :=
  tick nat Sequence Sequence fib_onResultReceived fib_onFeeback
       default_onFailure.

Definition fib_activation :
    list FibPoll -> CancelWait Sequence Sequence -> FibNode -> Ending * FibNode :=
  activation nat Sequence Sequence fib_onResultReceived fib_onFeeback
             default_onFailure.

(** The node as the factory builds it, with port [server_name] pointing to
    the blackboard and a timeout of one second. *)
Definition fib_node : FibNode :=
  snd (construct nat Sequence Sequence in_braces
         {| server_name_declared := true; server_name_port := Some "{server}" |}
         {| default_server_name := ""; server_timeout := 1000 |}
         false true
         (members nat Sequence Sequence
            {| default_server_name := ""; server_timeout := 1000 |}
            {| some_status := SUCCESS; some_flag := true;
               some_result := {| code := ABORTED; result := None |} |})).

Definition prompt_ack : CancelWait Sequence Sequence :=
  {| cancel_deliveries := []; acknowledged := true |}.

(** The first poll of an activation, at time [t]. *)
Definition first_poll (found : bool) (g : option nat) (t : Z) : FibPoll :=
  {| input_server_name := "fibonacci";
     server_found := found;
     user_goal := g;
     now := t;
     spin_some_deliveries := [];
     future_deliveries := [];
     future_complete := None;
     cancel := prompt_ack |}.

(** A later poll, at time [t], with the callbacks [xs] run by [spin_some]
    and the goal future in state [f]. *)
Definition later_poll (t : Z) (xs : list (Notification Sequence Sequence))
    (f : option (option GoalHandle)) : FibPoll :=
  {| input_server_name := "fibonacci";
     server_found := true;
     user_goal := None;
     now := t;
     spin_some_deliveries := xs;
     future_deliveries := [];
     future_complete := f;
     cancel := prompt_ack |}.

Definition succeeded (l : Sequence) : WrappedResult Sequence :=
  {| code := SUCCEEDED; result := Some l |}.

(** The node once the goal of order 10 is sent, at second 5. *)
Definition fib_sent : FibNode :=
  snd (fib_tick (first_poll true (Some 10%nat) 5000000000) fib_node).

(** The node once that goal is accepted, 50 ms later, with handle 7. *)
Definition fib_active : FibNode :=
  snd (fib_tick (later_poll 5050000000 [goal_response (Some 7%nat)]
                   (Some (Some 7%nat))) fib_sent).

Example fib_node_members :
  status fib_node = IDLE /\ action_client_ fib_node = None /\
  server_name_may_change_ _ _ _ fib_node = true.
Proof. repeat split. Qed.

Example fib_sent_members :
  status fib_sent = RUNNING /\ goal_received_ fib_sent = false /\
  action_client_ fib_sent = Some (client_of "fibonacci") /\
  trace fib_sent =
    [async_send_goal (client_of "fibonacci") 10%nat; setGoal_called true;
     wait_for_action_server 1000 true; create_client "fibonacci"].
Proof. repeat split. Qed.

Example fib_active_members :
  status fib_active = RUNNING /\ goal_received_ fib_active = true /\
  goal_handle_ fib_active = Some 7%nat.
Proof. repeat split. Qed.

(** The scenario of the specification: accepted within 50 ms, two
    feedbacks that return RUNNING, then the result. *)
Example fib_scenario :
  let polls :=
    [first_poll true (Some 10%nat) 5000000000;
     later_poll 5050000000 [goal_response (Some 7%nat)] (Some (Some 7%nat));
     later_poll 5100000000 [feedback [0; 1]; feedback [0; 1; 1]]%nat None;
     later_poll 5150000000 [wrapped_result (succeeded [0; 1; 1; 2; 3]%nat)] None] in
  fst (fib_activation polls prompt_ack fib_node) = Completed SUCCESS /\
  dispatches (snd (fib_activation polls prompt_ack fib_node)) = 1%nat.
Proof. vm_compute. split; reflexivity. Qed.

(** ** Runs for C1 and C2 *)

(** The server of the new name does not answer the probe, and the goal of
    order 10 is sent all the same. *)
Lemma unreachable_server_goal_still_sent_witness :
  exists n',
    fib_tick (first_poll false (Some 10%nat) 5000000000) fib_node
      = (Normal RUNNING, n') /\
    trace n' =
      [async_send_goal (client_of "fibonacci") 10%nat; setGoal_called true;
       wait_for_action_server 1000 false; create_client "fibonacci"] /\
    submissions n' = 1%nat /\
    dispatches n' = 0%nat /\
    reports SERVER_UNREACHABLE n' = 0%nat.
Proof.
  apply (unreachable_server_goal_still_sent nat Sequence Sequence
           fib_onResultReceived fib_onFeeback default_onFailure
           (first_poll false (Some 10%nat) 5000000000) fib_node 10%nat);
    [reflexivity|reflexivity|discriminate|discriminate|reflexivity|reflexivity].
Defined.

(** The activation of the scenario invokes [onResultReceived] once. *)
Lemma activation_dispatches_at_most_once_witness :
  let polls :=
    [first_poll true (Some 10%nat) 5000000000;
     later_poll 5050000000 [goal_response (Some 7%nat)] (Some (Some 7%nat));
     later_poll 5150000000 [wrapped_result (succeeded [0; 1; 1; 2; 3]%nat)] None] in
  let run := fib_activation polls prompt_ack fib_node in
  (dispatches (snd run) <= S (dispatches fib_node))%nat /\
  (forall s, fst run = Completed s ->
     dispatches (snd run) = S (dispatches fib_node) \/
     (dispatches (snd run) = dispatches fib_node /\
      (cancellations fib_node < cancellations (snd run))%nat)) /\
  (fst run = Halted -> dispatches (snd run) = dispatches fib_node).
Proof.
  intros polls run.
  apply (activation_dispatches_at_most_once nat Sequence Sequence
           fib_onResultReceived fib_onFeeback default_onFailure
           polls prompt_ack fib_node (fst run) (snd run));
    [reflexivity|vm_compute; reflexivity].
Defined.

(** An activation that a feedback callback ends: the part of four numbers
    makes [fib_onFeeback] return FAILURE, the poll answers FAILURE, and
    neither [onResultReceived] nor [onFailure] was invoked. *)
Lemma feedback_abort_invokes_neither_callback :
  let polls :=
    [first_poll true (Some 10%nat) 5000000000;
     later_poll 5050000000 [goal_response (Some 7%nat)] (Some (Some 7%nat));
     later_poll 5100000000 [feedback [0; 1; 1; 2]%nat] None] in
  let run := fib_activation polls prompt_ack fib_node in
  fst run = Completed FAILURE /\
  dispatches (snd run) = 0%nat /\
  status (snd run) = IDLE.
Proof. vm_compute. repeat split. Qed.

(** ** Runs for C3, C6 and C7 *)


(** That poll answers FAILURE and leaves the delivered result unused. *)
Example feedback_abort_run :
  fst (fib_tick (later_poll 5100000000
                   [feedback [0; 1; 1; 2]%nat;
                    wrapped_result (succeeded [0; 1; 1; 2; 3]%nat)] None)
                fib_active) = Normal FAILURE.
Proof. vm_compute. reflexivity. Qed.


Lemma result_dispatched_by_code_witness :
  exists n' l,
    forallb (of_bridge nat Sequence Sequence) l = true /\
    fib_tick (later_poll 5150000000
                [feedback [0; 1]%nat;
                 wrapped_result (succeeded [0; 1; 1; 2; 3]%nat)] None)
             fib_active
      = (Normal SUCCESS, n') /\
    trace n' =
      onResultReceived_called (succeeded [0; 1; 1; 2; 3]%nat)
      :: l ++ trace fib_active.
Proof.
  apply (result_dispatched_by_code nat Sequence Sequence
           fib_onResultReceived fib_onFeeback default_onFailure
           (later_poll 5150000000
              [feedback [0; 1]%nat;
               wrapped_result (succeeded [0; 1; 1; 2; 3]%nat)] None)
           fib_active (client_of "fibonacci"));
    reflexivity.
Defined.

(** With the feedback callback that returns SKIPPED, the poll answers
    SKIPPED. *)
Lemma SKIPPED_feedback_is_answered_witness :
  (exists n',
     tick nat Sequence Sequence fib_onResultReceived skipping_onFeeback
          default_onFailure
          (later_poll 5100000000 [feedback [0; 1]%nat] None) fib_active
       = (Normal SKIPPED, n') /\
     cancellations n' = S (cancellations fib_active)) /\
  (exists e, CheckStatus SKIPPED = Thrown e).
Proof.
  apply (SKIPPED_feedback_is_answered nat Sequence Sequence
           fib_onResultReceived skipping_onFeeback default_onFailure
           (later_poll 5100000000 [feedback [0; 1]%nat] None)
           fib_active (client_of "fibonacci") [0; 1]%nat);
    reflexivity.
Defined.

(** ** Runs for C4, C5 and C8 *)

(** A node with a timeout of 1001 ms, and that node once the goal of order
    10 is sent, at second 5. *)
Definition fib_node_1001 : FibNode :=
  snd (construct nat Sequence Sequence in_braces
         {| server_name_declared := true; server_name_port := Some "{server}" |}
         {| default_server_name := ""; server_timeout := 1001 |}
         false true
         (members nat Sequence Sequence
            {| default_server_name := ""; server_timeout := 1001 |}
            {| some_status := SUCCESS; some_flag := true;
               some_result := {| code := ABORTED; result := None |} |})).

Definition fib_sent_1001 : FibNode :=
  snd (fib_tick (first_poll true (Some 10%nat) 5000000000) fib_node_1001).

(** With the timeout of one second, which the conversion keeps as it is,
    the node still waits one second after the goal was sent. *)
Lemma acceptance_timeout_witness :
  exists n1,
    bridge_only nat Sequence Sequence fib_sent n1 /\
    fib_tick (later_poll 6000000000 [] None) fib_sent = (Normal RUNNING, n1) /\
    (1000 * 1000000 - 1
     <= from_seconds (double_div (double_of_int 1000) (double_of_int 1000))
     <= 1000 * 1000000).
Proof.
  destruct (acceptance_timeout nat Sequence Sequence
              fib_onResultReceived fib_onFeeback default_onFailure
              (later_poll 6000000000 [] None) fib_sent
              (client_of "fibonacci") 10%nat)
    as [n1 (B & _ & _ & R)];
    [reflexivity|reflexivity|reflexivity|reflexivity|reflexivity|reflexivity
    |reflexivity|].
  assert (Range : 0 <= server_timeout_ nat Sequence Sequence fib_sent < 2 ^ 31)
    by (vm_compute; split; [discriminate|reflexivity]).
  destruct (R Range) as (T & _ & _ & X).
  exists n1. split; [exact B|]. split; [|exact T].
  exact (X eq_refl).
Defined.

(** One nanosecond later the timeout is reported. *)
Example timeout_boundary :
  fst (fib_tick (later_poll 6000000000 [] None) fib_sent) = Normal RUNNING /\
  fst (fib_tick (later_poll 6000000001 [] None) fib_sent) = Normal FAILURE.
Proof. vm_compute. split; reflexivity. Qed.

(** With a timeout of 1001 ms the code computes 1000999999 ns, and the
    poll 1001 ms after the goal was sent, to the nanosecond, reports the
    timeout. *)
Lemma timeout_reported_at_1001_ms :
  let n := fib_sent_1001 in
  let p := later_poll 6001000000 [] None in
  server_timeout_ nat Sequence Sequence n = 1001 /\
  goal_received_ n = false /\
  now nat Sequence Sequence p - time_goal_sent_ nat Sequence Sequence n
    = 1001 * 1000000 /\
  from_seconds (double_div (double_of_int 1001) (double_of_int 1000))
    = 1000999999 /\
  fst (fib_tick p n) = Normal FAILURE /\
  reports SEND_GOAL_TIMEOUT (snd (fib_tick p n)) = 1%nat.
Proof. vm_compute. repeat split. Qed.

Lemma declined_goal_fails_at_once_witness :
  exists n',
    fib_tick (first_poll true None 5000000000) fib_node =
      (CheckStatus (default_onFailure INVALID_GOAL), n') /\
    (exists l, trace n' =
       onFailure_called INVALID_GOAL :: setGoal_called false
       :: l ++ trace fib_node) /\
    submissions n' = submissions fib_node /\
    forall polls w,
      fst (fib_activation (first_poll true None 5000000000 :: polls) w fib_node) =
        match CheckStatus (default_onFailure INVALID_GOAL) with
        | Normal s => Completed s
        | Thrown e => Aborted e
        end /\
      submissions
        (snd (fib_activation (first_poll true None 5000000000 :: polls) w fib_node))
        = submissions fib_node.
Proof.
  apply (declined_goal_fails_at_once nat Sequence Sequence
           fib_onResultReceived fib_onFeeback default_onFailure
           (first_poll true None 5000000000) fib_node);
    [reflexivity|reflexivity|intros _; discriminate].
Defined.

Lemma rejected_goal_is_fatal_witness :
  (exists n',
     fib_tick (later_poll 5050000000 [goal_response None] (Some None)) fib_sent =
       (Thrown (runtime_error "Goal was rejected by the action server"), n') /\
     dispatches n' = dispatches fib_sent /\
     reports GOAL_REJECTED_BY_SERVER n' = reports GOAL_REJECTED_BY_SERVER fib_sent) /\
  (exists n1 o n',
     goal_received_ n1 = true /\ goal_handle_ n1 = Some 7%nat /\
     fib_tick (later_poll 5050000000 [goal_response (Some 7%nat)]
                 (Some (Some 7%nat))) fib_sent =
       conclude nat Sequence Sequence fib_onResultReceived fib_onFeeback
         default_onFailure
         (later_poll 5050000000 [goal_response (Some 7%nat)] (Some (Some 7%nat)))
         n1 /\
     conclude nat Sequence Sequence fib_onResultReceived fib_onFeeback
       default_onFailure
       (later_poll 5050000000 [goal_response (Some 7%nat)] (Some (Some 7%nat)))
       n1 = (o, n') /\
     status n' = RUNNING /\ goal_received_ n' = true /\
     goal_handle_ n' = Some 7%nat).
Proof.
  split.
  - apply (proj1 (rejected_goal_is_fatal nat Sequence Sequence
             fib_onResultReceived fib_onFeeback default_onFailure
             (later_poll 5050000000 [goal_response None] (Some None)) fib_sent
             (client_of "fibonacci") 10%nat
             eq_refl eq_refl eq_refl eq_refl eq_refl eq_refl)).
    reflexivity.
  - apply (proj2 (rejected_goal_is_fatal nat Sequence Sequence
             fib_onResultReceived fib_onFeeback default_onFailure
             (later_poll 5050000000 [goal_response (Some 7%nat)]
                (Some (Some 7%nat))) fib_sent
             (client_of "fibonacci") 10%nat
             eq_refl eq_refl eq_refl eq_refl eq_refl eq_refl) 7%nat).
    reflexivity.
Defined.

(** ** Runs for C9 and C10 *)

(** The node after the activation of the scenario: IDLE again, bound to
    "fibonacci", still holding the handle 7 of the goal that ended. *)
Definition fib_done : FibNode :=
  snd (fib_activation
         [first_poll true (Some 10%nat) 5000000000;
          later_poll 5050000000 [goal_response (Some 7%nat)] (Some (Some 7%nat));
          later_poll 5150000000
            [wrapped_result (succeeded [0; 1; 1; 2; 3]%nat)] None]
         prompt_ack fib_node).

Example fib_done_members :
  status fib_done = IDLE /\ prev_server_name_ fib_done = "fibonacci" /\
  goal_handle_ fib_done = Some 7%nat.
Proof. vm_compute. repeat split. Qed.

(** The blackboard now names another server. *)
Definition other_server (p : FibPoll) : FibPoll :=
  with_server nat Sequence Sequence "fibonacci_2" true p.

Lemma rebinding_only_in_IDLE_witness :
  (exists o n' l,
     fib_tick (other_server (first_poll true (Some 10%nat) 7000000000)) fib_done
       = (o, n') /\
     action_client_ n' = Some (client_of "fibonacci_2") /\
     prev_server_name_ n' = "fibonacci_2" /\
     trace n' =
       l ++ wait_for_action_server 1000 true :: create_client "fibonacci_2"
         :: trace fib_done) /\
  (fib_tick (other_server (later_poll 5100000000 [] None)) fib_active
     = fib_tick (later_poll 5100000000 [] None) fib_active /\
   action_client_ (snd (fib_tick (later_poll 5100000000 [] None) fib_active))
     = Some (client_of "fibonacci") /\
   prev_server_name_ (snd (fib_tick (later_poll 5100000000 [] None) fib_active))
     = prev_server_name_ fib_active /\
   bindings (snd (fib_tick (later_poll 5100000000 [] None) fib_active))
     = bindings fib_active).
Proof.
  split.
  - apply (proj1 (rebinding_only_in_IDLE nat Sequence Sequence
             fib_onResultReceived fib_onFeeback default_onFailure
             (other_server (first_poll true (Some 10%nat) 7000000000)) fib_done));
      [vm_compute; reflexivity|vm_compute; reflexivity
      |vm_compute; discriminate|vm_compute; discriminate].
  - apply (proj1 (proj2 (rebinding_only_in_IDLE nat Sequence Sequence
             fib_onResultReceived fib_onFeeback default_onFailure
             (later_poll 5100000000 [] None) fib_active))
             (client_of "fibonacci") eq_refl eq_refl "fibonacci_2" true).
Defined.

(** Halted while the first goal waits for its acceptance: the handle
    passed is the null one the node was built with. *)
Lemma halt_before_acceptance_passes_earlier_handle_witness :
  exists c,
    In (async_cancel_goal c None)
       (trace (snd (fib_activation
                      [first_poll true (Some 10%nat) 5000000000;
                       later_poll 5020000000 [] None]
                      prompt_ack fib_node))) /\
    cancellations (snd (fib_activation
                          [first_poll true (Some 10%nat) 5000000000;
                           later_poll 5020000000 [] None]
                          prompt_ack fib_node))
      = S (cancellations fib_node).
Proof.
  apply (halt_before_acceptance_passes_earlier_handle nat Sequence Sequence
           fib_onResultReceived fib_onFeeback default_onFailure
           (first_poll true (Some 10%nat) 5000000000)
           [later_poll 5020000000 [] None] prompt_ack fib_node
           (snd (fib_activation
                   [first_poll true (Some 10%nat) 5000000000;
                    later_poll 5020000000 [] None]
                   prompt_ack fib_node)));
    [reflexivity|reflexivity|vm_compute; reflexivity].
Defined.

(** Halted while the second goal waits for its acceptance:
    [goal_received_] is false, and the handle passed is 7, the one of the
    first goal, not a null one. *)
Lemma halt_of_second_goal_passes_first_handle :
  let n := snd (fib_tick (first_poll true (Some 12%nat) 7000000000) fib_done) in
  let halted :=
    halt nat Sequence Sequence fib_onFeeback prompt_ack n in
  status n = RUNNING /\
  goal_received_ n = false /\
  fst (halted) = Normal tt /\
  trace (snd halted) =
    cancel_wait true
    :: async_cancel_goal (client_of "fibonacci") (Some 7%nat)
    :: trace n /\
  ~ In (async_cancel_goal (client_of "fibonacci") None) (trace (snd halted)).
Proof.
  vm_compute. repeat split.
  intros H. repeat (destruct H as [H|H]; [discriminate H|]). exact H.
Qed.

(** * Runs for the further properties *)

(** The ports a derived class adds: the order of the sequence, and
    [server_name] declared again as an output. *)
Definition fib_addition : PortsList :=
  [("server_name",
    {| port_direction := OUTPUT; port_default := None;
       port_description := "mine" |});
   ("order",
    {| port_direction := INPUT; port_default := Some "10";
       port_description := "Order of the sequence" |})].

Lemma providedBasicPorts_keeps_server_name_witness :
  find_port "server_name" (providedBasicPorts fib_addition) =
    Some {| port_direction := INPUT;
            port_default := Some "__default__placeholder__";
            port_description := "Action server name" |} /\
  find_port "order" (providedBasicPorts fib_addition) =
    find_port "order" fib_addition.
Proof.
  split.
  - apply (proj1 (providedBasicPorts_keeps_server_name fib_addition)).
  - apply (proj2 (providedBasicPorts_keeps_server_name fib_addition) "order").
    discriminate.
Defined.

Definition fib_params : ActionNodeParams :=
  {| default_server_name := "fibonacci"; server_timeout := 1000 |}.

Definition fib_memory : Indeterminate Sequence :=
  {| some_status := SUCCESS; some_flag := true;
     some_result := {| code := ABORTED; result := None |} |}.

(** The node built with the port left at its placeholder: the default name
    is used, and the name cannot change. *)
Definition fixed_node : FibNode :=
  snd (construct nat Sequence Sequence in_braces
         {| server_name_declared := true;
            server_name_port := Some "__default__placeholder__" |}
         fib_params false true (members nat Sequence Sequence fib_params fib_memory)).

Lemma construct_outcome_witness :
  (Normal tt = Normal tt /\ status fixed_node = IDLE /\
   (server_name_may_change_ nat Sequence Sequence fixed_node = true <->
    action_client_ fixed_node = None) /\
   bound nat Sequence Sequence fixed_node) \/
  (exists what, Normal tt = Thrown (logic_error what) /\
     fixed_node = members nat Sequence Sequence fib_params fib_memory).
Proof.
  apply (construct_outcome nat Sequence Sequence in_braces
           {| server_name_declared := true;
              server_name_port := Some "__default__placeholder__" |}
           fib_params false true fib_memory (Normal tt) fixed_node).
  reflexivity.
Defined.

Lemma tick_empty_server_name_witness :
  fib_tick (with_server nat Sequence Sequence "" true
              (first_poll true (Some 10%nat) 7000000000)) fib_done
    = (Thrown (RuntimeError "server_name is empty"), fib_done).
Proof.
  apply (tick_empty_server_name nat Sequence Sequence
           fib_onResultReceived fib_onFeeback default_onFailure
           (with_server nat Sequence Sequence "" true
              (first_poll true (Some 10%nat) 7000000000)) fib_done);
    vm_compute; reflexivity.
Defined.

Definition fib_halt : CancelWait Sequence Sequence -> M nat Sequence Sequence unit :=
  halt nat Sequence Sequence fib_onFeeback.

(** The node with the fixed name is polled while the blackboard says
    "fibonacci_2": it sends its goal to "fibonacci". *)
Lemma fixed_binding_is_kept_witness :
  let p := other_server (first_poll true (Some 10%nat) 5000000000) in
  let run := fib_tick p fixed_node in
  action_client_ (snd run) = Some (client_of "fibonacci") /\
  server_name_may_change_ nat Sequence Sequence (snd run) = false /\
  prev_server_name_ (snd run) = prev_server_name_ fixed_node /\
  bindings (snd run) = bindings fixed_node /\
  forall name found,
    fib_tick (with_server nat Sequence Sequence name found p) fixed_node
      = (fst run, snd run).
Proof.
  intros p run.
  apply (fixed_binding_is_kept nat Sequence Sequence
           fib_onResultReceived fib_onFeeback default_onFailure
           p fixed_node (client_of "fibonacci") (fst run) (snd run));
    [reflexivity|reflexivity|vm_compute; reflexivity].
Defined.

Lemma binding_is_consistent_witness :
  (forall p o n', fib_tick p fib_sent = (o, n') -> bound nat Sequence Sequence n') /\
  (forall w o n', fib_halt w fib_sent = (o, n') -> bound nat Sequence Sequence n').
Proof.
  apply (binding_is_consistent nat Sequence Sequence
           fib_onResultReceived fib_onFeeback default_onFailure fib_sent).
  intros name H. vm_compute in H. injection H as <-.
  split; [reflexivity|discriminate].
Defined.

(** A goal that is not accepted in time is sent once. *)
Lemma one_goal_per_activation_witness :
  let p := first_poll true (Some 10%nat) 5000000000 in
  let polls := [later_poll 5500000000 [] None; later_poll 6000000001 [] None] in
  let run := fib_activation (p :: polls) prompt_ack fib_node in
  (submissions (snd run) <= S (submissions fib_node))%nat /\
  submissions (snd run) = submissions (snd (fib_tick p fib_node)).
Proof.
  intros p polls run.
  apply (one_goal_per_activation nat Sequence Sequence
           fib_onResultReceived fib_onFeeback default_onFailure
           p polls prompt_ack fib_node (fst run) (snd run));
    [reflexivity|vm_compute; reflexivity].
Defined.

Lemma timeout_does_not_cancel_witness :
  let run := fib_tick (later_poll 6000000001 [] None) fib_sent in
  fst run = CheckStatus (default_onFailure SEND_GOAL_TIMEOUT) /\
  cancellations (snd run) = cancellations fib_sent /\
  submissions (snd run) = submissions fib_sent /\
  future_goal_handle_ nat Sequence Sequence (snd run) = future_of nat 10%nat /\
  goal_received_ (snd run) = false /\
  status (snd run) = RUNNING /\
  time_goal_sent_ nat Sequence Sequence (snd run)
    = time_goal_sent_ nat Sequence Sequence fib_sent.
Proof.
  intro run.
  apply (timeout_does_not_cancel nat Sequence Sequence
           fib_onResultReceived fib_onFeeback default_onFailure
           (later_poll 6000000001 [] None) fib_sent (client_of "fibonacci")
           10%nat (fst run) (snd run));
    [reflexivity|reflexivity|reflexivity|reflexivity|reflexivity|reflexivity
    |reflexivity|reflexivity|vm_compute; reflexivity].
Defined.

(** A derived class whose feedback callback returns IDLE. *)
Definition idle_onFeeback (_ : Sequence) : NodeStatus := IDLE.

Lemma IDLE_feedback_throws_witness :
  exists n' l,
    tick nat Sequence Sequence fib_onResultReceived idle_onFeeback
         default_onFailure
         (later_poll 5100000000
            [feedback [0; 1]%nat;
             wrapped_result (succeeded [0; 1; 1; 2; 3]%nat)] None)
         fib_active
      = (Thrown (logic_error "onFeeback must not retunr IDLE"), n') /\
    on_feedback_state_change_ n' = IDLE /\
    trace n' = onFeeback_called [0; 1]%nat :: l ++ trace fib_active /\
    forallb (of_bridge nat Sequence Sequence) l = true /\
    same_goal nat Sequence Sequence fib_active n'.
Proof.
  apply (IDLE_feedback_throws nat Sequence Sequence
           fib_onResultReceived idle_onFeeback default_onFailure
           (later_poll 5100000000
              [feedback [0; 1]%nat;
               wrapped_result (succeeded [0; 1; 1; 2; 3]%nat)] None)
           fib_active (client_of "fibonacci") [] [0; 1]%nat
           [wrapped_result (succeeded [0; 1; 1; 2; 3]%nat)]);
    reflexivity.
Defined.

(** The feedback that makes [fib_onFeeback] give up is followed, in the
    same spin, by one that does not: no cancellation, RUNNING. *)
Lemma last_feedback_decides_witness :
  let p := later_poll 5100000000
             [feedback [0; 1; 1; 2]%nat; feedback [0; 1]%nat] None in
  let run := fib_tick p fib_active in
  let r := latest_result Sequence Sequence
             (spin_some_deliveries nat Sequence Sequence p)
             (result_ nat Sequence Sequence fib_active) in
  cancellations (snd run) = cancellations fib_active /\
  (code Sequence r = UNKNOWN ->
   fst run = Normal RUNNING /\ dispatches (snd run) = dispatches fib_active) /\
  (code Sequence r <> UNKNOWN ->
   dispatches (snd run) = S (dispatches fib_active)).
Proof.
  intros p run.
  apply (last_feedback_decides nat Sequence Sequence
           fib_onResultReceived fib_onFeeback default_onFailure
           p fib_active (client_of "fibonacci")
           [feedback [0; 1; 1; 2]%nat] [0; 1]%nat [] (fst run) (snd run));
    [reflexivity|reflexivity|reflexivity|reflexivity|reflexivity|reflexivity
    |reflexivity|vm_compute; reflexivity].
Defined.

(** While [cancelGoal] waits, a feedback arrives for which
    [fib_onFeeback] returns RUNNING: the poll answers RUNNING. *)
Definition busy_wait : CancelWait Sequence Sequence :=
  {| cancel_deliveries := [feedback [0; 1]%nat]; acknowledged := true |}.

Definition cancelling_poll : FibPoll :=
  {| input_server_name := "fibonacci";
     server_found := true;
     user_goal := None;
     now := 5100000000;
     spin_some_deliveries := [feedback [0; 1; 1; 2]%nat];
     future_deliveries := [];
     future_complete := None;
     cancel := busy_wait |}.

Lemma feedback_during_cancel_wait_witness :
  exists n',
    fib_tick cancelling_poll fib_active = (Normal RUNNING, n') /\
    cancellations n' = S (cancellations fib_active) /\
    dispatches n' = dispatches fib_active.
Proof.
  apply (feedback_during_cancel_wait nat Sequence Sequence
           fib_onResultReceived fib_onFeeback default_onFailure
           cancelling_poll fib_active (client_of "fibonacci")
           [] [0; 1; 1; 2]%nat [] [] [0; 1]%nat []);
    [reflexivity|reflexivity|reflexivity|reflexivity|reflexivity|reflexivity
    |discriminate|discriminate|reflexivity|reflexivity|reflexivity|discriminate].
Defined.

Lemma tick_cancels_with_the_handle_witness :
  let p := later_poll 5100000000 [feedback [0; 1; 1; 2]%nat] None in
  let run := fib_tick p fib_active in
  (forall s, fst run = Normal s -> handle_known nat Sequence Sequence (snd run)) /\
  (cancellations (snd run) <> cancellations fib_active ->
   exists c h, goal_handle_ (snd run) = Some h /\
               In (async_cancel_goal c (Some h)) (trace (snd run))).
Proof.
  intros p run.
  apply (tick_cancels_with_the_handle nat Sequence Sequence
           fib_onResultReceived fib_onFeeback default_onFailure
           p fib_active (fst run) (snd run));
    [reflexivity|intros _; discriminate|vm_compute; reflexivity].
Defined.


(** The node of the scenario, answered SUCCESS and not reset. *)
Lemma tick_without_reset_witness :
  fib_tick (first_poll true (Some 12%nat) 7000000000)
           (set_status nat Sequence Sequence SUCCESS fib_active)
    = (Normal RUNNING, set_status nat Sequence Sequence SUCCESS fib_active).
Proof.
  apply (tick_without_reset nat Sequence Sequence
           fib_onResultReceived fib_onFeeback default_onFailure
           (first_poll true (Some 12%nat) 7000000000)
           (set_status nat Sequence Sequence SUCCESS fib_active)
           (client_of "fibonacci"));
    [discriminate|discriminate|reflexivity].
Defined.

Lemma tick_answers_one_of_three_witness :
  let p := later_poll 5100000000 [feedback [0; 1; 1; 2]%nat] None in
  let run := fib_tick p fib_active in
  (forall s, fst run = Normal s -> answer s) /\
  (status (snd run) = IDLE \/ answer (on_feedback_state_change_ (snd run))).
Proof.
  intros p run.
  apply (tick_answers_one_of_three nat Sequence Sequence
           fib_onResultReceived fib_onFeeback default_onFailure
           p fib_active (fst run) (snd run)).
  - intro fb. unfold answer, fib_onFeeback.
    destruct (3 <? length fb)%nat; [right; right|left]; reflexivity.
  - right. left. reflexivity.
  - vm_compute. reflexivity.
Defined.

(** The [onFeeback] the header supplies. *)
Definition default_onFeeback (_ : Sequence) : NodeStatus := RUNNING.

Lemma default_onFeeback_never_cancels_witness :
  let p := later_poll 5100000000
             [feedback [0; 1; 1; 2]%nat;
              wrapped_result (succeeded [0; 1; 1; 2; 3]%nat)] None in
  let run := tick nat Sequence Sequence fib_onResultReceived default_onFeeback
                  default_onFailure p fib_active in
  cancellations (snd run) = cancellations fib_active /\
  (status (snd run) = IDLE \/ on_feedback_state_change_ (snd run) = RUNNING).
Proof.
  intros p run.
  apply (default_onFeeback_never_cancels nat Sequence Sequence
           fib_onResultReceived default_onFeeback default_onFailure
           p fib_active (fst run) (snd run));
    [reflexivity|right; reflexivity|vm_compute; reflexivity].
Defined.

Lemma default_onFailure_answers_FAILURE_witness :
  let run := fib_tick (later_poll 6000000001 [] None) fib_sent in
  failures nat Sequence Sequence (snd run) = failures nat Sequence Sequence fib_sent \/
  (failures nat Sequence Sequence (snd run)
     = S (failures nat Sequence Sequence fib_sent) /\
   fst run = Normal FAILURE).
Proof.
  intro run.
  apply (default_onFailure_answers_FAILURE nat Sequence Sequence
           fib_onResultReceived fib_onFeeback default_onFailure
           (fun _ => eq_refl)
           (later_poll 6000000001 [] None) fib_sent (fst run) (snd run)).
  vm_compute. reflexivity.
Defined.

(** The goal is sent at second 5 and the node is polled 400 ms and 800 ms
    later; the poll 200000001 ns after the last of them reports the
    timeout of one second. *)
Lemma timeout_runs_from_the_first_poll_witness :
  let polls := [later_poll 5400000000 [] None; later_poll 5800000000 [] None] in
  let nk :=
    snd (fib_tick (later_poll 5800000000 [] None)
           (snd (fib_tick (later_poll 5400000000 [] None) fib_sent))) in
  time_goal_sent_ nat Sequence Sequence nk = 5000000000 /\
  server_timeout_ nat Sequence Sequence nk = 1000 /\
  fst (fib_tick (later_poll 6000000001 [] None) nk) = Normal FAILURE.
Proof.
  intros polls nk.
  apply (timeout_runs_from_the_first_poll nat Sequence Sequence
           fib_onResultReceived fib_onFeeback default_onFailure
           (first_poll true (Some 10%nat) 5000000000) polls
           (later_poll 6000000001 [] None) fib_node fib_sent nk);
    [reflexivity|vm_compute; reflexivity|reflexivity|vm_compute; reflexivity
    |reflexivity|reflexivity|reflexivity].
Defined.
